(** * django_multimedia: access control, project lifecycle and associations

    A shallow embedding of the models and request handlers of the
    [accounts], [projects] and [media] applications.

    - A database table is the list of its rows in primary-key order (rows
      are appended on INSERT with the next key of the table's sequence),
      together with that sequence.  A related object is represented by its
      key: a foreign-key column holds the key of the row it points to.
    - A model method that only reads takes the tables it queries; a method
      or manager call that writes returns the new table, or the exception
      the database raises ([unique=True] and [unique_together] are checked
      on INSERT and UPDATE).
    - A view takes the request and the database and returns the response,
      the messages it queued and the database it leaves behind.  Statements
      run in autocommit mode, so what was written before an exception stays
      written, except inside [transaction.atomic].
    - A [str] is a Rocq string.  The methods that classify characters
      ([strip], [split], [lower]) are Python's on ASCII text, which
      [Py.isascii] recognises; Python treats some characters outside ASCII
      as white space or as cased letters too.  Integer columns are
      unbounded as Python's [int] is: the range of an [IntegerField]
      depends on the database backend, which [settings.py] takes from the
      environment, and [integer_safe] is the range that every backend
      stores.  The length limits of character columns are not modelled.
      Columns that no handler reads back (timestamps set by [auto_now],
      file blobs, password hashes) are left out of the rows.
    - The views modelled are the ones that write to the team, membership,
      project, comment, like and association tables, with [register],
      [team_detail], [project_detail] and [media_delete], and further on the
      profile pages and the media upload, edit and detail views.  The
      remaining routes (listings, login and logout) only read. *)

From stdpp Require Import base option list strings gmap.
From Stdlib Require Import Ascii ZArith Lia.

Local Open Scope string_scope.
Local Open Scope list_scope.

(** ** Python builtins used by the handlers *)

Module Py.

(** [s.isascii()] *)
Definition isascii_char (c : ascii) : bool := (nat_of_ascii c <? 128)%nat.

Fixpoint isascii (s : string) : bool :=
  match s with
  | EmptyString => true
  | String c r => isascii_char c && isascii r
  end.

(** [str.isspace] on ASCII characters: the white space of ASCII text.
    (Unicode has more, U+0085 and U+00A0 among them, which [strip] and
    [split] remove as well; text with such characters is outside
    [isascii].) *)
Definition isspace (c : ascii) : bool :=
  let n := nat_of_ascii c in
  ((9 <=? n)%nat && (n <=? 13)%nat) || ((28 <=? n)%nat && (n <=? 32)%nat).

Fixpoint lstrip (s : string) : string :=
  match s with
  | EmptyString => EmptyString
  | String c r => if isspace c then lstrip r else s
  end.

Definition rstrip (s : string) : string :=
  String.rev (lstrip (String.rev s)).

(** [s.strip()] *)
Definition strip (s : string) : string := rstrip (lstrip s).

(** [s.split()]: the maximal runs of non-space characters. *)
Fixpoint split_go (cur : option string) (s : string) : list string :=
  match s with
  | EmptyString =>
      match cur with Some w => [String.rev w] | None => [] end
  | String c r =>
      if isspace c then
        match cur with
        | Some w => String.rev w :: split_go None r
        | None => split_go None r
        end
      else split_go (Some (String c (default EmptyString cur))) r
  end.

Definition split (s : string) : list string := split_go None s.

(** [sep.join(l)] *)
Fixpoint join (sep : string) (l : list string) : string :=
  match l with
  | [] => EmptyString
  | [x] => x
  | x :: r => x +:+ sep +:+ join sep r
  end.

(** The text between double quotes, as f-strings of the views print it. *)
Definition quoted (s : string) : string :=
  String (ascii_of_nat 34) (s +:+ String (ascii_of_nat 34) EmptyString).

(** Truth value of a [str]. *)
Definition truthy (s : string) : bool :=
  match s with EmptyString => false | String _ _ => true end.

(** Truth value of an [Optional[str]], as returned by [dict.get]. *)
Definition truthy_opt (o : option string) : bool :=
  match o with Some s => truthy s | None => false end.

End Py.

(** ** Exceptions and results *)

Inductive Exc : Type :=
  | DoesNotExist (model : string)
  | MultipleObjectsReturned (model : string)
  | IntegrityError (constraint : string)
  | DatabaseError
  | ValueError
  | IndexError
  | Http404.

Inductive result (A : Type) : Type :=
  | Ok (a : A)
  | Raise (e : Exc).
Arguments Ok {A} a.
Arguments Raise {A} e.

(** ** Tables and querysets *)

Record Table (A : Type) : Type := mkTable {
  rows : list A;
  next_pk : nat        (* the next value of the key sequence *)
}.
Arguments mkTable {A} rows next_pk.
Arguments rows {A} _.
Arguments next_pk {A} _.

(** INSERT of a row that takes its key from the sequence. *)
Definition insert {A : Type} (row : nat -> A) (t : Table A) : Table A :=
  mkTable (rows t ++ [row (next_pk t)]) (S (next_pk t)).

(** DELETE ... WHERE P *)
Definition delete_where {A : Type} (P : A -> Prop)
    `{forall x, Decision (P x)} (t : Table A) : Table A :=
  mkTable (filter (fun x => ~ P x) (rows t)) (next_pk t).

(** UPDATE ... SET (f row) WHERE P *)
Definition update_where {A : Type} (P : A -> Prop)
    `{forall x, Decision (P x)} (f : A -> A) (t : Table A) : Table A :=
  mkTable ((fun x => if decide (P x) then f x else x) <$> rows t) (next_pk t).

(** [Model.objects.get(...)]: exactly one row must match. *)
Definition objects_get {A : Type} (model : string) (P : A -> Prop)
    `{forall x, Decision (P x)} (rows : list A) : result A :=
  match filter P rows with
  | [] => Raise (DoesNotExist model)
  | [x] => Ok x
  | _ :: _ :: _ => Raise (MultipleObjectsReturned model)
  end.

(** [get_object_or_404(Model, ...)] *)
Definition get_object_or_404 {A : Type} (model : string) (P : A -> Prop)
    `{forall x, Decision (P x)} (rows : list A) : result A :=
  match objects_get model P rows with
  | Raise (DoesNotExist _) => Raise Http404
  | r => r
  end.

(** [queryset.first()] of a queryset without explicit ordering: the match
    with the least primary key. *)
Definition first {A : Type} (P : A -> Prop)
    `{forall x, Decision (P x)} (rows : list A) : option A :=
  head (filter P rows).

(** [queryset.count()] *)
Definition count {A : Type} (P : A -> Prop)
    `{forall x, Decision (P x)} (rows : list A) : nat :=
  length (filter P rows).

(** [queryset.exists()] *)
Definition exists_ {A : Type} (P : A -> Prop)
    `{forall x, Decision (P x)} (rows : list A) : bool :=
  bool_decide (filter P rows <> []).

(** ** The acting identity: [request.user] *)

Inductive Actor : Type :=
  | AnonymousUser
  | Authenticated (pk : nat).

Definition is_authenticated (u : Actor) : bool :=
  match u with AnonymousUser => false | Authenticated _ => true end.

(** [user.pk], [None] for the anonymous user. *)
Definition actor_pk (u : Actor) : option nat :=
  match u with AnonymousUser => None | Authenticated k => Some k end.

(** [row.fk == user] for a foreign key column [fk] to [User]; a related
    object is represented by its key throughout. *)
Definition is_user (fk : nat) (u : Actor) : bool :=
  bool_decide (actor_pk u = Some fk).

(** ** accounts.models *)

Module User.
Record t : Type := mk {
  pk : nat;
  username : string;
  email : string;
  first_name : string;
  last_name : string
}.
End User.

Module UserProfile.
Record t : Type := mk {
  pk : nat;
  user : nat;
  role : string;
  is_public_portfolio : bool;
  portfolio_theme : string;
  total_projects : Z;
  total_views : Z
}.

(** [UserProfile.objects.create(user=u)] with the field defaults; [user]
    is a one-to-one key, hence unique. *)
Definition create (u : nat) (tbl : Table t) : result (Table t) :=
  if exists_ (fun p => user p = u) (rows tbl)
  then Raise (IntegrityError "accounts_userprofile.user_id")
  else Ok (insert (fun k => mk k u "creator" true "light" 0 0) tbl).
End UserProfile.

Module TeamMembership.
Record t : Type := mk {
  pk : nat;
  team : nat;
  user : nat;
  role : string
}.

Definition can_edit (self : t) : bool :=
  bool_decide (role self ∈ ["owner"; "editor"]).

Definition can_view (self : t) : bool :=
  bool_decide (role self ∈ ["owner"; "editor"; "viewer"; "commenter"]).

Definition can_comment (self : t) : bool :=
  bool_decide (role self ∈ ["owner"; "editor"; "commenter"]).

(** The rows of the pair [(team, user)]. *)
Definition of_pair (t_pk : nat) (u : Actor) (m : t) : Prop :=
  actor_pk u = Some (user m) /\ team m = t_pk.

#[global] Instance of_pair_dec t_pk u m : Decision (of_pair t_pk u m).
Proof. unfold of_pair. apply _. Defined.

(** [TeamMembership.objects.create(team=, user=, role=)] under
    [unique_together = ('team', 'user')]. *)
Definition create (t_pk u_pk : nat) (r : string)
    (tbl : Table t) : result (Table t) :=
  if exists_ (of_pair t_pk (Authenticated u_pk)) (rows tbl)
  then Raise (IntegrityError "accounts_teammembership.team_id, user_id")
  else Ok (insert (fun k => mk k t_pk u_pk r) tbl).
End TeamMembership.

Module Team.
Record t : Type := mk {
  pk : nat;
  name : string;
  description : string;
  owner : nat;
  is_public : bool
}.

(** [self.members.count()] *)
Definition get_member_count (memberships : Table TeamMembership.t)
    (self : nat) : nat :=
  count (fun m => TeamMembership.team m = self) (rows memberships).

(** [self.members.filter(pk=user.pk).exists()]: the many-to-many relation
    goes through [TeamMembership]; [self] is the team's key. *)
Definition is_member (memberships : Table TeamMembership.t)
    (self : nat) (u : Actor) : bool :=
  exists_ (TeamMembership.of_pair self u) (rows memberships).

(** [Team.objects.create(...)]; [name] is unique. *)
Definition create (n d : string) (o : nat) (pub : bool)
    (tbl : Table t) : result (nat * Table t) :=
  if exists_ (fun x => name x = n) (rows tbl)
  then Raise (IntegrityError "accounts_team.name")
  else Ok (next_pk tbl, insert (fun k => mk k n d o pub) tbl).
End Team.

(** ** projects.models *)

Module ProjectCategory.
Record t : Type := mk {
  pk : nat;
  name : string;
  slug : string
}.
End ProjectCategory.

Module Project.
Record t : Type := mk {
  pk : nat;
  title : string;
  slug : string;
  description : string;
  creator : nat;
  team : option nat;
  category : option nat;
  tags : string;
  status : string;
  is_public : bool;
  is_featured : bool;
  view_count : Z;
  like_count : Z;
  published_at : option Z
}.

(** Attribute assignment [self.f = v]. *)
Definition set_title v (p : t) : t :=
  mk (pk p) v (slug p) (description p) (creator p) (team p) (category p)
     (tags p) (status p) (is_public p) (is_featured p) (view_count p)
     (like_count p) (published_at p).
Definition set_slug v (p : t) : t :=
  mk (pk p) (title p) v (description p) (creator p) (team p) (category p)
     (tags p) (status p) (is_public p) (is_featured p) (view_count p)
     (like_count p) (published_at p).
Definition set_description v (p : t) : t :=
  mk (pk p) (title p) (slug p) v (creator p) (team p) (category p)
     (tags p) (status p) (is_public p) (is_featured p) (view_count p)
     (like_count p) (published_at p).
Definition set_category v (p : t) : t :=
  mk (pk p) (title p) (slug p) (description p) (creator p) (team p) v
     (tags p) (status p) (is_public p) (is_featured p) (view_count p)
     (like_count p) (published_at p).
Definition set_tags v (p : t) : t :=
  mk (pk p) (title p) (slug p) (description p) (creator p) (team p)
     (category p) v (status p) (is_public p) (is_featured p) (view_count p)
     (like_count p) (published_at p).
Definition set_status v (p : t) : t :=
  mk (pk p) (title p) (slug p) (description p) (creator p) (team p)
     (category p) (tags p) v (is_public p) (is_featured p) (view_count p)
     (like_count p) (published_at p).
Definition set_is_public v (p : t) : t :=
  mk (pk p) (title p) (slug p) (description p) (creator p) (team p)
     (category p) (tags p) (status p) v (is_featured p) (view_count p)
     (like_count p) (published_at p).
Definition set_is_featured v (p : t) : t :=
  mk (pk p) (title p) (slug p) (description p) (creator p) (team p)
     (category p) (tags p) (status p) (is_public p) v (view_count p)
     (like_count p) (published_at p).
Definition set_view_count v (p : t) : t :=
  mk (pk p) (title p) (slug p) (description p) (creator p) (team p)
     (category p) (tags p) (status p) (is_public p) (is_featured p) v
     (like_count p) (published_at p).
Definition set_like_count v (p : t) : t :=
  mk (pk p) (title p) (slug p) (description p) (creator p) (team p)
     (category p) (tags p) (status p) (is_public p) (is_featured p)
     (view_count p) v (published_at p).
Definition set_published_at v (p : t) : t :=
  mk (pk p) (title p) (slug p) (description p) (creator p) (team p)
     (category p) (tags p) (status p) (is_public p) (is_featured p)
     (view_count p) (like_count p) v.

Section Save.
(** [django.utils.text.slugify] *)
Variable slugify : string -> string.

(** The override of [save]: "Auto-generate slug if not provided." *)
Definition fill_slug (self : t) : t :=
  if negb (Py.truthy (slug self))
  then set_slug (slugify (title self)) self
  else self.

(** Another row holds the slug: the [unique=True] of the column. *)
Definition slug_taken (self : t) (tbl : Table t) : bool :=
  exists_ (fun q => slug q = slug self /\ pk q <> pk self) (rows tbl).

Definition has_row (self : t) (tbl : Table t) : bool :=
  exists_ (fun q => pk q = pk self) (rows tbl).

(** [self.save()] of an object that has a key: UPDATE of every column
    of its row, INSERT when no row has the key.  Returns [self] as the
    override leaves it. *)
Definition save (self : t) (tbl : Table t) : result (t * Table t) :=
  let self := fill_slug self in
  if slug_taken self tbl then Raise (IntegrityError "projects_project.slug")
  else if has_row self tbl
  then Ok (self, update_where (fun q => pk q = pk self) (fun _ => self) tbl)
  else Ok (self, mkTable (rows tbl ++ [self]) (next_pk tbl)).

(** [self.save(update_fields=[f])]: the override still runs, the UPDATE
    writes column [f] only ([copy self row] is the row with [self]'s
    value of [f]) and must reach a row. *)
Definition save_update_fields (copy : t -> t -> t) (self : t)
    (tbl : Table t) : result (t * Table t) :=
  let self := fill_slug self in
  if has_row self tbl
  then Ok (self, update_where (fun q => pk q = pk self) (copy self) tbl)
  else Raise DatabaseError.

(** [Project.objects.create(title=, description=, category=, tags=,
    creator=, status=)]: the other columns take their defaults, the
    slug is empty until [save] fills it. *)
Definition create (ti de : string) (ca : option nat) (ta : string)
    (cr : nat) (st : string) (tbl : Table t) : result (t * Table t) :=
  let self :=
    fill_slug (mk (next_pk tbl) ti "" de cr None ca ta st false false 0 0 None) in
  if slug_taken self tbl then Raise (IntegrityError "projects_project.slug")
  else Ok (self, insert (fun _ => self) tbl).

(** "Publish the project." *)
Definition publish (now : Z) (self : t) (tbl : Table t)
    : result (t * Table t) :=
  let self := set_status "published" self in
  let self := set_published_at (Some now) self in
  save self tbl.

(** "Increment view counter."  (The counter is an unbounded integer here;
    in the code the UPDATE of a value outside the range of the column,
    which depends on the backend, raises.) *)
Definition increment_view_count (self : t) (tbl : Table t)
    : result (t * Table t) :=
  let self := set_view_count (view_count self + 1)%Z self in
  save_update_fields (fun s q => set_view_count (view_count s) q) self tbl.
End Save.

(** "Check if user can edit this project." *)
Definition can_edit (memberships : Table TeamMembership.t)
    (self : t) (user : Actor) : bool :=
  if negb (is_authenticated user) then false
  else if is_user (creator self) user then true
  else
    match team self with
    | Some tm =>
        match first (TeamMembership.of_pair tm user) (rows memberships) with
        | Some membership =>
            if TeamMembership.can_edit membership then true else false
        | None => false
        end
    | None => false
    end.

(** "Check if user can view this project." *)
Definition can_view (memberships : Table TeamMembership.t)
    (self : t) (user : Actor) : bool :=
  if is_public self then true
  else if negb (is_authenticated user) then false
  else if is_user (creator self) user then true
  else
    match team self with
    | Some tm => if Team.is_member memberships tm user then true else false
    | None => false
    end.
End Project.

Module ProjectComment.
Record t : Type := mk {
  pk : nat;
  project : nat;
  author : nat;
  content : string
}.

(** [ProjectComment.objects.create(project=, author=, content=)] *)
Definition create (p a : nat) (c : string) (tbl : Table t) : Table t :=
  insert (fun k => mk k p a c) tbl.
End ProjectComment.

Module ProjectLike.
Record t : Type := mk {
  pk : nat;
  project : nat;
  user : nat
}.

(** The rows of the pair [(project, user)]. *)
Definition of_pair (p : nat) (u : Actor) (l : t) : Prop :=
  project l = p /\ actor_pk u = Some (user l).

#[global] Instance of_pair_dec p u l : Decision (of_pair p u l).
Proof. unfold of_pair. apply _. Defined.

(** [ProjectLike.objects.create(project=, user=)] under
    [unique_together = ('project', 'user')]. *)
Definition create (p u : nat) (tbl : Table t) : result (Table t) :=
  if exists_ (of_pair p (Authenticated u)) (rows tbl)
  then Raise (IntegrityError "projects_projectlike.project_id, user_id")
  else Ok (insert (fun k => mk k p u) tbl).
End ProjectLike.

(** ** media.models *)

Module MediaAsset.
Record t : Type := mk {
  pk : nat;
  title : string;
  description : string;
  file_type : string;
  owner : nat;
  is_public : bool
}.
End MediaAsset.

Module ProjectMediaAssociation.
Record t : Type := mk {
  pk : nat;
  project : nat;
  media : nat;
  order : Z;
  caption : string;
  is_cover : bool
}.

(** The rows of the pair [(project, media)]. *)
Definition of_pair (p m : nat) (a : t) : Prop :=
  project a = p /\ media a = m.

#[global] Instance of_pair_dec p m a : Decision (of_pair p m a).
Proof. unfold of_pair. apply _. Defined.

(** [ProjectMediaAssociation.objects.create(project=, media=, caption=,
    is_cover=, order=)] under [unique_together = ('project', 'media')]. *)
Definition create (p m : nat) (c : string) (cover : bool) (o : Z)
    (tbl : Table t) : result (Table t) :=
  if exists_ (of_pair p m) (rows tbl)
  then Raise (IntegrityError "media_projectmediaassociation.project_id, media_id")
  else Ok (insert (fun k => mk k p m o c cover) tbl).
End ProjectMediaAssociation.

(** ** The database, requests and responses *)

Record DB : Type := mkDB {
  users : Table User.t;
  profiles : Table UserProfile.t;
  teams : Table Team.t;
  memberships : Table TeamMembership.t;
  categories : Table ProjectCategory.t;
  projects : Table Project.t;
  comments : Table ProjectComment.t;
  likes : Table ProjectLike.t;
  media_assets : Table MediaAsset.t;
  associations : Table ProjectMediaAssociation.t
}.

Definition set_users v (d : DB) : DB :=
  mkDB v (profiles d) (teams d) (memberships d) (categories d) (projects d)
       (comments d) (likes d) (media_assets d) (associations d).
Definition set_profiles v (d : DB) : DB :=
  mkDB (users d) v (teams d) (memberships d) (categories d) (projects d)
       (comments d) (likes d) (media_assets d) (associations d).
Definition set_teams v (d : DB) : DB :=
  mkDB (users d) (profiles d) v (memberships d) (categories d) (projects d)
       (comments d) (likes d) (media_assets d) (associations d).
Definition set_memberships v (d : DB) : DB :=
  mkDB (users d) (profiles d) (teams d) v (categories d) (projects d)
       (comments d) (likes d) (media_assets d) (associations d).
Definition set_projects v (d : DB) : DB :=
  mkDB (users d) (profiles d) (teams d) (memberships d) (categories d) v
       (comments d) (likes d) (media_assets d) (associations d).
Definition set_comments v (d : DB) : DB :=
  mkDB (users d) (profiles d) (teams d) (memberships d) (categories d)
       (projects d) v (likes d) (media_assets d) (associations d).
Definition set_likes v (d : DB) : DB :=
  mkDB (users d) (profiles d) (teams d) (memberships d) (categories d)
       (projects d) (comments d) v (media_assets d) (associations d).
Definition set_media_assets v (d : DB) : DB :=
  mkDB (users d) (profiles d) (teams d) (memberships d) (categories d)
       (projects d) (comments d) (likes d) v (associations d).
Definition set_associations v (d : DB) : DB :=
  mkDB (users d) (profiles d) (teams d) (memberships d) (categories d)
       (projects d) (comments d) (likes d) (media_assets d) v.

Record HttpRequest : Type := mkRequest {
  method : string;
  user : Actor;
  POST : gmap string string;
  now : Z                  (* what [timezone.now()] returns while it is served *)
}.

Inductive Level : Type := success | warning | error.

(** A queued message; [MsgExc l prefix e] is [f'{prefix}{str(e)}']. *)
Inductive Message : Type :=
  | Msg (l : Level) (text : string)
  | MsgExc (l : Level) (prefix : string) (e : Exc).

Inductive Response : Type :=
  | Redirect (to : string)
  | Render (template : string)
  | MethodNotAllowed            (* refused by [@require_http_methods] *)
  | NotFound                    (* an [Http404] that reached the framework *)
  | ServerError (e : Exc).      (* any other exception that did *)

Record Outcome : Type := Out {
  response : Response;
  messages : list Message;
  db_after : DB
}.

(** An exception leaves the view with the database as it is by then. *)
Definition uncaught (e : Exc) (d : DB) : Outcome :=
  match e with
  | Http404 => Out NotFound [] d
  | _ => Out (ServerError e) [] d
  end.

(** [@login_required], with [LOGIN_URL = 'accounts:login']. *)
Definition login_required (view : HttpRequest -> DB -> Outcome)
    (request : HttpRequest) (d : DB) : Outcome :=
  if is_authenticated (user request) then view request d
  else Out (Redirect "accounts:login") [] d.

(** Passing [request.user] where a [User] instance is required. *)
Definition user_instance (u : Actor) : result nat :=
  match u with
  | Authenticated k => Ok k
  | AnonymousUser => Raise ValueError
  end.

(** A block of statements gives what it returns or raises together with
    the database as its statements have left it by then.

    [with transaction.atomic(): body]: COMMIT when the body returns,
    ROLLBACK to the database at entry when it raises. *)
Definition atomic {A : Type} (body : DB -> result A * DB) (d : DB)
    : result A * DB :=
  match body d with
  | (Ok a, d') => (Ok a, d')
  | (Raise e, _) => (Raise e, d)
  end.

(** [request.POST.get(k, dflt)] *)
Definition POST_get (request : HttpRequest) (k dflt : string) : string :=
  default dflt (POST request !! k).

(** [request.POST.get(k) == 'on'] *)
Definition POST_on (request : HttpRequest) (k : string) : bool :=
  bool_decide (POST request !! k = Some "on").

(** [project.delete()]: the row goes, and with it the rows whose foreign key
    to it is [on_delete=CASCADE]. *)
Definition Project_delete (self : Project.t) (d : DB) : DB :=
  let k := Project.pk self in
  let d := set_comments
             (delete_where (fun c => ProjectComment.project c = k) (comments d)) d in
  let d := set_likes
             (delete_where (fun l => ProjectLike.project l = k) (likes d)) d in
  let d := set_associations
             (delete_where (fun a => ProjectMediaAssociation.project a = k)
                (associations d)) d in
  set_projects (delete_where (fun p => Project.pk p = k) (projects d)) d.

(** [media.delete()], cascading to the associations of the asset. *)
Definition MediaAsset_delete (self : MediaAsset.t) (d : DB) : DB :=
  let k := MediaAsset.pk self in
  let d := set_associations
             (delete_where (fun a => ProjectMediaAssociation.media a = k)
                (associations d)) d in
  set_media_assets (delete_where (fun m => MediaAsset.pk m = k) (media_assets d)) d.

(** ** The views *)

(** The lookups [slug=slug] and [pk=pk] on [Project]. *)
Definition by_slug (slug : string) (p : Project.t) : Prop := Project.slug p = slug.

#[global] Instance by_slug_dec slug p : Decision (by_slug slug p).
Proof. unfold by_slug. apply _. Defined.

Definition by_pk (k : nat) (p : Project.t) : Prop := Project.pk p = k.

#[global] Instance by_pk_dec k p : Decision (by_pk k p).
Proof. unfold by_pk. apply _. Defined.

Section Views.

(** Library functions the views call. *)
Variable slugify : string -> string.          (* django.utils.text.slugify *)
Variable int : string -> option Z.            (* Python's int(), None for ValueError *)
Variable normalize_email : string -> string.  (* UserManager.normalize_email *)

(** *** accounts.views *)

(** Modelled from the spec: the [post_save] receiver on [User] that the
    comment in [register] refers to ("UserProfile is created automatically
    by signal") is not among the sources.  The spec says "Profile is
    created implicitly alongside User creation": when a [User] row is
    inserted, the receiver creates the profile of that user. *)
Definition create_user_profile (instance : nat) (d : DB) : result unit * DB :=
  match UserProfile.create instance (profiles d) with
  | Ok tbl => (Ok tt, set_profiles tbl d)
  | Raise e => (Raise e, d)
  end.

(** [User.objects.create_user(username=, email=, password=, first_name=,
    last_name=)]: INSERT under the unique [username], then the [post_save]
    signal, synchronously.  The INSERT is a statement of its own: when the
    receiver raises, the user row is in the database the call leaves
    behind.  (The manager's [normalize_username], NFKC, is the identity on
    ASCII text.) *)
Definition create_user (username email first_name last_name : string)
    (d : DB) : result nat * DB :=
  if exists_ (fun u => User.username u = username) (rows (users d))
  then (Raise (IntegrityError "auth_user.username"), d)
  else
    let k := next_pk (users d) in
    let d := set_users
               (insert (fun k => User.mk k username (normalize_email email)
                                   first_name last_name) (users d)) d in
    match create_user_profile k d with
    | (Ok _, d) => (Ok k, d)
    | (Raise e, d) => (Raise e, d)
    end.

(** [full_name.split()[0] if full_name else ''] *)
Definition first_name_of (full_name : string) : result string :=
  if Py.truthy full_name then
    match Py.split full_name with
    | w :: _ => Ok w
    | [] => Raise IndexError
    end
  else Ok "".

(** [' '.join(full_name.split()[1:]) if full_name else ''] *)
Definition last_name_of (full_name : string) : string :=
  if Py.truthy full_name then Py.join " " (tail (Py.split full_name))
  else "".

Definition register (request : HttpRequest) (d : DB) : Outcome :=
  if negb (bool_decide (method request ∈ ["GET"; "POST"]))
  then Out MethodNotAllowed [] d
  else if is_authenticated (user request)
  then Out (Redirect "projects:dashboard") [] d
  else if bool_decide (method request = "POST") then
    let username := POST request !! "username" in
    let email := POST request !! "email" in
    let password := POST request !! "password" in
    let password_confirm := POST request !! "password_confirm" in
    let full_name := POST_get request "full_name" "" in
    if negb (forallb Py.truthy_opt [username; email; password; password_confirm])
    then Out (Redirect "accounts:register") [Msg error "All fields are required."] d
    else if bool_decide (password <> password_confirm)
    then Out (Redirect "accounts:register") [Msg error "Passwords do not match."] d
    else if exists_ (fun u => Some (User.username u) = username) (rows (users d))
    then Out (Redirect "accounts:register") [Msg error "Username already exists."] d
    else if exists_ (fun u => Some (User.email u) = email) (rows (users d))
    then Out (Redirect "accounts:register") [Msg error "Email already exists."] d
    else
      let '(r, d) :=
        atomic (fun d =>
          match first_name_of full_name with
          | Raise e => (Raise e, d)
          | Ok first_name =>
              create_user (default "" username) (default "" email)
                first_name (last_name_of full_name) d
          end) d in
      match r with
      | Ok _ =>
          Out (Redirect "accounts:login")
              [Msg success "Registration successful! Please login."] d
      | Raise e =>
          Out (Redirect "accounts:register") [MsgExc error "Registration failed: " e] d
      end
  else Out (Render "accounts/register.html") [] d.

Definition team_create : HttpRequest -> DB -> Outcome :=
  login_required (fun request d =>
    if bool_decide (method request = "POST") then
      let name := POST request !! "name" in
      let description := POST_get request "description" "" in
      let is_public := POST_on request "is_public" in
      if negb (Py.truthy_opt name)
      then Out (Redirect "accounts:team_create") [Msg error "Team name is required."] d
      else
        let failed e d :=
          Out (Redirect "accounts:team_create") [MsgExc error "Error creating team: " e] d in
        match user_instance (user request) with
        | Raise e => failed e d
        | Ok u =>
            match Team.create (default "" name) description u is_public (teams d) with
            | Raise e => failed e d
            | Ok (team, tbl) =>
                let d := set_teams tbl d in
                match TeamMembership.create team u "owner" (memberships d) with
                | Raise e => failed e d
                | Ok tbl =>
                    Out (Redirect "accounts:team_detail")
                        [Msg success ("Team " +:+ Py.quoted (default "" name)
                                     +:+ " created successfully.")]
                        (set_memberships tbl d)
                end
            end
        end
    else Out (Render "accounts/team_create.html") [] d).

Definition team_detail (request : HttpRequest) (pk : nat) (d : DB) : Outcome :=
  match get_object_or_404 "Team" (fun t => Team.pk t = pk) (rows (teams d)) with
  | Raise e => uncaught e d
  | Ok team =>
      if negb (Team.is_public team)
         && negb (Team.is_member (memberships d) (Team.pk team) (user request))
      then Out (Redirect "projects:dashboard")
               [Msg error "You do not have access to this team."] d
      else Out (Render "accounts/team_detail.html") [] d
  end.

Definition team_add_member (request : HttpRequest) (pk : nat)
    : DB -> Outcome :=
  login_required (fun request d =>
    match get_object_or_404 "Team" (fun t => Team.pk t = pk) (rows (teams d)) with
    | Raise e => uncaught e d
    | Ok team =>
        if negb (is_user (Team.owner team) (user request))
        then Out (Redirect "accounts:team_detail")
                 [Msg error "Only team owner can add members."] d
        else if bool_decide (method request = "POST") then
          let username := POST request !! "username" in
          let role := POST_get request "role" "viewer" in
          (* "except User.DoesNotExist" is never taken: get_object_or_404
             has turned that exception into Http404. *)
          let failed e d :=
            Out (Render "accounts/team_add_member.html")
                [MsgExc error "Error adding member: " e] d in
          match get_object_or_404 "User"
                  (fun u => Some (User.username u) = username) (rows (users d)) with
          | Raise (DoesNotExist _) =>
              Out (Render "accounts/team_add_member.html") [Msg error "User not found."] d
          | Raise e => failed e d
          | Ok u =>
              if Team.is_member (memberships d) (Team.pk team) (Authenticated (User.pk u))
              then Out (Redirect "accounts:team_detail")
                       [Msg warning "User is already a team member."] d
              else
                match TeamMembership.create (Team.pk team) (User.pk u) role
                        (memberships d) with
                | Raise e => failed e d
                | Ok tbl =>
                    Out (Redirect "accounts:team_detail")
                        [Msg success ("User " +:+ Py.quoted (default "" username)
                                      +:+ " added to team.")]
                        (set_memberships tbl d)
                end
          end
        else Out (Render "accounts/team_add_member.html") [] d
    end) request.

(** *** projects.views *)

(** [ProjectCategory.objects.get(id=category_id)], the key arriving as
    text. *)
Definition get_category (category_id : string) (d : DB) : result nat :=
  match int category_id with
  | None => Raise ValueError
  | Some z =>
      match objects_get "ProjectCategory"
              (fun c => Z.of_nat (ProjectCategory.pk c) = z) (rows (categories d)) with
      | Ok c => Ok (ProjectCategory.pk c)
      | Raise e => Raise e
      end
  end.

Definition project_create : HttpRequest -> DB -> Outcome :=
  login_required (fun request d =>
    if bool_decide (method request = "POST") then
      let title := POST request !! "title" in
      let description := POST_get request "description" "" in
      let category_id := POST request !! "category" in
      let tags := POST_get request "tags" "" in
      if negb (Py.truthy_opt title)
      then Out (Redirect "projects:create") [Msg error "Project title is required."] d
      else
        let failed e :=
          Out (Redirect "projects:create") [MsgExc error "Error creating project: " e] d in
        let category :=
          if Py.truthy_opt category_id
          then match get_category (default "" category_id) d with
               | Ok c => Ok (Some c)
               | Raise e => Raise e
               end
          else Ok None in
        match category with
        | Raise e => failed e
        | Ok category =>
            match user_instance (user request) with
            | Raise e => failed e
            | Ok u =>
                match Project.create slugify (default "" title) description
                        category tags u "draft" (projects d) with
                | Raise e => failed e
                | Ok (_, tbl) =>
                    Out (Redirect "projects:edit")
                        [Msg success "Project created successfully."]
                        (set_projects tbl d)
                end
            end
        end
    else Out (Render "projects/create.html") [] d).

Definition project_edit (request : HttpRequest) (slug : string)
    : DB -> Outcome :=
  login_required (fun request d =>
    match get_object_or_404 "Project" (by_slug slug) (rows (projects d)) with
    | Raise e => uncaught e d
    | Ok project =>
        if negb (Project.can_edit (memberships d) project (user request))
        then Out (Redirect "projects:detail")
                 [Msg error "You do not have permission to edit this project."] d
        else if bool_decide (method request = "POST") then
          let project :=
            Project.set_title (POST_get request "title" (Project.title project)) project in
          let project :=
            Project.set_description
              (POST_get request "description" (Project.description project)) project in
          let project :=
            Project.set_tags (POST_get request "tags" (Project.tags project)) project in
          let project := Project.set_is_public (POST_on request "is_public") project in
          let project := Project.set_is_featured (POST_on request "is_featured") project in
          let category_id := POST request !! "category" in
          let with_category :=
            if Py.truthy_opt category_id
            then match get_category (default "" category_id) d with
                 | Ok c => Ok (Project.set_category (Some c) project)
                 | Raise e => Raise e
                 end
            else Ok project in
          match with_category with
          | Raise e => uncaught e d
          | Ok project =>
              match Project.save slugify project (projects d) with
              | Ok (_, tbl) =>
                  Out (Redirect "projects:detail")
                      [Msg success "Project updated successfully."]
                      (set_projects tbl d)
              | Raise e =>
                  Out (Render "projects/edit.html")
                      [MsgExc error "Error updating project: " e] d
              end
          end
        else Out (Render "projects/edit.html") [] d
    end) request.

Definition project_detail (request : HttpRequest) (slug : string) (d : DB)
    : Outcome :=
  match get_object_or_404 "Project" (by_slug slug) (rows (projects d)) with
  | Raise e => uncaught e d
  | Ok project =>
      if negb (Project.can_view (memberships d) project (user request))
      then uncaught Http404 d
      else
        match Project.increment_view_count slugify project (projects d) with
        | Raise e => uncaught e d
        | Ok (_, tbl) => Out (Render "projects/detail.html") [] (set_projects tbl d)
        end
  end.

Definition project_publish (request : HttpRequest) (slug : string)
    : DB -> Outcome :=
  login_required (fun request d =>
    match get_object_or_404 "Project" (by_slug slug) (rows (projects d)) with
    | Raise e => uncaught e d
    | Ok project =>
        if negb (Project.can_edit (memberships d) project (user request))
        then Out (Redirect "projects:detail")
                 [Msg error "You do not have permission to edit this project."] d
        else
          match Project.publish slugify (now request) project (projects d) with
          | Raise e => uncaught e d
          | Ok (_, tbl) =>
              Out (Redirect "projects:detail")
                  [Msg success "Project published successfully."]
                  (set_projects tbl d)
          end
    end) request.

Definition project_delete (request : HttpRequest) (slug : string)
    : DB -> Outcome :=
  login_required (fun request d =>
    match get_object_or_404 "Project" (by_slug slug) (rows (projects d)) with
    | Raise e => uncaught e d
    | Ok project =>
        if negb (Project.can_edit (memberships d) project (user request))
        then Out (Redirect "projects:detail")
                 [Msg error "You do not have permission to delete this project."] d
        else if bool_decide (method request = "POST")
        then Out (Redirect "projects:dashboard")
                 [Msg success "Project deleted successfully."]
                 (Project_delete project d)
        else Out (Render "projects/confirm_delete.html") [] d
    end) request.

Definition project_comment (request : HttpRequest) (slug : string)
    : DB -> Outcome :=
  login_required (fun request d =>
    if bool_decide (method request <> "POST")
    then Out (Redirect "projects:detail") [] d
    else
      match get_object_or_404 "Project" (by_slug slug) (rows (projects d)) with
      | Raise e => uncaught e d
      | Ok project =>
          let content := Py.strip (POST_get request "content" "") in
          if negb (Py.truthy content)
          then Out (Redirect "projects:detail") [Msg error "Comment cannot be empty."] d
          else
            match user_instance (user request) with
            | Raise e =>
                Out (Redirect "projects:detail")
                    [MsgExc error "Error posting comment: " e] d
            | Ok u =>
                Out (Redirect "projects:detail")
                    [Msg success "Comment posted successfully."]
                    (set_comments
                       (ProjectComment.create (Project.pk project) u content (comments d)) d)
            end
      end) request.

Definition project_like (request : HttpRequest) (slug : string)
    : DB -> Outcome :=
  login_required (fun request d =>
    match get_object_or_404 "Project" (by_slug slug) (rows (projects d)) with
    | Raise e => uncaught e d
    | Ok project =>
        let like_obj :=
          first (ProjectLike.of_pair (Project.pk project) (user request)) (rows (likes d)) in
        let save_like_count project d :=
          Project.save_update_fields slugify
            (fun s q => Project.set_like_count (Project.like_count s) q)
            project (projects d) in
        match like_obj with
        | Some like_obj =>
            let d :=
              set_likes
                (delete_where (fun l => ProjectLike.pk l = ProjectLike.pk like_obj)
                   (likes d)) d in
            let project :=
              Project.set_like_count (Z.max 0 (Project.like_count project - 1)) project in
            match save_like_count project d with
            | Raise e => uncaught e d
            | Ok (_, tbl) =>
                Out (Redirect "projects:detail") [Msg success "Like removed."]
                    (set_projects tbl d)
            end
        | None =>
            match user_instance (user request) with
            | Raise e => uncaught e d
            | Ok u =>
                match ProjectLike.create (Project.pk project) u (likes d) with
                | Raise e => uncaught e d
                | Ok tbl =>
                    let d := set_likes tbl d in
                    let project :=
                      Project.set_like_count (Project.like_count project + 1) project in
                    match save_like_count project d with
                    | Raise e => uncaught e d
                    | Ok (_, tbl) =>
                        Out (Redirect "projects:detail") [Msg success "Project liked!"]
                            (set_projects tbl d)
                    end
                end
            end
        end
    end) request.

(** *** media.views *)

(** [MediaAsset.objects.get(id=media_id, owner=request.user)], the key
    arriving as text or not at all. *)
Definition get_owned_media (media_id : option string) (u : Actor) (d : DB)
    : result MediaAsset.t :=
  match media_id with
  | None => Raise (DoesNotExist "MediaAsset")
  | Some s =>
      match int s with
      | None => Raise ValueError
      | Some z =>
          objects_get "MediaAsset"
            (fun m => Z.of_nat (MediaAsset.pk m) = z
                      /\ actor_pk u = Some (MediaAsset.owner m))
            (rows (media_assets d))
      end
  end.

Definition media_delete (request : HttpRequest) (pk : nat) : DB -> Outcome :=
  login_required (fun request d =>
    match get_object_or_404 "MediaAsset" (fun m => MediaAsset.pk m = pk)
            (rows (media_assets d)) with
    | Raise e => uncaught e d
    | Ok media =>
        if negb (is_user (MediaAsset.owner media) (user request))
        then Out (Redirect "media:library")
                 [Msg error "You do not have permission to delete this media."] d
        else if bool_decide (method request = "POST")
        then Out (Redirect "media:library") [Msg success "Media deleted successfully."]
                 (MediaAsset_delete media d)
        else Out (Render "media/confirm_delete.html") [] d
    end) request.

Definition add_media_to_project (request : HttpRequest) (slug : string)
    : DB -> Outcome :=
  login_required (fun request d =>
    match get_object_or_404 "Project" (by_slug slug) (rows (projects d)) with
    | Raise e => uncaught e d
    | Ok project =>
        if negb (Project.can_edit (memberships d) project (user request))
        then Out (Redirect "projects:detail")
                 [Msg error "You do not have permission to edit this project."] d
        else if bool_decide (method request = "POST") then
          let media_id := POST request !! "media_id" in
          let caption := POST_get request "caption" "" in
          let is_cover := POST_on request "is_cover" in
          let failed e :=
            Out (Render "media/add_to_project.html")
                [MsgExc error "Error adding media: " e] d in
          match get_owned_media media_id (user request) d with
          | Raise (DoesNotExist _) =>
              Out (Render "media/add_to_project.html") [Msg error "Media not found."] d
          | Raise e => failed e
          | Ok media =>
              (* project.media_files.count() *)
              let next_order :=
                count (fun a => ProjectMediaAssociation.project a = Project.pk project)
                  (rows (associations d)) in
              match ProjectMediaAssociation.create (Project.pk project)
                      (MediaAsset.pk media) caption is_cover (Z.of_nat next_order)
                      (associations d) with
              | Raise e => failed e
              | Ok tbl =>
                  Out (Redirect "projects:edit") [Msg success "Media added to project."]
                      (set_associations tbl d)
              end
          end
        else Out (Render "media/add_to_project.html") [] d
    end) request.

Definition remove_media_from_project (request : HttpRequest) (pk : nat)
    : DB -> Outcome :=
  login_required (fun request d =>
    match get_object_or_404 "ProjectMediaAssociation"
            (fun a => ProjectMediaAssociation.pk a = pk) (rows (associations d)) with
    | Raise e => uncaught e d
    | Ok association =>
        (* association.project follows the foreign key *)
        match objects_get "Project"
                (fun p => Project.pk p = ProjectMediaAssociation.project association)
                (rows (projects d)) with
        | Raise e => uncaught e d
        | Ok project =>
            if negb (Project.can_edit (memberships d) project (user request))
            then Out (Redirect "projects:detail")
                     [Msg error "You do not have permission to edit this project."] d
            else
              Out (Redirect "projects:edit") [Msg success "Media removed from project."]
                  (set_associations
                     (delete_where
                        (fun a => ProjectMediaAssociation.pk a
                                  = ProjectMediaAssociation.pk association)
                        (associations d)) d)
        end
    end) request.

(** *** The requests the handlers above serve *)

Inductive View : Type :=
  | V_register
  | V_team_create
  | V_team_detail (pk : nat)
  | V_team_add_member (pk : nat)
  | V_project_create
  | V_project_edit (slug : string)
  | V_project_detail (slug : string)
  | V_project_publish (slug : string)
  | V_project_delete (slug : string)
  | V_project_comment (slug : string)
  | V_project_like (slug : string)
  | V_media_delete (pk : nat)
  | V_add_media_to_project (slug : string)
  | V_remove_media_from_project (pk : nat).

Definition serve (v : View) (request : HttpRequest) (d : DB) : Outcome :=
  match v with
  | V_register => register request d
  | V_team_create => team_create request d
  | V_team_detail pk => team_detail request pk d
  | V_team_add_member pk => team_add_member request pk d
  | V_project_create => project_create request d
  | V_project_edit slug => project_edit request slug d
  | V_project_detail slug => project_detail request slug d
  | V_project_publish slug => project_publish request slug d
  | V_project_delete slug => project_delete request slug d
  | V_project_comment slug => project_comment request slug d
  | V_project_like slug => project_like request slug d
  | V_media_delete pk => media_delete request pk d
  | V_add_media_to_project slug => add_media_to_project request slug d
  | V_remove_media_from_project pk => remove_media_from_project request pk d
  end.

(** A run of requests, one after the other. *)
Fixpoint serve_all (l : list (View * HttpRequest)) (d : DB) : DB :=
  match l with
  | [] => d
  | (v, request) :: l => serve_all l (db_after (serve v request d))
  end.

End Views.

(** * Further models: tags, profiles and media files *)

(** ** More Python string methods *)

Module Str.

(** [s.split(sep)] for a one-character separator: the pieces between the
    separators, empty ones included; the empty string gives one empty
    piece. *)
Fixpoint split_on (sep : ascii) (s : string) : list string :=
  match s with
  | EmptyString => [EmptyString]
  | String c r =>
      if bool_decide (c = sep) then EmptyString :: split_on sep r
      else
        match split_on sep r with
        | w :: ws => String c w :: ws
        | [] => [String c EmptyString]
        end
  end.

(** [s.lstrip(c)] for a one-character argument. *)
Fixpoint lstrip_char (c : ascii) (s : string) : string :=
  match s with
  | EmptyString => EmptyString
  | String a r => if bool_decide (a = c) then lstrip_char c r else s
  end.

(** [c.lower()] on ASCII characters: the letters A to Z.  (Cased letters
    outside ASCII are lowered by Python as well; such text is outside
    [Py.isascii].) *)
Definition lower_char (c : ascii) : ascii :=
  let n := nat_of_ascii c in
  if (65 <=? n)%nat && (n <=? 90)%nat then ascii_of_nat (n + 32) else c.

(** [s.lower()] on ASCII text. *)
Fixpoint lower (s : string) : string :=
  match s with
  | EmptyString => EmptyString
  | String c r => String (lower_char c) (lower r)
  end.

End Str.

(** ** [os.path] (POSIX) *)

Module OsPath.

(** The text after the last [sep], if [sep] occurs. *)
Fixpoint after_last (sep : ascii) (s : string) : option string :=
  match s with
  | EmptyString => None
  | String c r =>
      match after_last sep r with
      | Some x => Some x
      | None => if bool_decide (c = sep) then Some r else None
      end
  end.

(** The text from the last dot on, if there is a dot. *)
Fixpoint from_last_dot (s : string) : option string :=
  match s with
  | EmptyString => None
  | String c r =>
      match from_last_dot r with
      | Some x => Some x
      | None => if bool_decide (c = "."%char) then Some s else None
      end
  end.

(** [os.path.splitext(p)[1]]: the extension of the last path component,
    from its last dot on; leading dots of the component do not start an
    extension. *)
Definition splitext_ext (p : string) : string :=
  let component := default p (after_last "/"%char p) in
  default EmptyString (from_last_dot (Str.lstrip_char "."%char component)).

End OsPath.

(** ** projects.models, continued *)

(** "Return tags as a list.":
    [[tag.strip() for tag in self.tags.split(',') if tag.strip()]] *)
Definition get_tags_list (self : Project.t) : list string :=
  Py.strip <$>
    filter (fun tag => Py.truthy (Py.strip tag) = true)
      (Str.split_on ","%char (Project.tags self)).

(** "Return count of media files in project.": [self.media_files.count()] *)
Definition get_media_count (associations : Table ProjectMediaAssociation.t)
    (self : Project.t) : nat :=
  count (fun a => ProjectMediaAssociation.project a = Project.pk self)
    (rows associations).

(** ** Attribute assignment on profiles, users and media assets *)

Definition UserProfile_set_role v (p : UserProfile.t) : UserProfile.t :=
  UserProfile.mk (UserProfile.pk p) (UserProfile.user p) v
    (UserProfile.is_public_portfolio p) (UserProfile.portfolio_theme p)
    (UserProfile.total_projects p) (UserProfile.total_views p).
Definition UserProfile_set_is_public_portfolio v (p : UserProfile.t) : UserProfile.t :=
  UserProfile.mk (UserProfile.pk p) (UserProfile.user p) (UserProfile.role p) v
    (UserProfile.portfolio_theme p) (UserProfile.total_projects p)
    (UserProfile.total_views p).
Definition UserProfile_set_portfolio_theme v (p : UserProfile.t) : UserProfile.t :=
  UserProfile.mk (UserProfile.pk p) (UserProfile.user p) (UserProfile.role p)
    (UserProfile.is_public_portfolio p) v (UserProfile.total_projects p)
    (UserProfile.total_views p).
Definition UserProfile_set_total_views v (p : UserProfile.t) : UserProfile.t :=
  UserProfile.mk (UserProfile.pk p) (UserProfile.user p) (UserProfile.role p)
    (UserProfile.is_public_portfolio p) (UserProfile.portfolio_theme p)
    (UserProfile.total_projects p) v.

Definition User_set_names (fn ln em : string) (u : User.t) : User.t :=
  User.mk (User.pk u) (User.username u) em fn ln.

Definition MediaAsset_set_title v (m : MediaAsset.t) : MediaAsset.t :=
  MediaAsset.mk (MediaAsset.pk m) v (MediaAsset.description m)
    (MediaAsset.file_type m) (MediaAsset.owner m) (MediaAsset.is_public m).
Definition MediaAsset_set_description v (m : MediaAsset.t) : MediaAsset.t :=
  MediaAsset.mk (MediaAsset.pk m) (MediaAsset.title m) v
    (MediaAsset.file_type m) (MediaAsset.owner m) (MediaAsset.is_public m).
Definition MediaAsset_set_is_public v (m : MediaAsset.t) : MediaAsset.t :=
  MediaAsset.mk (MediaAsset.pk m) (MediaAsset.title m) (MediaAsset.description m)
    (MediaAsset.file_type m) (MediaAsset.owner m) v.

(** [user.profile], the reverse of the one-to-one key. *)
Definition profile_of_user (u : nat) (d : DB) : result UserProfile.t :=
  objects_get "UserProfile" (fun p => UserProfile.user p = u) (rows (profiles d)).

(** ** accounts.views, continued *)

Definition profile_edit : HttpRequest -> DB -> Outcome :=
  login_required (fun request d =>
    match user_instance (user request) with
    | Raise e => uncaught e d
    | Ok u =>
        match profile_of_user u d with
        | Raise e => uncaught e d
        | Ok profile =>
            if bool_decide (method request = "POST") then
              let profile :=
                UserProfile_set_role
                  (POST_get request "role" (UserProfile.role profile)) profile in
              let profile :=
                UserProfile_set_is_public_portfolio
                  (POST_on request "is_public_portfolio") profile in
              let profile :=
                UserProfile_set_portfolio_theme
                  (POST_get request "portfolio_theme" (UserProfile.portfolio_theme profile))
                  profile in
              (* profile.save(), then request.user.save() *)
              let d :=
                set_profiles
                  (update_where (fun p => UserProfile.pk p = UserProfile.pk profile)
                     (fun _ => profile) (profiles d)) d in
              let d :=
                set_users
                  (update_where (fun x => User.pk x = u)
                     (fun x =>
                        User_set_names (POST_get request "first_name" EmptyString)
                          (POST_get request "last_name" EmptyString)
                          (POST_get request "email" (User.email x)) x)
                     (users d)) d in
              Out (Redirect "accounts:profile") [Msg success "Profile updated successfully."] d
            else Out (Render "accounts/profile_edit.html") [] d
        end
    end).

Definition profile_view (request : HttpRequest) (username : string) (d : DB)
    : Outcome :=
  match get_object_or_404 "User" (fun u => User.username u = username) (rows (users d)) with
  | Raise e => uncaught e d
  | Ok viewed =>
      match profile_of_user (User.pk viewed) d with
      | Raise e => uncaught e d
      | Ok profile =>
          if negb (UserProfile.is_public_portfolio profile)
             && negb (is_user (User.pk viewed) (user request))
          then Out (Redirect "projects:dashboard") [Msg error "This portfolio is private."] d
          else if negb (is_user (User.pk viewed) (user request))
          then
            (* profile.total_views += 1; profile.save(update_fields=['total_views']) *)
            Out (Render "accounts/profile.html") []
                (set_profiles
                   (update_where (fun p => UserProfile.pk p = UserProfile.pk profile)
                      (UserProfile_set_total_views (UserProfile.total_views profile + 1))
                      (profiles d)) d)
          else Out (Render "accounts/profile.html") [] d
      end
  end.

(** The projects that [profile_view] passes to the template:
    [user.created_projects.filter(is_public=True, status='published')]. *)
Definition profile_view_projects (viewed : nat) (d : DB) : list Project.t :=
  filter (fun p => Project.creator p = viewed
                   /\ Project.is_public p = true
                   /\ Project.status p = "published")
    (rows (projects d)).

(** ** media.views, continued *)

Definition media_detail (request : HttpRequest) (pk : nat) : DB -> Outcome :=
  login_required (fun request d =>
    match get_object_or_404 "MediaAsset" (fun m => MediaAsset.pk m = pk)
            (rows (media_assets d)) with
    | Raise e => uncaught e d
    | Ok media =>
        if negb (MediaAsset.is_public media)
           && negb (is_user (MediaAsset.owner media) (user request))
        then uncaught Http404 d
        else Out (Render "media/detail.html") [] d
    end) request.

Definition media_edit (request : HttpRequest) (pk : nat) : DB -> Outcome :=
  login_required (fun request d =>
    match get_object_or_404 "MediaAsset" (fun m => MediaAsset.pk m = pk)
            (rows (media_assets d)) with
    | Raise e => uncaught e d
    | Ok media =>
        if negb (is_user (MediaAsset.owner media) (user request))
        then Out (Redirect "media:library")
                 [Msg error "You do not have permission to edit this media."] d
        else if bool_decide (method request = "POST") then
          let media :=
            MediaAsset_set_title (POST_get request "title" (MediaAsset.title media)) media in
          let media :=
            MediaAsset_set_description
              (POST_get request "description" (MediaAsset.description media)) media in
          let media := MediaAsset_set_is_public (POST_on request "is_public") media in
          Out (Redirect "media:detail") [Msg success "Media updated successfully."]
              (set_media_assets
                 (update_where (fun m => MediaAsset.pk m = MediaAsset.pk media)
                    (fun _ => media) (media_assets d)) d)
        else Out (Render "media/edit.html") [] d
    end) request.

(** *** Uploads *)

(** [settings.MAX_UPLOAD_SIZE] and [settings.ALLOWED_FILE_TYPES] *)
Definition MAX_UPLOAD_SIZE : Z := 104857600.
Definition ALLOWED_FILE_TYPES : list string :=
  ["jpg"; "jpeg"; "png"; "gif"; "pdf"; "mp4"; "mp3"; "webm"; "doc"; "docx"].

(** An entry of [request.FILES]. *)
Record UploadedFile : Type := mkUploadedFile {
  file_name : string;
  file_size : Z
}.

(** "Determine file type" *)
Definition file_type_of (file_extension : string) : string :=
  if bool_decide (file_extension ∈ ["jpg"; "jpeg"; "png"; "gif"; "bmp"; "webp"])
  then "image"
  else if bool_decide (file_extension ∈ ["mp4"; "avi"; "mov"; "mkv"; "webm"; "flv"])
  then "video"
  else if bool_decide (file_extension ∈ ["mp3"; "wav"; "flac"; "aac"; "m4a"; "ogg"])
  then "audio"
  else if bool_decide (file_extension ∈ ["pdf"; "doc"; "docx"; "xls"; "xlsx"; "ppt"; "pptx"])
  then "document"
  else "other".

(** [os.path.splitext(name)[1].lower().lstrip('.')] *)
Definition file_extension_of (name : string) : string :=
  Str.lstrip_char "."%char (Str.lower (OsPath.splitext_ext name)).

(** What can go wrong inside the [try] of [media_upload]. *)
Inductive UploadFailure : Type :=
  | DatabaseFailure (e : Exc)
  | NoReverseMatch (viewname : string).

Inductive JsonBody : Type :=
  | JsonError (text : string)
  | JsonFailure (prefix : string) (e : UploadFailure)
  | JsonSuccess (media_id : nat) (title file_type url : string).

Inductive UploadResponse : Type :=
  | UploadRedirect (to : string)
  | UploadNotAllowed
  | JsonResponse (status : nat) (body : JsonBody).

Record UploadOutcome : Type := UOut {
  upload_response : UploadResponse;
  upload_db : DB
}.

Section Upload.

(** [mimetypes.guess_type(name)[0]] and [django.urls.reverse] with a [pk]
    argument ([None] for [NoReverseMatch]). *)
Variable guess_type : string -> option string.
Variable reverse : string -> nat -> option string.

(** [MediaAsset.get_absolute_url] *)
Definition MediaAsset_get_absolute_url (self : nat) : option string :=
  reverse "media:asset_detail" self.

(** [MediaAsset.objects.create(...)] of the upload; the [mime_type] column
    is [NOT NULL]. *)
Definition MediaAsset_create (title description file_type : string)
    (mime_type : option string) (owner : nat) (is_public : bool)
    (tbl : Table MediaAsset.t) : result (nat * Table MediaAsset.t) :=
  match mime_type with
  | None => Raise (IntegrityError "media_mediaasset.mime_type")
  | Some _ =>
      Ok (next_pk tbl,
          insert (fun k => MediaAsset.mk k title description file_type owner is_public) tbl)
  end.

Definition media_upload (request : HttpRequest) (FILES : gmap string UploadedFile)
    (d : DB) : UploadOutcome :=
  if negb (is_authenticated (user request)) then UOut (UploadRedirect "accounts:login") d
  else if negb (bool_decide (method request = "POST")) then UOut UploadNotAllowed d
  else
    match FILES !! "file" with
    | None => UOut (JsonResponse 400 (JsonError "No file provided")) d
    | Some uploaded_file =>
        let title := POST_get request "title" (file_name uploaded_file) in
        let description := POST_get request "description" EmptyString in
        let is_public := bool_decide (POST request !! "is_public" = Some "true") in
        if (MAX_UPLOAD_SIZE <? file_size uploaded_file)%Z
        then UOut (JsonResponse 400 (JsonError "File size exceeds limit of 100.0MB")) d
        else
          let mime_type := guess_type (file_name uploaded_file) in
          let file_extension := file_extension_of (file_name uploaded_file) in
          let file_type := file_type_of file_extension in
          if negb (bool_decide (file_extension ∈ ALLOWED_FILE_TYPES))
          then UOut (JsonResponse 400
                       (JsonError ("File type ." +:+ file_extension +:+ " is not allowed"))) d
          else
            match user_instance (user request) with
            | Raise e =>
                UOut (JsonResponse 500 (JsonFailure "Upload failed: " (DatabaseFailure e))) d
            | Ok u =>
                match MediaAsset_create title description file_type mime_type u is_public
                        (media_assets d) with
                | Raise e =>
                    UOut (JsonResponse 500
                            (JsonFailure "Upload failed: " (DatabaseFailure e))) d
                | Ok (media_id, tbl) =>
                    let d := set_media_assets tbl d in
                    match MediaAsset_get_absolute_url media_id with
                    | None =>
                        UOut (JsonResponse 500
                                (JsonFailure "Upload failed: "
                                   (NoReverseMatch "media:asset_detail"))) d
                    | Some url =>
                        UOut (JsonResponse 200 (JsonSuccess media_id title file_type url)) d
                    end
                end
            end
    end.

End Upload.

(** * Vocabulary of the properties *)

(** ** A small world to run the handlers on

    Alice owns the team Design; Bob is a viewer of it and Dan an editor;
    Carol is no member.  The project Logo is Alice's, belongs to the team
    and is private. *)

Module Example.

Definition alice : nat := 1.
Definition bob : nat := 2.
Definition carol : nat := 3.
Definition dan : nat := 4.

Definition the_users : Table User.t :=
  mkTable [ User.mk alice "alice" "alice@example.org" "Alice" EmptyString;
            User.mk bob "bob" "bob@example.org" "Bob" EmptyString;
            User.mk carol "carol" "carol@example.org" "Carol" EmptyString;
            User.mk dan "dan" "dan@example.org" "Dan" EmptyString ] 5.

Definition the_profiles : Table UserProfile.t :=
  mkTable [ UserProfile.mk 1 alice "creator" true "light" 0 0;
            UserProfile.mk 2 bob "creator" true "light" 0 0;
            UserProfile.mk 3 carol "creator" true "light" 0 0;
            UserProfile.mk 4 dan "creator" true "light" 0 0 ] 5.

Definition design : nat := 1.

Definition the_teams : Table Team.t :=
  mkTable [ Team.mk design "Design" EmptyString alice false ] 2.

Definition the_memberships : Table TeamMembership.t :=
  mkTable [ TeamMembership.mk 1 design alice "owner";
            TeamMembership.mk 2 design bob "viewer";
            TeamMembership.mk 3 design dan "editor" ] 4.

Definition logo : Project.t :=
  Project.mk 1 "Logo" "logo" EmptyString alice (Some design) None EmptyString
             "draft" false false 0 0 None.

Definition the_media : Table MediaAsset.t :=
  mkTable [ MediaAsset.mk 1 "photo.png" EmptyString "image" alice false;
            MediaAsset.mk 2 "sketch.png" EmptyString "image" alice false ] 3.

Definition world_with (p : Project.t) : DB :=
  mkDB the_users the_profiles the_teams the_memberships (mkTable [] 1)
       (mkTable [p] 2) (mkTable [] 1) (mkTable [] 1) the_media (mkTable [] 1).

Definition world : DB := world_with logo.

(** Stand-ins for the library functions, enough for the keys and titles
    of this world. *)
Definition slugify (s : string) : string := s.

Fixpoint decimal_go (acc : Z) (s : string) : option Z :=
  match s with
  | EmptyString => Some acc
  | String c r =>
      let n := nat_of_ascii c in
      if (48 <=? n)%nat && (n <=? 57)%nat
      then decimal_go (10 * acc + Z.of_nat (n - 48)) r
      else None
  end.

Definition int (s : string) : option Z :=
  match s with EmptyString => None | _ => decimal_go 0 s end.

Definition normalize_email (s : string) : string := s.

Definition request (m : string) (u : Actor) (post : list (string * string))
    (t : Z) : HttpRequest :=
  mkRequest m u (list_to_map post) t.

End Example.

(** The [unique_together = ('team', 'user')] of [TeamMembership]. *)
Definition unique_membership (ms : Table TeamMembership.t) : Prop :=
  forall m1 m2, m1 ∈ rows ms -> m2 ∈ rows ms ->
    TeamMembership.team m1 = TeamMembership.team m2 ->
    TeamMembership.user m1 = TeamMembership.user m2 -> m1 = m2.

(** The project with key [k] as the database has it. *)
Definition project_of (k : nat) (d : DB) : option Project.t :=
  first (by_pk k) (rows (projects d)).

(** What [publish] makes of a project at time [t]. *)
Definition published (t : Z) (P : Project.t) : Project.t :=
  Project.set_published_at (Some t) (Project.set_status "published" P).

(** The database after user [U] has liked project [P]. *)
Definition liked (U : nat) (P : Project.t) (d : DB) : DB :=
  set_projects
    (update_where (fun q => Project.pk q = Project.pk P)
       (Project.set_like_count (Project.like_count P + 1)) (projects d))
    (set_likes (insert (fun k => ProjectLike.mk k (Project.pk P) U) (likes d)) d).

(** The database after the like [l] of project [P] has been withdrawn. *)
Definition unliked (l : ProjectLike.t) (P : Project.t) (d : DB) : DB :=
  set_projects
    (update_where (fun q => Project.pk q = Project.pk P)
       (Project.set_like_count (Z.max 0 (Project.like_count P - 1))) (projects d))
    (set_likes (delete_where (fun x => ProjectLike.pk x = ProjectLike.pk l) (likes d)) d).

(** The rows of the table with key [k], an issued key, have a status in [Q]. *)
Definition status_in (k : nat) (Q : string -> Prop) (tbl : Table Project.t) : Prop :=
  k < next_pk tbl
  /\ forall q, q ∈ rows tbl -> Project.pk q = k -> Q (Project.status q).

(** The views that never write to the projects table. *)
Definition leaves_projects (v : View) : bool :=
  match v with
  | V_register | V_team_create | V_team_detail _ | V_team_add_member _
  | V_project_comment _ | V_media_delete _ | V_add_media_to_project _
  | V_remove_media_from_project _ => true
  | _ => false
  end.

(** The one view that calls [publish]. *)
Definition is_publish (v : View) : bool :=
  match v with V_project_publish _ => true | _ => false end.

(** Two membership rows that differ at most in a role, and in that without
    a change of [can_edit]: the capabilities [can_view] and [can_comment]
    of the two may differ. *)
Definition same_edit_rights (m m' : TeamMembership.t) : Prop :=
  TeamMembership.pk m = TeamMembership.pk m'
  /\ TeamMembership.team m = TeamMembership.team m'
  /\ TeamMembership.user m = TeamMembership.user m'
  /\ TeamMembership.can_edit m = TeamMembership.can_edit m'.

Definition roles_quiet (ms ms' : Table TeamMembership.t) : Prop :=
  Forall2 same_edit_rights (rows ms) (rows ms') /\ next_pk ms = next_pk ms'.



(** ** Every handler modelled, and runs of requests to them *)

Inductive Route : Type :=
  | R_view (v : View)
  | R_profile_edit
  | R_profile_view (username : string)
  | R_media_detail (pk : nat)
  | R_media_edit (pk : nat)
  | R_media_upload (FILES : gmap string UploadedFile).

Section Run.
Variable slugify : string -> string.
Variable int : string -> option Z.
Variable normalize_email : string -> string.
Variable guess_type : string -> option string.
Variable reverse : string -> nat -> option string.

(** The database a request to a route leaves behind. *)
Definition run (r : Route) (request : HttpRequest) (d : DB) : DB :=
  match r with
  | R_view v => db_after (serve slugify int normalize_email v request d)
  | R_profile_edit => db_after (profile_edit request d)
  | R_profile_view username => db_after (profile_view request username d)
  | R_media_detail pk => db_after (media_detail request pk d)
  | R_media_edit pk => db_after (media_edit request pk d)
  | R_media_upload FILES => upload_db (media_upload guess_type reverse request FILES d)
  end.

Fixpoint run_all (l : list (Route * HttpRequest)) (d : DB) : DB :=
  match l with
  | [] => d
  | (r, request) :: l => run_all l (run r request d)
  end.
End Run.

(** The database before anything is stored. *)
Definition empty_db : DB :=
  mkDB (mkTable [] 1) (mkTable [] 1) (mkTable [] 1) (mkTable [] 1) (mkTable [] 1)
       (mkTable [] 1) (mkTable [] 1) (mkTable [] 1) (mkTable [] 1) (mkTable [] 1).

(** ** Constraints of a table

    [key] is the primary key and [u] the column, or pair of columns, that
    the model declares unique (the key itself where it declares none). *)

Section TableConstraints.
Context {A K : Type} (key : A -> nat) (u : A -> K).

(** Keys are distinct and below the sequence, and [u] has no repeated
    value. *)
Definition table_ok (t : Table A) : Prop :=
  NoDup (key <$> rows t)
  /\ Forall (fun x => key x < next_pk t) (rows t)
  /\ NoDup (u <$> rows t).

(** One statement on a table: nothing, an INSERT with the next key and a
    fresh value of [u], a DELETE, an UPDATE that keeps [key] and [u], or the
    UPDATE of the row of one key with a value of [u] that no other row
    holds. *)
Inductive table_step : Table A -> Table A -> Prop :=
  | ts_same (t : Table A) : table_step t t
  | ts_insert (t : Table A) (row : nat -> A) :
      key (row (next_pk t)) = next_pk t ->
      (forall x, x ∈ rows t -> key x < next_pk t -> u x <> u (row (next_pk t))) ->
      table_step t (insert row t)
  | ts_delete (t : Table A) (R : A -> Prop) `{forall x, Decision (R x)} :
      table_step t (delete_where R t)
  | ts_update (t : Table A) (R : A -> Prop) `{forall x, Decision (R x)} (f : A -> A) :
      (forall x, x ∈ rows t -> R x -> key (f x) = key x /\ u (f x) = u x) ->
      table_step t (update_where R f t)
  | ts_replace (t : Table A) (self : A) :
      (forall y, y ∈ rows t -> u y = u self -> key y = key self) ->
      table_step t (update_where (fun x => key x = key self) (fun _ => self) t).
End TableConstraints.

Definition membership_pair (m : TeamMembership.t) : nat * nat :=
  (TeamMembership.team m, TeamMembership.user m).
Definition like_pair (l : ProjectLike.t) : nat * nat :=
  (ProjectLike.project l, ProjectLike.user l).
Definition association_pair (a : ProjectMediaAssociation.t) : nat * nat :=
  (ProjectMediaAssociation.project a, ProjectMediaAssociation.media a).

(** A relation between the tables of two databases, table by table, each
    with its key and its unique column. *)
Definition tablewise
    (rel : forall A K : Type, (A -> nat) -> (A -> K) -> Table A -> Table A -> Prop)
    (d d' : DB) : Prop :=
  rel _ _ User.pk User.username (users d) (users d')
  /\ rel _ _ UserProfile.pk UserProfile.user (profiles d) (profiles d')
  /\ rel _ _ Team.pk Team.name (teams d) (teams d')
  /\ rel _ _ TeamMembership.pk membership_pair (memberships d) (memberships d')
  /\ rel _ _ ProjectCategory.pk ProjectCategory.pk (categories d) (categories d')
  /\ rel _ _ Project.pk Project.slug (projects d) (projects d')
  /\ rel _ _ ProjectComment.pk ProjectComment.pk (comments d) (comments d')
  /\ rel _ _ ProjectLike.pk like_pair (likes d) (likes d')
  /\ rel _ _ MediaAsset.pk MediaAsset.pk (media_assets d) (media_assets d')
  /\ rel _ _ ProjectMediaAssociation.pk association_pair (associations d) (associations d').

(** Every request is, on each table, at most one statement. *)
Definition db_step : DB -> DB -> Prop :=
  tablewise (fun A K key u => table_step key u).

(** The primary keys and the declared unique constraints of the database. *)
Definition constraints (d : DB) : Prop :=
  tablewise (fun A K key u t _ => table_ok key u t) d d.

(** The routes on which a request of the anonymous user may write. *)
Definition open_to_anonymous (r : Route) : bool :=
  match r with
  | R_view V_register | R_view (V_project_detail _) | R_profile_view _ => true
  | _ => false
  end.

(** The columns of a project that editing leaves alone. *)
Definition same_frame (q q' : Project.t) : Prop :=
  Project.pk q' = Project.pk q
  /\ Project.creator q' = Project.creator q
  /\ Project.team q' = Project.team q
  /\ Project.status q' = Project.status q
  /\ Project.published_at q' = Project.published_at q
  /\ Project.view_count q' = Project.view_count q
  /\ Project.like_count q' = Project.like_count q.

(** Both counters of every project are non-negative. *)
Definition counters_ok (d : DB) : Prop :=
  Forall (fun p => (0 <= Project.view_count p)%Z /\ (0 <= Project.like_count p)%Z)
    (rows (projects d)).

(** The likes of a project, and the agreement of every [like_count] with
    them; likes point to issued project keys. *)
Definition likes_of (k : nat) (d : DB) : nat :=
  count (fun l => ProjectLike.project l = k) (rows (likes d)).

Definition likes_in_sync (d : DB) : Prop :=
  (forall l, l ∈ rows (likes d) -> ProjectLike.project l < next_pk (projects d))
  /\ forall p, p ∈ rows (projects d) ->
               Project.like_count p = Z.of_nat (likes_of (Project.pk p) d).

(** ** More vocabulary *)

(** The values that an [IntegerField] stores on every database backend
    (Django's documentation of the field). *)
Definition INTEGER_SAFE_MIN : Z := -2147483648.
Definition INTEGER_SAFE_MAX : Z := 2147483647.

Definition integer_safe (z : Z) : Prop :=
  (INTEGER_SAFE_MIN <= z <= INTEGER_SAFE_MAX)%Z.

(** An outcome that reports [MultipleObjectsReturned], as a server error or
    in a queued message. *)
Definition is_multiple (e : Exc) : bool :=
  match e with MultipleObjectsReturned _ => true | _ => false end.

Definition reports_multiple (o : Outcome) : bool :=
  match response o with ServerError e => is_multiple e | _ => false end
  || existsb (fun m => match m with MsgExc _ _ e => is_multiple e | Msg _ _ => false end)
       (messages o).

(** Both counters of a project are non-negative. *)
Definition counters (p : Project.t) : Prop :=
  (0 <= Project.view_count p)%Z /\ (0 <= Project.like_count p)%Z.

(** A tag as [get_tags_list] returns it: not empty, without surrounding
    white space, without a comma. *)
Definition clean_tag (t : string) : Prop :=
  t <> EmptyString /\ Py.strip t = t /\ ","%char ∉ String.list_ascii_of_string t.

(** The names of the URL patterns of [media/urls.py], whose [app_name] is
    ['media']. *)
Definition media_url_names : list string :=
  ["library"; "upload"; "detail"; "edit"; "delete"; "add_to_project";
   "remove_from_project"].

(** [reverse] resolves no name of the namespace [media] that
    [media/urls.py] does not define. *)
Definition reverse_within_urls (reverse : string -> nat -> option string) : Prop :=
  forall name k, name ∉ media_url_names -> reverse ("media:" +:+ name) k = None.

(** The values of [file_type] that name a kind of media. *)
Definition media_kinds : list string := ["image"; "video"; "audio"; "document"].

(** A comment as [project_comment] stores it: stripped and not empty. *)
Definition comments_stripped (d : DB) : Prop :=
  Forall (fun c => ProjectComment.content c <> EmptyString
                   /\ Py.strip (ProjectComment.content c) = ProjectComment.content c)
    (rows (comments d)).

(** Every stored asset is an image, a video, an audio file or a
    document. *)
Definition media_kinds_ok (d : DB) : Prop :=
  Forall (fun m => MediaAsset.file_type m ∈ media_kinds) (rows (media_assets d)).

(** The rows of [t'] have, key by key, the value of the column [col] that
    the rows of [t] have. *)
Definition keeps_column {A C : Type} (key : A -> nat) (col : A -> C)
    (t t' : Table A) : Prop :=
  forall x x', x ∈ rows t -> x' ∈ rows t' -> key x' = key x -> col x' = col x.

(** Who a project, a media asset and a team belong to. *)
Definition project_owners (p : Project.t) : nat * option nat :=
  (Project.creator p, Project.team p).

Definition ownership_kept (d d' : DB) : Prop :=
  keeps_column Project.pk project_owners (projects d) (projects d')
  /\ keeps_column MediaAsset.pk MediaAsset.owner (media_assets d) (media_assets d')
  /\ keeps_column Team.pk Team.owner (teams d) (teams d').

Section Inherits.
Context {A C : Type} (key : A -> nat) (col : A -> C).

(** Every row of [t'] continues a row of [t], with its key and its
    [col], or has a key that [t] had not issued. *)
Definition inherits (t t' : Table A) : Prop :=
  next_pk t <= next_pk t'
  /\ forall x', x' ∈ rows t' ->
       (exists x, x ∈ rows t /\ key x = key x' /\ col x = col x')
       \/ next_pk t <= key x'.
End Inherits.

(** Memberships point to issued team keys, and the owner of every team
    holds a membership of it with the role 'owner'. *)
Definition owners_are_members (d : DB) : Prop :=
  (forall m, m ∈ rows (memberships d) -> TeamMembership.team m < next_pk (teams d))
  /\ forall t, t ∈ rows (teams d) ->
       exists m, m ∈ rows (memberships d)
                 /\ TeamMembership.team m = Team.pk t
                 /\ TeamMembership.user m = Team.owner t
                 /\ TeamMembership.role m = "owner".

(** * Properties *)

(** ** Querysets *)

Section Querysets.
Context {A : Type} (P : A -> Prop) `{forall x, Decision (P x)}.

Lemma elem_filter (l : list A) (x : A) :
  x ∈ filter P l <-> x ∈ l /\ P x.
Proof. rewrite list_elem_of_filter. tauto. Qed.

Lemma exists_true (l : list A) :
  exists_ P l = true <-> exists x, x ∈ l /\ P x.
Proof.
  unfold exists_. rewrite bool_decide_eq_true. split.
  - destruct (filter P l) as [|x r] eqn:E; [congruence|]. intros _.
    exists x. apply elem_filter. rewrite E. left.
  - intros (x & Hx & HP) E.
    assert (x ∈ filter P l) as Hin by (apply elem_filter; auto).
    rewrite E in Hin. inversion Hin.
Qed.

Lemma exists_false (l : list A) :
  exists_ P l = false <-> filter P l = [].
Proof.
  unfold exists_. rewrite bool_decide_eq_false. split.
  - intros E. destruct (filter P l); [reflexivity|]. exfalso. apply E. congruence.
  - intros -> E. apply E. reflexivity.
Qed.

Lemma exists_false_forall (l : list A) :
  exists_ P l = false <-> forall x, x ∈ l -> ~ P x.
Proof.
  rewrite exists_false. split.
  - intros E x Hx HP.
    assert (x ∈ filter P l) as Hin by (apply elem_filter; auto).
    rewrite E in Hin. inversion Hin.
  - intros Hall. induction l as [|a l IH]; [reflexivity|].
    rewrite filter_cons. destruct (decide (P a)) as [HP|HP].
    + exfalso. apply (Hall a); [left | exact HP].
    + apply IH. intros x Hx. apply Hall. right. exact Hx.
Qed.

Lemma objects_get_Ok (model : string) (l : list A) (x : A) :
  objects_get model P l = Ok x <-> filter P l = [x].
Proof.
  unfold objects_get. destruct (filter P l) as [|a [|b r]]; split; intros E;
    try discriminate; congruence.
Qed.

Lemma get_object_or_404_Ok (model : string) (l : list A) (x : A) :
  get_object_or_404 model P l = Ok x <-> filter P l = [x].
Proof.
  unfold get_object_or_404. rewrite <- (objects_get_Ok model).
  destruct (objects_get model P l) as [a|[]]; split; intros E;
    try discriminate; congruence.
Qed.

Lemma filter_singleton_elem (l : list A) (x : A) :
  filter P l = [x] -> x ∈ l /\ P x.
Proof.
  intros E. apply elem_filter. rewrite E. left.
Qed.

Lemma filter_singleton_unique (l : list A) (x y : A) :
  filter P l = [x] -> y ∈ l -> P y -> y = x.
Proof.
  intros E Hy HP.
  assert (y ∈ filter P l) as Hin by (apply elem_filter; auto).
  rewrite E in Hin. apply list_elem_of_singleton in Hin. exact Hin.
Qed.

Lemma first_Some_elem (l : list A) (x : A) :
  first P l = Some x -> x ∈ l /\ P x.
Proof.
  unfold first. intros E. apply elem_filter.
  destruct (filter P l); [discriminate|]. injection E as ->. left.
Qed.

Lemma first_None (l : list A) :
  first P l = None <-> exists_ P l = false.
Proof.
  rewrite exists_false. unfold first.
  destruct (filter P l); split; intros E; try discriminate; reflexivity.
Qed.

(** A filter commutes with a row update that keeps the filtered columns. *)
Lemma filter_fmap_stable (f : A -> A) (l : list A) :
  (forall x, P (f x) <-> P x) -> filter P (f <$> l) = f <$> filter P l.
Proof.
  intros Hf. induction l as [|a l IH]; [reflexivity|].
  rewrite fmap_cons, !filter_cons.
  destruct (decide (P (f a))) as [Y|N], (decide (P a)) as [Y'|N'].
  - rewrite fmap_cons, IH. reflexivity.
  - exfalso. apply N', Hf, Y.
  - exfalso. apply N, Hf, Y'.
  - exact IH.
Qed.
End Querysets.

(** ** Access control *)

Lemma of_pair_iff (t : nat) (U : Actor) (m : TeamMembership.t) :
  TeamMembership.of_pair t U m
  <-> TeamMembership.team m = t /\ U = Authenticated (TeamMembership.user m).
Proof.
  unfold TeamMembership.of_pair. destruct U as [|k]; simpl; split;
    intros [H1 H2]; split; congruence.
Qed.

Lemma is_member_true (ms : Table TeamMembership.t) (t : nat) (U : Actor) :
  Team.is_member ms t U = true
  <-> exists m, m ∈ rows ms /\ TeamMembership.team m = t
                /\ U = Authenticated (TeamMembership.user m).
Proof.
  unfold Team.is_member. rewrite exists_true.
  split; intros (m & Hm & Hp); exists m; split; auto; apply of_pair_iff; exact Hp.
Qed.

Lemma is_user_true (k : nat) (U : Actor) :
  is_user k U = true <-> U = Authenticated k.
Proof.
  unfold is_user. rewrite bool_decide_eq_true.
  destruct U; simpl; split; intros E; congruence.
Qed.

(** C2. [can_view] holds exactly when the project is public, or the actor
    is its creator, or the project belongs to a team the actor is a member
    of.  The anonymous user passes the public branch only; the creator
    always passes; and on a private project an actor who is neither the
    creator nor a member of the project's team is refused. *)
Theorem can_view_cases (ms : Table TeamMembership.t) (P : Project.t) (U : Actor) :
  (Project.can_view ms P U = true <->
     Project.is_public P = true
     \/ U = Authenticated (Project.creator P)
     \/ exists t m, Project.team P = Some t /\ m ∈ rows ms
                    /\ TeamMembership.team m = t
                    /\ U = Authenticated (TeamMembership.user m))
  /\ Project.can_view ms P AnonymousUser = Project.is_public P
  /\ Project.can_view ms P (Authenticated (Project.creator P)) = true
  /\ (Project.is_public P = false ->
      U <> Authenticated (Project.creator P) ->
      (forall t m, Project.team P = Some t -> m ∈ rows ms ->
                   TeamMembership.team m = t ->
                   U <> Authenticated (TeamMembership.user m)) ->
      Project.can_view ms P U = false).
Proof.
  assert (Hiff : Project.can_view ms P U = true <->
     Project.is_public P = true
     \/ U = Authenticated (Project.creator P)
     \/ exists t m, Project.team P = Some t /\ m ∈ rows ms
                    /\ TeamMembership.team m = t
                    /\ U = Authenticated (TeamMembership.user m)).
  { unfold Project.can_view.
    destruct (Project.is_public P); [tauto|].
    destruct U as [|k]; simpl.
    - split; [discriminate|].
      intros [E|[E|(t & m & _ & _ & _ & E)]]; discriminate.
    - destruct (is_user (Project.creator P) (Authenticated k)) eqn:Ec.
      + apply is_user_true in Ec. tauto.
      + assert (Authenticated k <> Authenticated (Project.creator P)) as Hne.
        { intros E. apply is_user_true in E. congruence. }
        destruct (Project.team P) as [t|].
        * destruct (Team.is_member ms t (Authenticated k)) eqn:Em.
          -- split; [|reflexivity]. intros _. right. right.
             apply is_member_true in Em. destruct Em as (m & Hm). exists t, m. tauto.
          -- split; [discriminate|].
             intros [E|[E|(t' & m & Et & Hm & Htm & HU)]];
               try discriminate; try contradiction.
             assert (Team.is_member ms t (Authenticated k) = true) as Em'.
             { apply is_member_true. exists m. repeat split; congruence. }
             congruence.
        * split; [discriminate|].
          intros [E|[E|(t' & m & Et & _)]]; try discriminate; contradiction. }
  split; [exact Hiff|]. repeat split.
  - unfold Project.can_view. simpl. destruct (Project.is_public P); reflexivity.
  - unfold Project.can_view. destruct (Project.is_public P); [reflexivity|].
    simpl. unfold is_user. simpl. rewrite bool_decide_eq_true_2; reflexivity.
  - intros Hpriv Hcre Hmem.
    apply not_true_is_false. intros E.
    apply Hiff in E. destruct E as [E|[E|(t & m & Et & Hm & Htm & HU)]].
    + congruence.
    + contradiction.
    + exact (Hmem t m Et Hm Htm HU).
Qed.

(** C3. [can_edit] holds exactly when the actor is the creator, or the
    project belongs to a team and the actor's membership of that team has
    role owner or editor.  The anonymous user never edits, and a member
    who is not the creator and whose role is viewer or commenter does not
    either. *)
Theorem can_edit_cases (ms : Table TeamMembership.t) (P : Project.t) (U : Actor)
    (Huniq : unique_membership ms) :
  (Project.can_edit ms P U = true <->
     U = Authenticated (Project.creator P)
     \/ exists t m, Project.team P = Some t /\ m ∈ rows ms
                    /\ TeamMembership.team m = t
                    /\ U = Authenticated (TeamMembership.user m)
                    /\ TeamMembership.role m ∈ ["owner"; "editor"])
  /\ Project.can_edit ms P AnonymousUser = false
  /\ (forall t m, U <> Authenticated (Project.creator P) ->
                  Project.team P = Some t -> m ∈ rows ms ->
                  TeamMembership.team m = t ->
                  U = Authenticated (TeamMembership.user m) ->
                  TeamMembership.role m ∈ ["viewer"; "commenter"] ->
                  Project.can_edit ms P U = false).
Proof.
  assert (Hiff : Project.can_edit ms P U = true <->
     U = Authenticated (Project.creator P)
     \/ exists t m, Project.team P = Some t /\ m ∈ rows ms
                    /\ TeamMembership.team m = t
                    /\ U = Authenticated (TeamMembership.user m)
                    /\ TeamMembership.role m ∈ ["owner"; "editor"]).
  { unfold Project.can_edit. destruct U as [|k]; simpl.
    - split; [discriminate|].
      intros [E|(t & m & _ & _ & _ & E & _)]; discriminate.
    - destruct (is_user (Project.creator P) (Authenticated k)) eqn:Ec.
      + apply is_user_true in Ec. tauto.
      + assert (Authenticated k <> Authenticated (Project.creator P)) as Hne.
        { intros E. apply is_user_true in E. congruence. }
        destruct (Project.team P) as [t|].
        * destruct (first (TeamMembership.of_pair t (Authenticated k)) (rows ms))
            as [m0|] eqn:Ef.
          -- apply first_Some_elem in Ef. destruct Ef as [Hm0 Hp0].
             apply of_pair_iff in Hp0. destruct Hp0 as [Ht0 Hu0].
             unfold TeamMembership.can_edit.
             destruct (bool_decide (TeamMembership.role m0 ∈ ["owner"; "editor"])) eqn:Er.
             ++ apply bool_decide_eq_true in Er. split; [|reflexivity].
                intros _. right. exists t, m0. tauto.
             ++ apply bool_decide_eq_false in Er. split; [discriminate|].
                intros [E|(t' & m & Et & Hm & Htm & HU & Hr)]; [contradiction|].
                assert (m = m0) as ->.
                { apply Huniq; auto; congruence. }
                contradiction.
          -- apply first_None in Ef.
             pose proof (proj1 (exists_false_forall _ _) Ef) as Hno.
             split; [discriminate|].
             intros [E|(t' & m & Et & Hm & Htm & HU & Hr)]; [contradiction|].
             exfalso. apply (Hno m Hm). apply of_pair_iff. split; congruence.
        * split; [discriminate|].
          intros [E|(t' & m & Et & _)]; [contradiction|discriminate]. }
  split; [exact Hiff|]. split; [reflexivity|].
  intros t m Hne Et Hm Htm HU Hr.
  apply not_true_is_false. intros E. apply Hiff in E.
  destruct E as [E|(t' & m' & Et' & Hm' & Htm' & HU' & Hr')]; [contradiction|].
  assert (m' = m) as ->.
  { apply Huniq; auto; congruence. }
  apply list_elem_of_In in Hr, Hr'. simpl in Hr, Hr'.
  destruct Hr as [Hr|[Hr|[]]], Hr' as [Hr'|[Hr'|[]]]; congruence.
Qed.

Lemma example_unique_membership : unique_membership Example.the_memberships.
Proof.
  intros m1 m2 H1 H2 Ht Hu.
  apply list_elem_of_In in H1, H2. simpl in H1, H2.
  destruct H1 as [<-|[<-|[<-|[]]]], H2 as [<-|[<-|[<-|[]]]];
    solve [reflexivity | discriminate Hu].
Defined.

Lemma can_edit_cases_witness :
  Project.can_edit Example.the_memberships Example.logo
    (Authenticated Example.dan) = true
  /\ Project.can_edit Example.the_memberships Example.logo
       (Authenticated Example.bob) = false.
Proof.
  split.
  - apply (can_edit_cases Example.the_memberships Example.logo
             (Authenticated Example.dan) example_unique_membership).
    right. exists Example.design, (TeamMembership.mk 3 Example.design Example.dan "editor").
    repeat split.
    + right. right. left.
    + right. left.
  - apply (proj2 (proj2 (can_edit_cases Example.the_memberships Example.logo
             (Authenticated Example.bob) example_unique_membership))
             Example.design (TeamMembership.mk 2 Example.design Example.bob "viewer")).
    + discriminate.
    + reflexivity.
    + right. left.
    + reflexivity.
    + reflexivity.
    + left.
Defined.

(** ** Saving a project *)

Lemma first_update_where_pk (k : nat) (f : Project.t -> Project.t)
    (tbl : Table Project.t) :
  (forall q, Project.pk q = k -> Project.pk (f q) = k) ->
  first (by_pk k) (rows (update_where (fun q => Project.pk q = k) f tbl))
  = f <$> first (by_pk k) (rows tbl).
Proof.
  intros Hpk. unfold first, update_where. simpl.
  rewrite filter_fmap_stable.
  - induction (rows tbl) as [|a l IH]; [reflexivity|].
    rewrite filter_cons. destruct (decide (by_pk k a)) as [Y|N]; [|exact IH].
    simpl. rewrite decide_True by exact Y. reflexivity.
  - intros x. unfold by_pk. destruct (decide (Project.pk x = k)); [|tauto].
    rewrite Hpk by assumption. tauto.
Qed.

Lemma has_row_elem (P self : Project.t)
    (tbl : Table Project.t) :
  P ∈ rows tbl -> Project.pk self = Project.pk P -> Project.has_row self tbl = true.
Proof.
  intros Hin Hpk. unfold Project.has_row. apply exists_true. exists P. auto.
Qed.

Lemma fill_slug_id (slugify : string -> string) (self : Project.t) :
  Project.slug self <> EmptyString -> Project.fill_slug slugify self = self.
Proof.
  unfold Project.fill_slug. destruct (Project.slug self); [congruence|reflexivity].
Qed.

Lemma fill_slug_keeps (slugify : string -> string) (self : Project.t) :
  Project.pk (Project.fill_slug slugify self) = Project.pk self
  /\ Project.status (Project.fill_slug slugify self) = Project.status self
  /\ Project.published_at (Project.fill_slug slugify self) = Project.published_at self
  /\ Project.like_count (Project.fill_slug slugify self) = Project.like_count self
  /\ Project.view_count (Project.fill_slug slugify self) = Project.view_count self.
Proof.
  unfold Project.fill_slug. destruct (negb _); simpl; auto.
Qed.

(** When the slug lookup found exactly [P], no other row holds the slug. *)
Lemma slug_free (slug : string) (P self : Project.t) (tbl : Table Project.t) :
  filter (by_slug slug) (rows tbl) = [P] ->
  Project.slug self = slug -> Project.pk self = Project.pk P ->
  Project.slug_taken self tbl = false.
Proof.
  intros Hget Hslug Hpk. unfold Project.slug_taken.
  apply exists_false_forall. intros q Hq [Hs Hne].
  assert (q = P) as -> by (apply (filter_singleton_unique _ _ _ _ Hget Hq); congruence).
  congruence.
Qed.

(** ** Publishing *)

(** C1, as stated, fails: Alice publishes the project Logo, which was
    published at time 100, again at time 200, and the stamp moves to 200. *)
Lemma publish_restamps_published_project :
  let d := Example.world_with (published 100 Example.logo) in
  let request := Example.request "POST" (Authenticated Example.alice) [] 200 in
  let d' := db_after (project_publish Example.slugify request "logo" d) in
  Project.can_edit (memberships d) (published 100 Example.logo) (user request) = true
  /\ (Project.published_at <$> project_of 1 d) = Some (Some 100%Z)
  /\ (Project.published_at <$> project_of 1 d') = Some (Some 200%Z).
Proof. vm_compute. repeat split. Qed.

Lemma can_edit_authenticated (ms : Table TeamMembership.t) (P : Project.t) (U : Actor) :
  Project.can_edit ms P U = true -> is_authenticated U = true.
Proof. unfold Project.can_edit. destruct U; simpl; [discriminate|reflexivity]. Qed.

(** [publish] through its view, on a project found by a non-empty slug (the
    [<slug:slug>] of the route): the save goes through and writes the row. *)
Lemma publish_saves (slugify : string -> string) (t : Z) (slug : string)
    (P : Project.t) (tbl : Table Project.t) :
  slug <> EmptyString ->
  filter (by_slug slug) (rows tbl) = [P] ->
  Project.publish slugify t P tbl
  = Ok (published t P,
        update_where (fun q => Project.pk q = Project.pk P) (fun _ => published t P) tbl).
Proof.
  intros Hne Hget.
  destruct (filter_singleton_elem _ _ _ Hget) as [Hin Hslug]. unfold by_slug in Hslug.
  unfold Project.publish, Project.save. fold (published t P).
  rewrite fill_slug_id by (simpl; congruence).
  rewrite (slug_free slug P) by (auto; simpl; auto).
  rewrite (has_row_elem P) by auto.
  reflexivity.
Qed.

(** C1, amended. For every project P found by its slug and every actor U
    with [can_edit], publishing sets P's status to 'published' and stamps
    [published_at] with the current time, whether or not a stamp was
    there. *)
Theorem project_publish_stamps (slugify : string -> string)
    (request : HttpRequest) (slug : string) (d : DB) (P : Project.t) :
  slug <> EmptyString ->
  get_object_or_404 "Project" (by_slug slug) (rows (projects d)) = Ok P ->
  Project.can_edit (memberships d) P (user request) = true ->
  let d' := db_after (project_publish slugify request slug d) in
  project_publish slugify request slug d
  = Out (Redirect "projects:detail") [Msg success "Project published successfully."]
        (set_projects
           (update_where (fun q => Project.pk q = Project.pk P)
              (fun _ => published (now request) P) (projects d)) d)
  /\ (forall q, q ∈ rows (projects d') -> Project.pk q = Project.pk P ->
                Project.status q = "published"
                /\ Project.published_at q = Some (now request))
  /\ project_of (Project.pk P) d' = Some (published (now request) P).
Proof.
  intros Hne Hget Hcan d'.
  assert (project_publish slugify request slug d
    = Out (Redirect "projects:detail") [Msg success "Project published successfully."]
        (set_projects
           (update_where (fun q => Project.pk q = Project.pk P)
              (fun _ => published (now request) P) (projects d)) d)) as Hrun.
  { unfold project_publish, login_required.
    rewrite (can_edit_authenticated _ _ _ Hcan), Hget, Hcan. simpl.
    apply get_object_or_404_Ok in Hget.
    rewrite (publish_saves slugify _ slug) by assumption. reflexivity. }
  split; [exact Hrun|].
  subst d'. rewrite Hrun. unfold set_projects. cbn [db_after projects]. split.
  - intros q Hq Hpk. apply list_elem_of_fmap in Hq. destruct Hq as (q0 & -> & Hq0).
    destruct (decide (Project.pk q0 = Project.pk P)); [simpl; auto|contradiction].
  - unfold project_of. cbn [projects].
    rewrite (first_update_where_pk (Project.pk P)) by reflexivity.
    apply get_object_or_404_Ok in Hget.
    destruct (filter_singleton_elem _ _ _ Hget) as [Hin _].
    destruct (first (by_pk (Project.pk P)) (rows (projects d))) as [q|] eqn:Ef;
      [reflexivity|].
    apply first_None in Ef.
    pose proof (proj1 (exists_false_forall _ _) Ef P Hin) as Hno.
    exfalso. apply Hno. reflexivity.
Qed.

Lemma project_publish_stamps_witness :
  let d := Example.world_with (published 100 Example.logo) in
  let request := Example.request "POST" (Authenticated Example.dan) [] 200 in
  project_of 1 (db_after (project_publish Example.slugify request "logo" d))
  = Some (published 200 Example.logo).
Proof.
  intros d request.
  apply (project_publish_stamps Example.slugify request "logo" d
           (published 100 Example.logo)).
  - discriminate.
  - reflexivity.
  - reflexivity.
Defined.

(** ** The like toggle *)

Lemma save_like_count_ok (slugify : string -> string) (P self : Project.t)
    (tbl : Table Project.t) :
  P ∈ rows tbl -> Project.pk self = Project.pk P ->
  Project.save_update_fields slugify
    (fun s q => Project.set_like_count (Project.like_count s) q) self tbl
  = Ok (Project.fill_slug slugify self,
        update_where (fun q => Project.pk q = Project.pk P)
          (Project.set_like_count (Project.like_count self)) tbl).
Proof.
  intros Hin Hpk. unfold Project.save_update_fields.
  rewrite (has_row_elem P) by (auto; rewrite (proj1 (fill_slug_keeps _ _)); auto).
  rewrite <- Hpk. unfold Project.fill_slug.
  destruct (negb (Py.truthy (Project.slug self))); reflexivity.
Qed.

Lemma project_like_run (slugify : string -> string) (request : HttpRequest)
    (slug : string) (d : DB) (P : Project.t) (U : nat) :
  user request = Authenticated U ->
  get_object_or_404 "Project" (by_slug slug) (rows (projects d)) = Ok P ->
  project_like slugify request slug d
  = match first (ProjectLike.of_pair (Project.pk P) (Authenticated U)) (rows (likes d)) with
    | Some l =>
        Out (Redirect "projects:detail") [Msg success "Like removed."] (unliked l P d)
    | None =>
        Out (Redirect "projects:detail") [Msg success "Project liked!"] (liked U P d)
    end.
Proof.
  intros HU Hget. unfold project_like, login_required. rewrite HU, Hget. simpl.
  apply get_object_or_404_Ok in Hget.
  destruct (filter_singleton_elem _ _ _ Hget) as [Hin _].
  destruct (first (ProjectLike.of_pair (Project.pk P) (Authenticated U)) (rows (likes d)))
    as [l|] eqn:Ef.
  - rewrite (save_like_count_ok slugify P) by auto. reflexivity.
  - unfold ProjectLike.create. rewrite (proj1 (first_None _ _) Ef).
    rewrite (save_like_count_ok slugify P) by auto. reflexivity.
Qed.



Lemma count_zero {A : Type} (P : A -> Prop) `{forall x, Decision (P x)} (l : list A) :
  count P l = 0 <-> filter P l = [].
Proof.
  unfold count. destruct (filter P l); simpl; split; intros E; congruence.
Qed.







(** ** Media associations *)

Lemma length_filter_split {A : Type} (P : A -> Prop) `{forall x, Decision (P x)}
    (l : list A) :
  length (filter P l) + length (filter (fun x => ~ P x) l) = length l.
Proof.
  induction l as [|a l IH]; [reflexivity|].
  rewrite !filter_cons. destruct (decide (P a)) as [Y|N].
  - rewrite decide_False by tauto. simpl. lia.
  - rewrite decide_True by tauto. simpl. lia.
Qed.

(** C6. When the media asset M is already associated with the project P,
    another attempt to add M to P (by an actor who may edit P and owns M)
    ends in the constraint error of the unique pair: the handler reports it
    and leaves the database, and so the associations of the pair, as they
    were. *)
Theorem add_media_twice_fails (int : string -> option Z) (request : HttpRequest)
    (slug : string) (d : DB) (P : Project.t) (M : MediaAsset.t) :
  method request = "POST" ->
  get_object_or_404 "Project" (by_slug slug) (rows (projects d)) = Ok P ->
  Project.can_edit (memberships d) P (user request) = true ->
  get_owned_media int (POST request !! "media_id") (user request) d = Ok M ->
  (exists a, a ∈ rows (associations d)
             /\ ProjectMediaAssociation.project a = Project.pk P
             /\ ProjectMediaAssociation.media a = MediaAsset.pk M) ->
  let d' := db_after (add_media_to_project int request slug d) in
  add_media_to_project int request slug d
  = Out (Render "media/add_to_project.html")
        [MsgExc error "Error adding media: "
           (IntegrityError "media_projectmediaassociation.project_id, media_id")] d
  /\ d' = d
  /\ count (ProjectMediaAssociation.of_pair (Project.pk P) (MediaAsset.pk M))
       (rows (associations d'))
     = count (ProjectMediaAssociation.of_pair (Project.pk P) (MediaAsset.pk M))
         (rows (associations d)).
Proof.
  intros Hpost Hget Hcan Hmedia (a & Ha & Hp & Hm) d'.
  assert (add_media_to_project int request slug d
          = Out (Render "media/add_to_project.html")
              [MsgExc error "Error adding media: "
                 (IntegrityError "media_projectmediaassociation.project_id, media_id")] d)
    as Hrun.
  { unfold add_media_to_project, login_required.
    rewrite (can_edit_authenticated _ _ _ Hcan), Hget, Hcan, Hpost, Hmedia. simpl.
    unfold ProjectMediaAssociation.create.
    rewrite (proj2 (exists_true _ _)); [reflexivity|].
    exists a. split; [exact Ha|]. split; assumption. }
  subst d'. rewrite Hrun. auto.
Qed.

(** Attaching photo.png to Logo a second time. *)
Lemma add_media_twice_fails_witness :
  let request :=
    Example.request "POST" (Authenticated Example.alice) [("media_id", "1")] 0 in
  let d1 := db_after (add_media_to_project Example.int request "logo" Example.world) in
  let d2 := db_after (add_media_to_project Example.int request "logo" d1) in
  d2 = d1
  /\ count (ProjectMediaAssociation.of_pair 1 1) (rows (associations d2)) = 1.
Proof.
  intros request d1 d2.
  pose proof (add_media_twice_fails Example.int request "logo" d1 Example.logo
                (MediaAsset.mk 1 "photo.png" EmptyString "image" Example.alice false)
                eq_refl eq_refl eq_refl eq_refl) as H.
  destruct H as (_ & H & _).
  - exists (ProjectMediaAssociation.mk 1 1 1 0 EmptyString false).
    split; [left|split; reflexivity].
  - split; [exact H|]. subst d2. rewrite H. reflexivity.
Defined.

(** C7. A new association gets as [order] the number of associations the
    project has at that moment and is appended, the rows that were there
    staying as they are; removing an association deletes the row with its
    key and no other, and every other row, [order] included, stays as it
    is. *)
Theorem association_order_is_append_only (int : string -> option Z) :
  (forall request slug d P M,
     method request = "POST" ->
     get_object_or_404 "Project" (by_slug slug) (rows (projects d)) = Ok P ->
     Project.can_edit (memberships d) P (user request) = true ->
     get_owned_media int (POST request !! "media_id") (user request) d = Ok M ->
     count (ProjectMediaAssociation.of_pair (Project.pk P) (MediaAsset.pk M))
       (rows (associations d)) = 0 ->
     add_media_to_project int request slug d
     = Out (Redirect "projects:edit") [Msg success "Media added to project."]
         (set_associations
            (insert
               (fun k =>
                  ProjectMediaAssociation.mk k (Project.pk P) (MediaAsset.pk M)
                    (Z.of_nat
                       (count (fun a => ProjectMediaAssociation.project a = Project.pk P)
                          (rows (associations d))))
                    (POST_get request "caption" EmptyString)
                    (POST_on request "is_cover"))
               (associations d)) d))
  /\ (forall request pk d a P,
        is_authenticated (user request) = true ->
        get_object_or_404 "ProjectMediaAssociation"
          (fun b => ProjectMediaAssociation.pk b = pk) (rows (associations d)) = Ok a ->
        objects_get "Project"
          (fun p => Project.pk p = ProjectMediaAssociation.project a)
          (rows (projects d)) = Ok P ->
        Project.can_edit (memberships d) P (user request) = true ->
        let d' := db_after (remove_media_from_project request pk d) in
        rows (associations d')
        = filter (fun b => ProjectMediaAssociation.pk b <> pk) (rows (associations d))
        /\ length (rows (associations d')) + 1 = length (rows (associations d))
        /\ (forall b, b ∈ rows (associations d') <->
                      b ∈ rows (associations d) /\ b <> a)).
Proof.
  split.
  - intros request slug d P M Hpost Hget Hcan Hmedia Hnone.
    unfold add_media_to_project, login_required.
    rewrite (can_edit_authenticated _ _ _ Hcan), Hget, Hcan, Hpost, Hmedia. simpl.
    unfold ProjectMediaAssociation.create.
    apply count_zero, exists_false in Hnone. rewrite Hnone. reflexivity.
  - intros request pk d a P Hauth Hget HP Hcan d'.
    assert (Hrows : rows (associations d')
      = filter (fun b => ProjectMediaAssociation.pk b <> pk) (rows (associations d))).
    { subst d'. unfold remove_media_from_project, login_required.
      rewrite Hauth, Hget, HP, Hcan. simpl.
      apply get_object_or_404_Ok, filter_singleton_elem in Hget.
      destruct Hget as [_ ->]. reflexivity. }
    apply get_object_or_404_Ok in Hget.
    split; [exact Hrows|]. rewrite Hrows. split.
    + pose proof (length_filter_split (fun b => ProjectMediaAssociation.pk b = pk)
                    (rows (associations d))) as Hlen.
      rewrite Hget in Hlen. simpl in Hlen. lia.
    + intros b. rewrite elem_filter. split.
      * intros [Hb Hne]. split; [exact Hb|]. intros ->.
        apply Hne. apply (filter_singleton_elem _ _ _ Hget).
      * intros [Hb Hne]. split; [exact Hb|]. intros Hpk. apply Hne.
        exact (filter_singleton_unique _ _ _ _ Hget Hb Hpk).
Qed.

(** The scenario of the spec: photo.png is attached to Logo with order 0,
    sketch.png with order 1; removing the first association leaves the
    second with order 1. *)
Lemma association_order_scenario :
  let alice := Authenticated Example.alice in
  let d1 := db_after (add_media_to_project Example.int
                        (Example.request "POST" alice [("media_id", "1")] 0)
                        "logo" Example.world) in
  let d2 := db_after (add_media_to_project Example.int
                        (Example.request "POST" alice [("media_id", "2")] 0)
                        "logo" d1) in
  let d3 := db_after (remove_media_from_project
                        (Example.request "POST" alice [] 0) 1 d2) in
  rows (associations d2)
  = [ProjectMediaAssociation.mk 1 1 1 0 EmptyString false;
     ProjectMediaAssociation.mk 2 1 2 1 EmptyString false]
  /\ rows (associations d3) = [ProjectMediaAssociation.mk 2 1 2 1 EmptyString false].
Proof.
  intros alice d1 d2 d3. split.
  - subst d2.
    rewrite (proj1 (association_order_is_append_only Example.int)
               (Example.request "POST" alice [("media_id", "2")] 0) "logo" d1
               Example.logo
               (MediaAsset.mk 2 "sketch.png" EmptyString "image" Example.alice false)
               eq_refl eq_refl eq_refl eq_refl eq_refl).
    reflexivity.
  - destruct (proj2 (association_order_is_append_only Example.int)
                (Example.request "POST" alice [] 0) 1 d2
                (ProjectMediaAssociation.mk 1 1 1 0 EmptyString false) Example.logo
                eq_refl eq_refl eq_refl eq_refl) as (H & _).
    subst d3. rewrite H. reflexivity.
Defined.

(** ** Teams *)

(** C9. When the user named in the request is already a member of the
    team, [team_add_member] leaves the database as it is, whoever asks: the
    owner (the one actor let through, by equality with [team.owner]) gets
    the warning, any other user the refusal.  No Membership row is created
    and the memberships of the team are the ones there were. *)
Theorem team_add_member_rejects_duplicate (request : HttpRequest) (pk : nat)
    (d : DB) (T : Team.t) (u : User.t) :
  get_object_or_404 "Team" (fun t => Team.pk t = pk) (rows (teams d)) = Ok T ->
  get_object_or_404 "User" (fun x => Some (User.username x) = POST request !! "username")
    (rows (users d)) = Ok u ->
  Team.is_member (memberships d) (Team.pk T) (Authenticated (User.pk u)) = true ->
  let out := team_add_member request pk d in
  db_after out = d
  /\ Team.get_member_count (memberships (db_after out)) (Team.pk T)
     = Team.get_member_count (memberships d) (Team.pk T)
  /\ (method request = "POST" -> user request = Authenticated (Team.owner T) ->
      out = Out (Redirect "accounts:team_detail")
              [Msg warning "User is already a team member."] d)
  /\ (is_authenticated (user request) = true ->
      user request <> Authenticated (Team.owner T) ->
      out = Out (Redirect "accounts:team_detail")
              [Msg error "Only team owner can add members."] d).
Proof.
  intros HT Hu Hmem out.
  assert (Hdb : db_after out = d).
  { subst out. unfold team_add_member, login_required.
    destruct (is_authenticated (user request)); [|reflexivity].
    rewrite HT. destruct (negb (is_user (Team.owner T) (user request))); [reflexivity|].
    destruct (bool_decide (method request = "POST")); [|reflexivity].
    rewrite Hu, Hmem. reflexivity. }
  split; [exact Hdb|]. split; [rewrite Hdb; reflexivity|]. split.
  - intros Hpost Howner. subst out. unfold team_add_member, login_required.
    rewrite Howner, HT, Hpost. simpl.
    rewrite (proj2 (is_user_true _ _)) by reflexivity. simpl.
    rewrite Hu, Hmem. reflexivity.
  - intros Hauth Hother. subst out. unfold team_add_member, login_required.
    rewrite Hauth, HT.
    destruct (is_user (Team.owner T) (user request)) eqn:E; [|reflexivity].
    apply is_user_true in E. contradiction.
Qed.

(** Alice, the owner of Design, adds Bob, who is a member. *)
Lemma team_add_member_rejects_duplicate_witness :
  let request :=
    Example.request "POST" (Authenticated Example.alice)
      [("username", "bob"); ("role", "editor")] 0 in
  team_add_member request Example.design Example.world
  = Out (Redirect "accounts:team_detail")
        [Msg warning "User is already a team member."] Example.world.
Proof.
  intros request.
  refine (proj1 (proj2 (proj2 (team_add_member_rejects_duplicate request Example.design
            Example.world (Team.mk Example.design "Design" EmptyString Example.alice false)
            (User.mk Example.bob "bob" "bob@example.org" "Bob" EmptyString) _ _ _)))
            _ _); reflexivity.
Defined.

(** ** Registration *)

(** [create_user], when it returns, has added one user and the profile of
    that user. *)
Lemma create_user_adds_both (normalize_email : string -> string)
    (un em fst lst : string) (d d' : DB) (k : nat) :
  create_user normalize_email un em fst lst d = (Ok k, d') ->
  k = next_pk (users d)
  /\ d' = set_profiles
            (insert (fun j => UserProfile.mk j k "creator" true "light" 0 0) (profiles d))
            (set_users
               (insert (fun i => User.mk i un (normalize_email em) fst lst) (users d)) d)
  /\ exists_ (fun p => UserProfile.user p = k) (rows (profiles d)) = false.
Proof.
  unfold create_user, create_user_profile, UserProfile.create.
  destruct (exists_ (fun u => User.username u = un) (rows (users d))); [discriminate|].
  cbn [profiles set_users].
  destruct (exists_ (fun p => UserProfile.user p = next_pk (users d)) (rows (profiles d)))
    eqn:Hfree; [discriminate|].
  intros E. injection E as <- <-. auto.
Qed.

(** When the receiver raises, [create_user] raises with the user row
    written and without a profile of it: the state that [register] has to
    roll back. *)
Lemma create_user_raises_late (normalize_email : string -> string)
    (un em fst lst : string) (d : DB) :
  exists_ (fun u => User.username u = un) (rows (users d)) = false ->
  exists_ (fun p => UserProfile.user p = next_pk (users d)) (rows (profiles d)) = true ->
  create_user normalize_email un em fst lst d
  = (Raise (IntegrityError "accounts_userprofile.user_id"),
     set_users (insert (fun i => User.mk i un (normalize_email em) fst lst) (users d)) d).
Proof.
  intros Hu Hp. unfold create_user, create_user_profile, UserProfile.create.
  rewrite Hu. cbn [profiles set_users]. rewrite Hp. reflexivity.
Qed.


(** [register] writes to the users and profiles tables only. *)
Lemma register_writes (normalize_email : string -> string)
    (request : HttpRequest) (d : DB) :
  exists tu tp,
    db_after (register normalize_email request d) = set_profiles tp (set_users tu d).
Proof.
  assert (exists tu tp, d = set_profiles tp (set_users tu d)) as Hsame.
  { exists (users d), (profiles d). destruct d; reflexivity. }
  unfold register.
  repeat match goal with
         | |- context [if ?b then Out _ _ d else _] => destruct b; [exact Hsame|]
         end.
  destruct (bool_decide (method request = "POST")); [|exact Hsame].
  repeat match goal with
         | |- context [if ?b then Out _ _ d else _] => destruct b; [exact Hsame|]
         end.
  unfold atomic.
  destruct (first_name_of (POST_get request "full_name" EmptyString)) as [fst|e];
    [|exact Hsame].
  match goal with
  | |- context [create_user ?n ?a ?b ?c ?e ?f] =>
      destruct (create_user n a b c e f) as [[k|e'] d1] eqn:Ec
  end; [|exact Hsame].
  apply create_user_adds_both in Ec. destruct Ec as (_ & -> & _).
  cbn [db_after]. eauto.
Qed.

Lemma truthy_nonempty (s : string) : s <> EmptyString -> Py.truthy s = true.
Proof. destruct s; [congruence|reflexivity]. Qed.



(** What the block is for: in a database where a stale profile row holds
    the key the next user gets, [create_user] leaves the user row behind
    when the receiver raises, and [register] leaves nothing. *)
Lemma register_rolls_back_the_user :
  let d :=
    set_profiles
      (mkTable (rows Example.the_profiles ++ [UserProfile.mk 5 5 "creator" true "light" 0 0])
         6) Example.world in
  let request :=
    Example.request "POST" AnonymousUser
      [("username", "erin"); ("email", "erin@example.org"); ("password", "s3cret");
       ("password_confirm", "s3cret")] 0 in
  User.username <$> rows (users (snd (create_user Example.normalize_email "erin"
                                        "erin@example.org" EmptyString EmptyString d)))
  = ["alice"; "bob"; "carol"; "dan"; "erin"]
  /\ register Example.normalize_email request d
     = Out (Redirect "accounts:register")
         [MsgExc error "Registration failed: "
            (IntegrityError "accounts_userprofile.user_id")] d.
Proof. intros d request. split; reflexivity. Qed.

(** ** The status of a project across requests *)

Lemma status_in_weaken (k : nat) (Q Q' : string -> Prop) (tbl : Table Project.t) :
  (forall s, Q s -> Q' s) -> status_in k Q tbl -> status_in k Q' tbl.
Proof. intros HQ [Hk Hall]. split; [exact Hk|]. intros q Hq E. apply HQ. eauto. Qed.

Lemma status_in_update (k : nat) (Q : string -> Prop) (R : Project.t -> Prop)
    `{forall x, Decision (R x)} (f : Project.t -> Project.t) (tbl : Table Project.t) :
  (forall q, q ∈ rows tbl -> R q -> Project.pk (f q) = k -> Q (Project.status (f q))) ->
  status_in k Q tbl -> status_in k Q (update_where R f tbl).
Proof.
  intros Hf [Hk Hall]. split; [exact Hk|]. unfold update_where. cbn [rows].
  intros q Hq E. apply list_elem_of_fmap in Hq. destruct Hq as (q0 & -> & Hq0).
  destruct (decide (R q0)); eauto.
Qed.

Lemma status_in_delete (k : nat) (Q : string -> Prop) (R : Project.t -> Prop)
    `{forall x, Decision (R x)} (tbl : Table Project.t) :
  status_in k Q tbl -> status_in k Q (delete_where R tbl).
Proof.
  intros [Hk Hall]. split; [exact Hk|]. unfold delete_where. cbn [rows].
  intros q Hq E. apply elem_filter in Hq. destruct Hq as [Hq _]. eauto.
Qed.

Lemma status_in_save (slugify : string -> string) (k : nat) (Q : string -> Prop)
    (self self' : Project.t) (tbl tbl' : Table Project.t) :
  Project.save slugify self tbl = Ok (self', tbl') ->
  (Project.pk self = k -> Q (Project.status self)) ->
  status_in k Q tbl -> status_in k Q tbl'.
Proof.
  unfold Project.save. intros E Hself Hin.
  destruct (fill_slug_keeps slugify self) as (Hpk & Hst & _).
  destruct (Project.slug_taken _ tbl); [discriminate|].
  destruct (Project.has_row _ tbl); injection E as <- <-.
  - apply status_in_update; [|exact Hin].
    intros q _ _ E. rewrite Hst. apply Hself. congruence.
  - destruct Hin as [Hk Hall]. split; [exact Hk|]. cbn [rows].
    intros q Hq E. apply elem_of_app in Hq. destruct Hq as [Hq|Hq]; [eauto|].
    apply list_elem_of_singleton in Hq. subst q. rewrite Hst. apply Hself. congruence.
Qed.

Lemma status_in_save_update_fields (slugify : string -> string) (k : nat)
    (Q : string -> Prop) (copy : Project.t -> Project.t -> Project.t)
    (self self' : Project.t) (tbl tbl' : Table Project.t) :
  (forall s q, Project.pk (copy s q) = Project.pk q
               /\ Project.status (copy s q) = Project.status q) ->
  Project.save_update_fields slugify copy self tbl = Ok (self', tbl') ->
  status_in k Q tbl -> status_in k Q tbl'.
Proof.
  unfold Project.save_update_fields. intros Hcopy E Hin.
  destruct (Project.has_row _ tbl); [|discriminate]. injection E as <- <-.
  apply status_in_update; [|exact Hin].
  intros q Hq _ E. destruct (Hcopy (Project.fill_slug slugify self) q) as [Hpk Hst].
  rewrite Hst. apply Hin; congruence.
Qed.

Lemma status_in_create (slugify : string -> string) (k : nat) (Q : string -> Prop)
    (ti de : string) (ca : option nat) (ta : string) (cr : nat) (st : string)
    (self' : Project.t) (tbl tbl' : Table Project.t) :
  Project.create slugify ti de ca ta cr st tbl = Ok (self', tbl') ->
  status_in k Q tbl -> status_in k Q tbl'.
Proof.
  unfold Project.create. intros E [Hk Hall].
  destruct (Project.slug_taken _ tbl); [discriminate|]. injection E as <- <-.
  unfold status_in, insert. cbn [rows next_pk]. split; [lia|].
  intros q Hq E. apply elem_of_app in Hq. destruct Hq as [Hq|Hq]; [eauto|].
  apply list_elem_of_singleton in Hq. subst q.
  rewrite (proj1 (fill_slug_keeps _ _)) in E. simpl in E. lia.
Qed.

Lemma db_after_uncaught (e : Exc) (d : DB) : db_after (uncaught e d) = d.
Proof. destruct e; reflexivity. Qed.

(** Case analysis on every test a view makes. *)
Ltac view_cases :=
  repeat match goal with
         | |- context [match ?x with _ => _ end] =>
             lazymatch x with
             | context [match _ with _ => _ end] => fail
             | _ => destruct x eqn:?
             end
         end;
  rewrite ?db_after_uncaught; cbn [db_after].

Lemma get_Ok_elem {A : Type} (model : string) (P : A -> Prop)
    `{forall x, Decision (P x)} (l : list A) (x : A) :
  get_object_or_404 model P l = Ok x -> x ∈ l /\ P x.
Proof. intros E. apply get_object_or_404_Ok in E. exact (filter_singleton_elem _ _ _ E). Qed.

Section Status.
Variable slugify : string -> string.
Variable int : string -> option Z.
Variable normalize_email : string -> string.

Lemma serve_leaves_projects (v : View) (request : HttpRequest) (d : DB) :
  leaves_projects v = true ->
  projects (db_after (serve slugify int normalize_email v request d)) = projects d.
Proof.
  destruct v; try discriminate; intros _; cbn [serve].
  - destruct (register_writes normalize_email request d) as (tu & tp & ->).
    reflexivity.
  - unfold team_create, login_required. view_cases; reflexivity.
  - unfold team_detail. view_cases; reflexivity.
  - unfold team_add_member, login_required. view_cases; reflexivity.
  - unfold project_comment, login_required. view_cases; reflexivity.
  - unfold media_delete, login_required. view_cases; reflexivity.
  - unfold add_media_to_project, login_required. view_cases; reflexivity.
  - unfold remove_media_from_project, login_required. view_cases; reflexivity.
Qed.

Lemma project_like_status (k : nat) (Q : string -> Prop) (request : HttpRequest)
    (slug : string) (d : DB) :
  status_in k Q (projects d) ->
  status_in k Q (projects (db_after (project_like slugify request slug d))).
Proof.
  intros Hin. unfold project_like, login_required.
  view_cases; try exact Hin;
    match goal with
    | E : Project.save_update_fields _ _ _ _ = Ok _ |- _ =>
        apply (status_in_save_update_fields _ k Q) in E;
          [exact E | intros s q; split; reflexivity | exact Hin]
    end.
Qed.

Lemma project_detail_status (k : nat) (Q : string -> Prop) (request : HttpRequest)
    (slug : string) (d : DB) :
  status_in k Q (projects d) ->
  status_in k Q (projects (db_after (project_detail slugify request slug d))).
Proof.
  intros Hin. unfold project_detail, Project.increment_view_count.
  view_cases; try exact Hin;
    match goal with
    | E : Project.save_update_fields _ _ _ _ = Ok _ |- _ =>
        apply (status_in_save_update_fields _ k Q) in E;
          [exact E | intros s q; split; reflexivity | exact Hin]
    end.
Qed.

Lemma project_delete_status (k : nat) (Q : string -> Prop) (request : HttpRequest)
    (slug : string) (d : DB) :
  status_in k Q (projects d) ->
  status_in k Q (projects (db_after (project_delete request slug d))).
Proof.
  intros Hin. unfold project_delete, login_required.
  view_cases; try exact Hin.
  unfold Project_delete. cbn [projects set_projects set_associations set_likes set_comments].
  apply status_in_delete. exact Hin.
Qed.

Lemma project_create_status (k : nat) (Q : string -> Prop) (request : HttpRequest)
    (d : DB) :
  status_in k Q (projects d) ->
  status_in k Q (projects (db_after (project_create slugify int request d))).
Proof.
  intros Hin. unfold project_create, login_required.
  view_cases; try exact Hin;
    match goal with
    | E : Project.create _ _ _ _ _ _ _ _ = Ok _ |- _ =>
        apply (status_in_create _ k Q) in E; [exact E | exact Hin]
    end.
Qed.

Lemma project_edit_status (k : nat) (Q : string -> Prop) (request : HttpRequest)
    (slug : string) (d : DB) :
  status_in k Q (projects d) ->
  status_in k Q (projects (db_after (project_edit slugify int request slug d))).
Proof.
  intros Hin. unfold project_edit, login_required.
  destruct (is_authenticated (user request)); [|exact Hin].
  destruct (get_object_or_404 "Project" (by_slug slug) (rows (projects d)))
    as [P|e] eqn:Hget; [|rewrite db_after_uncaught; exact Hin].
  apply get_Ok_elem in Hget. destruct Hget as [HP _].
  view_cases; try exact Hin;
    match goal with
    | E : Project.save _ _ _ = Ok _ |- _ =>
        apply (status_in_save _ k Q) in E; [exact E | | exact Hin]
    end;
    repeat match goal with
           | E : Ok _ = Ok _ |- _ => injection E as <-
           end;
    simpl; intros Hk; apply Hin; assumption.
Qed.

Lemma project_publish_status (k : nat) (Q : string -> Prop) (request : HttpRequest)
    (slug : string) (d : DB) :
  status_in k Q (projects d) ->
  status_in k (fun s => Q s \/ s = "published")
    (projects (db_after (project_publish slugify request slug d))).
Proof.
  intros Hin.
  assert (status_in k (fun s => Q s \/ s = "published") (projects d)) as Hin'
    by (apply (status_in_weaken k Q); [intros s Hs; left; exact Hs|exact Hin]).
  unfold project_publish, login_required, Project.publish.
  view_cases; try exact Hin'.
  match goal with
  | E : Project.save _ _ _ = Ok _ |- _ =>
      apply (status_in_save _ k (fun s => Q s \/ s = "published")) in E;
        [exact E | | exact Hin']
  end.
  intros _. right. reflexivity.
Qed.
End Status.

Lemma serve_status (slugify : string -> string) (int : string -> option Z)
    (normalize_email : string -> string) (k : nat) (Q : string -> Prop)
    (v : View) (request : HttpRequest) (d : DB) :
  status_in k Q (projects d) ->
  let d' := db_after (serve slugify int normalize_email v request d) in
  status_in k (fun s => Q s \/ s = "published") (projects d')
  /\ (is_publish v = false -> status_in k Q (projects d')).
Proof.
  intros Hin d'.
  assert (is_publish v = false -> status_in k Q (projects d')) as Hkeep.
  { intros Hv. subst d'.
    destruct (leaves_projects v) eqn:Hl.
    - rewrite serve_leaves_projects by exact Hl. exact Hin.
    - destruct v; try discriminate; cbn [serve].
      + apply project_create_status, Hin.
      + apply project_edit_status, Hin.
      + apply project_detail_status, Hin.
      + apply project_delete_status, Hin.
      + apply project_like_status, Hin. }
  split; [|exact Hkeep].
  destruct (is_publish v) eqn:Hv.
  - destruct v; try discriminate. apply project_publish_status, Hin.
  - apply (status_in_weaken k Q); [tauto|]. apply Hkeep. reflexivity.
Qed.

(** C4, as stated, fails: Alice publishes the archived project Logo and it
    is 'published' again. *)
Lemma publish_revives_archived_project :
  let P := Project.set_status "archived" Example.logo in
  let d := Example.world_with P in
  let request := Example.request "POST" (Authenticated Example.alice) [] 200 in
  let d' := db_after (project_publish Example.slugify request "logo" d) in
  Project.status <$> project_of 1 d = Some "archived"
  /\ Project.status <$> project_of 1 d' = Some "published".
Proof. vm_compute. split; reflexivity. Qed.

(** C4, amended. Of an archived project (every row with its key has status
    'archived'): a request to any view other than [project_publish] leaves
    it archived; [project_publish] by an actor with [can_edit] moves it to
    'published', the code testing nothing about the state it leaves; and
    after any run of requests its status is 'archived' or 'published',
    never 'draft'. *)
Theorem archived_leaves_only_by_publish (slugify : string -> string)
    (int : string -> option Z) (normalize_email : string -> string)
    (k : nat) (d : DB) :
  status_in k (fun s => s = "archived") (projects d) ->
  (forall v request,
     is_publish v = false ->
     status_in k (fun s => s = "archived")
       (projects (db_after (serve slugify int normalize_email v request d))))
  /\ (forall request slug P,
        slug <> EmptyString ->
        get_object_or_404 "Project" (by_slug slug) (rows (projects d)) = Ok P ->
        Project.pk P = k ->
        Project.can_edit (memberships d) P (user request) = true ->
        Project.status <$>
          project_of k (db_after (serve slugify int normalize_email
                                    (V_project_publish slug) request d))
        = Some "published")
  /\ (forall l,
        status_in k (fun s => s = "archived" \/ s = "published")
          (projects (serve_all slugify int normalize_email l d))).
Proof.
  intros Hin. split; [|split].
  - intros v request Hv.
    exact (proj2 (serve_status slugify int normalize_email k _ v request d Hin) Hv).
  - intros request slug P Hne Hget <- Hcan. cbn [serve].
    unfold project_publish, login_required.
    rewrite (can_edit_authenticated _ _ _ Hcan), Hget, Hcan. cbn [negb].
    pose proof (proj1 (get_object_or_404_Ok _ _ _ _) Hget) as Hrows.
    rewrite (publish_saves slugify _ slug) by assumption.
    unfold project_of, set_projects. cbn [db_after projects].
    rewrite (first_update_where_pk (Project.pk P)) by reflexivity.
    destruct (filter_singleton_elem _ _ _ Hrows) as [HP _].
    destruct (first (by_pk (Project.pk P)) (rows (projects d))) as [q|] eqn:Ef;
      [reflexivity|].
    apply first_None in Ef.
    exfalso. apply (proj1 (exists_false_forall _ _) Ef P HP). reflexivity.
  - intros l.
    assert (status_in k (fun s => s = "archived" \/ s = "published") (projects d)) as Hin'
      by (apply (status_in_weaken k (fun s => s = "archived")); [tauto|exact Hin]).
    clear Hin. revert d Hin'.
    induction l as [|[v request] l IH]; intros d Hin'; [exact Hin'|].
    cbn [serve_all]. apply IH.
    apply (status_in_weaken k (fun s => (s = "archived" \/ s = "published") \/ s = "published"));
      [tauto|].
    exact (proj1 (serve_status slugify int normalize_email k
                    (fun s => s = "archived" \/ s = "published") v request d Hin')).
Qed.

Lemma archived_example :
  status_in 1 (fun s => s = "archived")
    (projects (Example.world_with (Project.set_status "archived" Example.logo))).
Proof.
  split; [vm_compute; lia|].
  intros q Hq _. apply list_elem_of_singleton in Hq. subst q. reflexivity.
Defined.

(** Bob, a viewer, may not publish; Dan, an editor, may. *)
Lemma archived_leaves_only_by_publish_witness :
  let d := Example.world_with (Project.set_status "archived" Example.logo) in
  let bob := Example.request "POST" (Authenticated Example.bob) [] 200 in
  let dan := Example.request "POST" (Authenticated Example.dan) [] 200 in
  status_in 1 (fun s => s = "archived")
    (projects (db_after (serve Example.slugify Example.int Example.normalize_email
                           (V_project_like "logo") bob d)))
  /\ Project.status <$>
       project_of 1 (db_after (serve Example.slugify Example.int Example.normalize_email
                                 (V_project_publish "logo") dan d))
     = Some "published".
Proof.
  intros d bob dan.
  destruct (archived_leaves_only_by_publish Example.slugify Example.int
              Example.normalize_email 1 d archived_example) as (H1 & H2 & _).
  split.
  - apply H1. reflexivity.
  - apply (H2 dan "logo" (Project.set_status "archived" Example.logo)).
    + discriminate.
    + reflexivity.
    + reflexivity.
    + reflexivity.
Defined.

(** ** What the views read of a membership *)











Section Quiet.
Variable slugify : string -> string.
Variable int : string -> option Z.
Variable normalize_email : string -> string.




End Quiet.

(** ** Commenting and liking *)




(** Making the viewer Bob a commenter gives him [can_comment] and is a
    change of the kind no view notices. *)
Lemma viewer_to_commenter_is_quiet :
  let ms' :=
    mkTable [ TeamMembership.mk 1 Example.design Example.alice "owner";
              TeamMembership.mk 2 Example.design Example.bob "commenter";
              TeamMembership.mk 3 Example.design Example.dan "editor" ] 4 in
  roles_quiet Example.the_memberships ms'
  /\ TeamMembership.can_comment <$> rows Example.the_memberships = [true; false; true]
  /\ TeamMembership.can_comment <$> rows ms' = [true; true; true].
Proof.
  intros ms'. split; [|split; reflexivity].
  split; [|reflexivity].
  repeat constructor.
Qed.

(** * Further properties *)

(** ** Access control, continued *)

(** X1. Whoever may edit a project may view it. *)
Theorem can_edit_implies_can_view (ms : Table TeamMembership.t) (P : Project.t)
    (U : Actor) :
  Project.can_edit ms P U = true -> Project.can_view ms P U = true.
Proof.
  unfold Project.can_edit, Project.can_view. intros H.
  destruct (Project.is_public P); [reflexivity|].
  destruct (negb (is_authenticated U)); [discriminate|].
  destruct (is_user (Project.creator P) U); [reflexivity|].
  destruct (Project.team P) as [t|]; [|discriminate].
  destruct (first (TeamMembership.of_pair t U) (rows ms)) as [m|] eqn:Ef; [|discriminate].
  apply first_Some_elem in Ef.
  unfold Team.is_member. rewrite (proj2 (exists_true _ _)); [reflexivity|].
  exists m. exact Ef.
Qed.

Lemma can_edit_implies_can_view_witness :
  Project.can_view Example.the_memberships Example.logo (Authenticated Example.dan) = true.
Proof.
  apply (can_edit_implies_can_view Example.the_memberships Example.logo
           (Authenticated Example.dan)).
  reflexivity.
Defined.

(** ** Teams, continued *)

(** X2. A valid [team_create] (a name that is given and not taken) adds the
    team with the actor as owner and the actor's membership with role
    'owner'; from then on the actor is a member and may edit every project
    of the team. *)
Theorem team_create_makes_owner_member (request : HttpRequest) (d : DB)
    (U : nat) (name : string) :
  user request = Authenticated U ->
  method request = "POST" ->
  POST request !! "name" = Some name -> name <> EmptyString ->
  (forall t, t ∈ rows (teams d) -> Team.name t <> name) ->
  (forall m, m ∈ rows (memberships d) -> TeamMembership.team m < next_pk (teams d)) ->
  let out := team_create request d in
  let k := next_pk (teams d) in
  response out = Redirect "accounts:team_detail"
  /\ rows (teams (db_after out))
     = rows (teams d)
       ++ [Team.mk k name (POST_get request "description" EmptyString) U
             (POST_on request "is_public")]
  /\ rows (memberships (db_after out))
     = rows (memberships d)
       ++ [TeamMembership.mk (next_pk (memberships d)) k U "owner"]
  /\ Team.is_member (memberships (db_after out)) k (Authenticated U) = true
  /\ (forall P, Project.team P = Some k ->
                Project.can_edit (memberships (db_after out)) P (Authenticated U) = true).
Proof.
  intros HU Hpost Hname Hne Hfree Hfk out k.
  assert (Hnone : filter (TeamMembership.of_pair k (Authenticated U))
                    (rows (memberships d)) = []).
  { apply exists_false, exists_false_forall. intros m Hm [_ Ht].
    specialize (Hfk m Hm). subst k. lia. }
  assert (Hout : out
    = Out (Redirect "accounts:team_detail")
        [Msg success ("Team " +:+ Py.quoted name +:+ " created successfully.")]
        (set_memberships
           (insert (fun j => TeamMembership.mk j k U "owner") (memberships d))
           (set_teams
              (insert (fun i => Team.mk i name (POST_get request "description" EmptyString)
                                  U (POST_on request "is_public")) (teams d)) d))).
  { subst out. unfold team_create, login_required.
    rewrite HU, Hpost, Hname. cbn [is_authenticated user_instance default from_option].
    rewrite (bool_decide_eq_true_2 ("POST" = "POST")) by reflexivity.
    cbn [Py.truthy_opt]. rewrite truthy_nonempty by exact Hne. cbn [negb]. unfold id.
    unfold Team.create.
    rewrite (proj2 (exists_false_forall _ (rows (teams d)))) by exact Hfree.
    cbn [memberships set_teams]. unfold TeamMembership.create. fold k.
    rewrite (proj2 (exists_false _ _) Hnone). reflexivity. }
  rewrite Hout. cbn [response db_after]. unfold set_memberships, set_teams, insert.
  cbn [teams memberships rows].
  split; [reflexivity|]. split; [reflexivity|]. split; [reflexivity|].
  assert (Hfirst : first (TeamMembership.of_pair k (Authenticated U))
                     (rows (memberships d)
                      ++ [TeamMembership.mk (next_pk (memberships d)) k U "owner"])
                   = Some (TeamMembership.mk (next_pk (memberships d)) k U "owner")).
  { unfold first. rewrite filter_app, Hnone. cbn [app].
    rewrite filter_cons, decide_True by (split; reflexivity). reflexivity. }
  split.
  - unfold Team.is_member. cbn [rows]. apply exists_true.
    apply first_Some_elem in Hfirst. eauto.
  - intros P HP. unfold Project.can_edit. cbn [is_authenticated negb rows].
    destruct (is_user (Project.creator P) (Authenticated U)); [reflexivity|].
    rewrite HP, Hfirst. reflexivity.
Qed.

(** Carol founds the team Studio. *)
Lemma team_create_makes_owner_member_witness :
  let request :=
    Example.request "POST" (Authenticated Example.carol) [("name", "Studio")] 0 in
  rows (memberships (db_after (team_create request Example.world)))
  = rows Example.the_memberships ++ [TeamMembership.mk 4 2 Example.carol "owner"].
Proof.
  intros request.
  refine (proj1 (proj2 (proj2 (team_create_makes_owner_member request Example.world
            Example.carol "Studio" eq_refl eq_refl eq_refl _ _ _)))).
  - discriminate.
  - intros t Ht. apply list_elem_of_singleton in Ht. subst t. discriminate.
  - intros m Hm. apply list_elem_of_In in Hm. simpl in Hm.
    destruct Hm as [<-|[<-|[<-|[]]]]; vm_compute; lia.
Defined.

(** X3. [team_add_member] writes only when the actor is the owner of the
    team, the request is a POST and the named user exists and is not yet a
    member; what it writes is one membership row of that user with the
    posted role (or 'viewer').  In every other case the database stays as
    it is: neither a member with role 'owner' or 'editor' nor anyone else
    but [team.owner] can add members. *)
Theorem team_add_member_effects (request : HttpRequest) (pk : nat) (d : DB) :
  let out := team_add_member request pk d in
  db_after out = d
  \/ exists T u,
       get_object_or_404 "Team" (fun t => Team.pk t = pk) (rows (teams d)) = Ok T
       /\ user request = Authenticated (Team.owner T)
       /\ method request = "POST"
       /\ get_object_or_404 "User"
            (fun x => Some (User.username x) = POST request !! "username")
            (rows (users d)) = Ok u
       /\ Team.is_member (memberships d) (Team.pk T) (Authenticated (User.pk u)) = false
       /\ db_after out
          = set_memberships
              (insert (fun k => TeamMembership.mk k (Team.pk T) (User.pk u)
                                  (POST_get request "role" "viewer"))
                 (memberships d)) d.
Proof.
  unfold team_add_member, login_required.
  destruct (is_authenticated (user request)); [|left; reflexivity].
  destruct (get_object_or_404 "Team" _ (rows (teams d))) as [T|e] eqn:HT;
    [|left; apply db_after_uncaught].
  destruct (is_user (Team.owner T) (user request)) eqn:Hown; [|left; reflexivity].
  apply is_user_true in Hown. cbn [negb].
  destruct (bool_decide (method request = "POST")) eqn:Hpost; [|left; reflexivity].
  apply bool_decide_eq_true in Hpost.
  destruct (get_object_or_404 "User" _ (rows (users d))) as [u|e] eqn:Hu;
    [|left; destruct e; reflexivity].
  destruct (Team.is_member (memberships d) (Team.pk T) (Authenticated (User.pk u)))
    eqn:Hmem; [left; reflexivity|].
  unfold TeamMembership.create. unfold Team.is_member in Hmem. rewrite Hmem.
  right. exists T, u. repeat split; assumption.
Qed.

(** X4. When the owner adds an existing user who is not a member, the user
    becomes a member with the posted role, whatever that text is; the new
    member may view every project of the team, and may edit one that is not
    their own exactly when the role is 'owner' or 'editor'. *)
Theorem team_add_member_adds (request : HttpRequest) (pk : nat) (d : DB)
    (T : Team.t) (u : User.t) :
  get_object_or_404 "Team" (fun t => Team.pk t = pk) (rows (teams d)) = Ok T ->
  user request = Authenticated (Team.owner T) ->
  method request = "POST" ->
  get_object_or_404 "User" (fun x => Some (User.username x) = POST request !! "username")
    (rows (users d)) = Ok u ->
  Team.is_member (memberships d) (Team.pk T) (Authenticated (User.pk u)) = false ->
  let role := POST_get request "role" "viewer" in
  let out := team_add_member request pk d in
  response out = Redirect "accounts:team_detail"
  /\ rows (memberships (db_after out))
     = rows (memberships d)
       ++ [TeamMembership.mk (next_pk (memberships d)) (Team.pk T) (User.pk u) role]
  /\ (forall P, Project.team P = Some (Team.pk T) ->
        Project.can_view (memberships (db_after out)) P (Authenticated (User.pk u)) = true
        /\ (Project.creator P <> User.pk u ->
            Project.can_edit (memberships (db_after out)) P (Authenticated (User.pk u))
            = bool_decide (role ∈ ["owner"; "editor"]))).
Proof.
  intros HT Hown Hpost Hu Hmem role out.
  assert (Hnone : filter (TeamMembership.of_pair (Team.pk T) (Authenticated (User.pk u)))
                    (rows (memberships d)) = [])
    by (apply exists_false; exact Hmem).
  assert (Hout : out
    = Out (Redirect "accounts:team_detail")
        [Msg success ("User " +:+ Py.quoted (default EmptyString (POST request !! "username"))
                      +:+ " added to team.")]
        (set_memberships
           (insert (fun k => TeamMembership.mk k (Team.pk T) (User.pk u) role)
              (memberships d)) d)).
  { subst out. unfold team_add_member, login_required.
    rewrite Hown, HT, Hpost. cbn [is_authenticated].
    rewrite (proj2 (is_user_true _ _)) by reflexivity.
    rewrite (bool_decide_eq_true_2 ("POST" = "POST")) by reflexivity. cbn [negb].
    rewrite Hu, Hmem. unfold TeamMembership.create.
    unfold Team.is_member in Hmem. rewrite Hmem. reflexivity. }
  rewrite Hout. cbn [response db_after]. unfold set_memberships, insert.
  cbn [memberships rows].
  split; [reflexivity|]. split; [reflexivity|].
  assert (Hfirst : first (TeamMembership.of_pair (Team.pk T) (Authenticated (User.pk u)))
                     (rows (memberships d)
                      ++ [TeamMembership.mk (next_pk (memberships d)) (Team.pk T)
                            (User.pk u) role])
                   = Some (TeamMembership.mk (next_pk (memberships d)) (Team.pk T)
                             (User.pk u) role)).
  { unfold first. rewrite filter_app, Hnone. cbn [app].
    rewrite filter_cons, decide_True by (split; reflexivity). reflexivity. }
  intros P HP. split.
  - unfold Project.can_view. destruct (Project.is_public P); [reflexivity|].
    cbn [is_authenticated negb].
    destruct (is_user (Project.creator P) (Authenticated (User.pk u))); [reflexivity|].
    rewrite HP. unfold Team.is_member. cbn [rows].
    rewrite (proj2 (exists_true _ _)); [reflexivity|].
    apply first_Some_elem in Hfirst. eauto.
  - intros Hcre. unfold Project.can_edit. cbn [is_authenticated negb rows].
    destruct (is_user (Project.creator P) (Authenticated (User.pk u))) eqn:E.
    + apply is_user_true in E. congruence.
    + rewrite HP, Hfirst. unfold TeamMembership.can_edit. cbn [TeamMembership.role].
      destruct (bool_decide (role ∈ ["owner"; "editor"])); reflexivity.
Qed.

(** Alice adds Carol to Design with a role outside the choices. *)
Lemma team_add_member_adds_witness :
  let request :=
    Example.request "POST" (Authenticated Example.alice)
      [("username", "carol"); ("role", "guest")] 0 in
  let out := team_add_member request Example.design Example.world in
  rows (memberships (db_after out))
  = rows Example.the_memberships
    ++ [TeamMembership.mk 4 Example.design Example.carol "guest"]
  /\ Project.can_view (memberships (db_after out)) Example.logo
       (Authenticated Example.carol) = true.
Proof.
  intros request out.
  destruct (team_add_member_adds request Example.design Example.world
              (Team.mk Example.design "Design" EmptyString Example.alice false)
              (User.mk Example.carol "carol" "carol@example.org" "Carol" EmptyString)
              eq_refl eq_refl eq_refl eq_refl eq_refl) as (_ & Hrows & Hp).
  split; [exact Hrows|]. apply (Hp Example.logo). reflexivity.
Defined.

(** ** Keys and unique constraints *)

Section TableSteps.
Context {A K : Type} (key : A -> nat) (u : A -> K).

Lemma fmap_update_same {B : Type} (g : A -> B) (R : A -> Prop)
    `{forall x, Decision (R x)} (f : A -> A) (l : list A) :
  (forall x, x ∈ l -> R x -> g (f x) = g x) ->
  g <$> ((fun x => if decide (R x) then f x else x) <$> l) = g <$> l.
Proof.
  intros Hf. induction l as [|a l IH]; [reflexivity|].
  rewrite !fmap_cons. f_equal.
  - destruct (decide (R a)); [apply Hf; [left|assumption]|reflexivity].
  - apply IH. intros x Hx. apply Hf. right. exact Hx.
Qed.

Lemma replace_absent (self : A) (l : list A) :
  (forall x, x ∈ l -> key x <> key self) ->
  (fun x => if decide (key x = key self) then self else x) <$> l = l.
Proof.
  intros Hno. induction l as [|a l IH]; [reflexivity|].
  rewrite fmap_cons, decide_False by (apply Hno; left).
  f_equal. apply IH. intros x Hx. apply Hno. right. exact Hx.
Qed.

Lemma replace_unique (self : A) (l : list A) :
  NoDup (key <$> l) -> NoDup (u <$> l) ->
  (forall y, y ∈ l -> u y = u self -> key y = key self) ->
  NoDup (u <$> ((fun x => if decide (key x = key self) then self else x) <$> l)).
Proof.
  induction l as [|a l IH]; intros Hk Hu Hfree; [constructor|].
  rewrite fmap_cons in Hk. rewrite fmap_cons in Hu.
  apply NoDup_cons in Hk. apply NoDup_cons in Hu.
  destruct Hk as [Hka Hk], Hu as [Hua Hu].
  rewrite !fmap_cons. destruct (decide (key a = key self)) as [E|N].
  - rewrite replace_absent.
    + apply NoDup_cons. split; [|exact Hu].
      intros Hin. apply list_elem_of_fmap in Hin. destruct Hin as (y & Ey & Hy).
      apply Hka. apply list_elem_of_fmap. exists y. split; [|exact Hy].
      rewrite E. symmetry. apply Hfree; [right; exact Hy|congruence].
    + intros x Hx Ex. apply Hka. apply list_elem_of_fmap. exists x.
      split; [congruence|exact Hx].
  - apply NoDup_cons. split.
    + intros Hin. apply list_elem_of_fmap in Hin. destruct Hin as (y & Ey & Hy).
      apply list_elem_of_fmap in Hy. destruct Hy as (z & -> & Hz).
      destruct (decide (key z = key self)).
      * apply N. apply Hfree; [left|exact Ey].
      * apply Hua. apply list_elem_of_fmap. exists z. split; assumption.
    + apply IH; [exact Hk|exact Hu|].
      intros y Hy. apply Hfree. right. exact Hy.
Qed.

Lemma table_step_ok (t t' : Table A) :
  table_step key u t t' -> table_ok key u t -> table_ok key u t'.
Proof.
  intros Hstep (Hk & Hlt & Hu). destruct Hstep as [t|t row Hrow Hfresh|t R ?|t R ? f Hf|t self Hfree].
  - repeat split; assumption.
  - unfold insert, table_ok. cbn [rows next_pk]. rewrite !fmap_app. cbn [fmap list_fmap].
    rewrite Forall_forall in Hlt. repeat split.
    + apply NoDup_app. split; [exact Hk|]. split; [|apply NoDup_singleton].
      intros k Hin Hin'. apply list_elem_of_singleton in Hin'.
      apply list_elem_of_fmap in Hin. destruct Hin as (x & -> & Hx).
      specialize (Hlt x Hx). lia.
    + apply Forall_app. split.
      * apply Forall_forall. intros x Hx. specialize (Hlt x Hx). lia.
      * constructor; [lia|constructor].
    + apply NoDup_app. split; [exact Hu|]. split; [|apply NoDup_singleton].
      intros v Hin Hin'. apply list_elem_of_singleton in Hin'.
      apply list_elem_of_fmap in Hin. destruct Hin as (x & -> & Hx).
      exact (Hfresh x Hx (Hlt x Hx) Hin').
  - unfold delete_where, table_ok. cbn [rows next_pk]. repeat split.
    + eapply sublist_NoDup; [exact Hk|]. apply fmap_sublist, sublist_filter.
    + rewrite Forall_forall in *. intros x Hx. apply Hlt.
      apply elem_filter in Hx. tauto.
    + eapply sublist_NoDup; [exact Hu|]. apply fmap_sublist, sublist_filter.
  - unfold update_where, table_ok. cbn [rows next_pk]. repeat split.
    + rewrite fmap_update_same; [exact Hk|]. intros x Hx HR. apply (Hf x Hx HR).
    + rewrite Forall_forall in *. intros y Hy.
      apply list_elem_of_fmap in Hy. destruct Hy as (x & -> & Hx).
      destruct (decide (R x)) as [HR|]; [|auto].
      rewrite (proj1 (Hf x Hx HR)). auto.
    + rewrite fmap_update_same; [exact Hu|]. intros x Hx HR. apply (Hf x Hx HR).
  - unfold update_where, table_ok. cbn [rows next_pk]. repeat split.
    + rewrite fmap_update_same; [exact Hk|]. intros x Hx HR. congruence.
    + rewrite Forall_forall in *. intros y Hy.
      apply list_elem_of_fmap in Hy. destruct Hy as (x & -> & Hx).
      destruct (decide (key x = key self)) as [E|]; [|auto].
      rewrite <- E. auto.
    + apply replace_unique; assumption.
Qed.

(** Under the constraints a value of [u] names one row. *)
Lemma unique_column_row (t : Table A) (x y : A) :
  NoDup (u <$> rows t) -> x ∈ rows t -> y ∈ rows t -> u x = u y -> x = y.
Proof.
  induction (rows t) as [|a l IH]; intros Hnd Hx Hy E; [inversion Hx|].
  rewrite fmap_cons in Hnd. apply NoDup_cons in Hnd. destruct Hnd as [Ha Hnd].
  apply elem_of_cons in Hx, Hy.
  destruct Hx as [->|Hx], Hy as [->|Hy].
  - reflexivity.
  - exfalso. apply Ha. apply list_elem_of_fmap. exists y. auto.
  - exfalso. apply Ha. apply list_elem_of_fmap. exists x. auto.
  - apply IH; assumption.
Qed.
End TableSteps.

(** What each manager call and [save] does to its table. *)

Lemma UserProfile_create_step (u : nat) (t t' : Table UserProfile.t) :
  UserProfile.create u t = Ok t' -> table_step UserProfile.pk UserProfile.user t t'.
Proof.
  unfold UserProfile.create. destruct (exists_ _ (rows t)) eqn:E; [discriminate|].
  intros [= <-]. apply ts_insert; [reflexivity|].
  intros x Hx _. exact (proj1 (exists_false_forall _ _) E x Hx).
Qed.

Lemma TeamMembership_create_step (tm u : nat) (r : string)
    (t t' : Table TeamMembership.t) :
  TeamMembership.create tm u r t = Ok t' ->
  table_step TeamMembership.pk membership_pair t t'.
Proof.
  unfold TeamMembership.create. destruct (exists_ _ (rows t)) eqn:E; [discriminate|].
  intros [= <-]. apply ts_insert; [reflexivity|].
  intros x Hx _ Ep. apply (proj1 (exists_false_forall _ _) E x Hx).
  unfold membership_pair in Ep. cbn in Ep. injection Ep as E1 E2.
  split; cbn; congruence.
Qed.

Lemma Team_create_step (n ds : string) (o : nat) (pub : bool) (k : nat)
    (t t' : Table Team.t) :
  Team.create n ds o pub t = Ok (k, t') -> table_step Team.pk Team.name t t'.
Proof.
  unfold Team.create. destruct (exists_ _ (rows t)) eqn:E; [discriminate|].
  intros [= <- <-]. apply ts_insert; [reflexivity|].
  intros x Hx _. exact (proj1 (exists_false_forall _ _) E x Hx).
Qed.

Lemma ProjectLike_create_step (p u : nat) (t t' : Table ProjectLike.t) :
  ProjectLike.create p u t = Ok t' -> table_step ProjectLike.pk like_pair t t'.
Proof.
  unfold ProjectLike.create. destruct (exists_ _ (rows t)) eqn:E; [discriminate|].
  intros [= <-]. apply ts_insert; [reflexivity|].
  intros x Hx _ Ep. apply (proj1 (exists_false_forall _ _) E x Hx).
  unfold like_pair in Ep. cbn in Ep. injection Ep as E1 E2.
  split; cbn; congruence.
Qed.

Lemma ProjectMediaAssociation_create_step (p m : nat) (c : string) (cover : bool)
    (o : Z) (t t' : Table ProjectMediaAssociation.t) :
  ProjectMediaAssociation.create p m c cover o t = Ok t' ->
  table_step ProjectMediaAssociation.pk association_pair t t'.
Proof.
  unfold ProjectMediaAssociation.create.
  destruct (exists_ _ (rows t)) eqn:E; [discriminate|].
  intros [= <-]. apply ts_insert; [reflexivity|].
  intros x Hx _ Ep. apply (proj1 (exists_false_forall _ _) E x Hx).
  unfold association_pair in Ep. cbn in Ep. injection Ep as E1 E2.
  split; assumption.
Qed.

Lemma slug_taken_false (self : Project.t) (tbl : Table Project.t) :
  Project.slug_taken self tbl = false ->
  forall y, y ∈ rows tbl -> Project.slug y = Project.slug self ->
            Project.pk y = Project.pk self.
Proof.
  intros E y Hy Hs. pose proof (proj1 (exists_false_forall _ _) E y Hy) as Hno.
  destruct (decide (Project.pk y = Project.pk self)); [assumption|].
  exfalso. apply Hno. split; assumption.
Qed.

Lemma Project_create_step (slugify : string -> string) (ti de : string)
    (ca : option nat) (ta : string) (cr : nat) (st : string) (s : Project.t)
    (t t' : Table Project.t) :
  Project.create slugify ti de ca ta cr st t = Ok (s, t') ->
  table_step Project.pk Project.slug t t'.
Proof.
  unfold Project.create. destruct (Project.slug_taken _ t) eqn:E; [discriminate|].
  intros [= <- <-]. apply ts_insert.
  - rewrite (proj1 (fill_slug_keeps _ _)). reflexivity.
  - intros x Hx Hlt Es. pose proof (slug_taken_false _ _ E x Hx Es) as Hpk.
    rewrite (proj1 (fill_slug_keeps _ _)) in Hpk. cbn in Hpk. lia.
Qed.

Lemma Project_save_step (slugify : string -> string) (P self s : Project.t)
    (t t' : Table Project.t) :
  P ∈ rows t -> Project.pk self = Project.pk P ->
  Project.save slugify self t = Ok (s, t') ->
  table_step Project.pk Project.slug t t'.
Proof.
  intros HP Hpk. unfold Project.save.
  destruct (Project.slug_taken _ t) eqn:E; [discriminate|].
  rewrite (has_row_elem P) by (auto; rewrite (proj1 (fill_slug_keeps _ _)); auto).
  intros [= <- <-]. apply ts_replace. exact (slug_taken_false _ _ E).
Qed.

Lemma Project_save_update_fields_step (slugify : string -> string)
    (copy : Project.t -> Project.t -> Project.t) (self s : Project.t)
    (t t' : Table Project.t) :
  (forall a q, Project.pk (copy a q) = Project.pk q
               /\ Project.slug (copy a q) = Project.slug q) ->
  Project.save_update_fields slugify copy self t = Ok (s, t') ->
  table_step Project.pk Project.slug t t'.
Proof.
  intros Hcopy. unfold Project.save_update_fields.
  destruct (Project.has_row _ t); [|discriminate].
  intros [= <- <-]. apply ts_update. intros x _ _. apply Hcopy.
Qed.

Lemma MediaAsset_create_step (ti de ft : string) (mt : option string) (o : nat)
    (pub : bool) (k : nat) (t t' : Table MediaAsset.t) :
  MediaAsset_create ti de ft mt o pub t = Ok (k, t') ->
  table_step MediaAsset.pk MediaAsset.pk t t'.
Proof.
  unfold MediaAsset_create. destruct mt; [|discriminate].
  intros [= <- <-]. apply ts_insert; [reflexivity|].
  intros x _ Hlt E. cbn in E. lia.
Qed.

Lemma profile_replace_step (u : nat) (d : DB) (p self : UserProfile.t) :
  profile_of_user u d = Ok p ->
  UserProfile.pk self = UserProfile.pk p -> UserProfile.user self = UserProfile.user p ->
  table_step UserProfile.pk UserProfile.user (profiles d)
    (update_where (fun x => UserProfile.pk x = UserProfile.pk self) (fun _ => self)
       (profiles d)).
Proof.
  intros Hp Hpk Hu. apply ts_replace. intros y Hy Ey.
  apply objects_get_Ok in Hp.
  destruct (filter_singleton_elem _ _ _ Hp) as [_ Hpu].
  rewrite (filter_singleton_unique _ _ _ _ Hp Hy) by congruence. congruence.
Qed.

Ltac step_start :=
  unfold login_required, atomic, create_user, create_user_profile, get_category,
    get_owned_media, Project_delete, MediaAsset_delete, Project.publish,
    Project.increment_view_count, ProjectComment.create, MediaAsset_get_absolute_url;
  cbv zeta;
  cbn [set_users set_profiles set_teams set_memberships set_projects set_comments
       set_likes set_media_assets set_associations
       memberships users profiles teams categories projects
       comments likes media_assets associations].

Ltac step_cases :=
  repeat match goal with
         | |- context [match ?x with _ => _ end] =>
             lazymatch x with
             | context [match _ with _ => _ end] => fail
             | _ => destruct x eqn:?
             end
         end;
  rewrite ?db_after_uncaught; cbn [db_after upload_db].

Ltac table_leaf :=
  first
    [ apply ts_same
    | apply ts_delete
    | eapply UserProfile_create_step; eassumption
    | eapply TeamMembership_create_step; eassumption
    | eapply Team_create_step; eassumption
    | eapply ProjectLike_create_step; eassumption
    | eapply ProjectMediaAssociation_create_step; eassumption
    | eapply Project_create_step; eassumption
    | eapply MediaAsset_create_step; eassumption
    | eapply Project_save_update_fields_step;
        [|eassumption]; intros; split; reflexivity
    | eapply Project_save_step; [| |eassumption];
        [ match goal with
          | H : get_object_or_404 _ _ _ = Ok _ |- _ =>
              exact (proj1 (get_Ok_elem _ _ _ _ H))
          end
        | reflexivity ]
    | match goal with
      | |- table_step _ _ _ (update_where _ (fun _ => ?self) (profiles _)) =>
          eapply (profile_replace_step _ _ _ self); [eassumption|reflexivity|reflexivity]
      | |- table_step _ _ _ (update_where _ (fun _ => ?self) _) =>
          apply (ts_replace _ _ _ self); intros y _ E; exact E
      end
    | apply ts_update; intros; split; reflexivity
    | apply ts_insert;
        [ reflexivity
        | match goal with
          | H : exists_ _ _ = false |- _ =>
              solve [intros x Hx _; exact (proj1 (exists_false_forall _ _) H x Hx)]
          end ]
    | apply ts_insert; [reflexivity|intros x _ Hlt E; cbn in E; lia] ].

Ltac step_leaf :=
  unfold db_step, tablewise;
  cbn [set_users set_profiles set_teams set_memberships set_projects set_comments
       set_likes set_media_assets set_associations
       memberships users profiles teams categories projects
       comments likes media_assets associations];
  repeat split; table_leaf.

Section Steps.
Variable slugify : string -> string.
Variable int : string -> option Z.
Variable normalize_email : string -> string.
Variable guess_type : string -> option string.
Variable reverse : string -> nat -> option string.

Lemma serve_db_step (v : View) (request : HttpRequest) (d : DB) :
  db_step d (db_after (serve slugify int normalize_email v request d)).
Proof.
  destruct v; cbn [serve].
  - unfold register. step_start. step_cases; step_leaf.
  - unfold team_create. step_start. step_cases; step_leaf.
  - unfold team_detail. step_start. step_cases; step_leaf.
  - unfold team_add_member. step_start. step_cases; step_leaf.
  - unfold project_create. step_start. step_cases; step_leaf.
  - unfold project_edit. step_start. step_cases; step_leaf.
  - unfold project_detail. step_start. step_cases; step_leaf.
  - unfold project_publish. step_start. step_cases; step_leaf.
  - unfold project_delete. step_start. step_cases; step_leaf.
  - unfold project_comment. step_start. step_cases; step_leaf.
  - unfold project_like. step_start. step_cases; step_leaf.
  - unfold media_delete. step_start. step_cases; step_leaf.
  - unfold add_media_to_project. step_start. step_cases; step_leaf.
  - unfold remove_media_from_project. step_start. step_cases; step_leaf.
Qed.

Lemma run_db_step (r : Route) (request : HttpRequest) (d : DB) :
  db_step d (run slugify int normalize_email guess_type reverse r request d).
Proof.
  destruct r; cbn [run].
  - apply serve_db_step.
  - unfold profile_edit. step_start. step_cases; step_leaf.
  - unfold profile_view. step_start. step_cases; step_leaf.
  - unfold media_detail. step_start. step_cases; step_leaf.
  - unfold media_edit. step_start. step_cases; step_leaf.
  - unfold media_upload. step_start. step_cases; step_leaf.
Qed.
End Steps.

Lemma db_step_constraints (d d' : DB) :
  db_step d d' -> constraints d -> constraints d'.
Proof.
  unfold db_step, constraints, tablewise.
  intros (S1 & S2 & S3 & S4 & S5 & S6 & S7 & S8 & S9 & S10)
         (C1 & C2 & C3 & C4 & C5 & C6 & C7 & C8 & C9 & C10).
  repeat match goal with |- _ /\ _ => split end;
    eapply table_step_ok; eassumption.
Qed.

Lemma empty_db_constraints : constraints empty_db.
Proof.
  unfold constraints, tablewise, table_ok, empty_db. cbn.
  repeat split; constructor.
Qed.

(** X5. The primary keys and the declared unique constraints (username,
    team name, one profile per user, one membership per (team, user), one
    like per (project, user), one association per (project, media), project
    slug) hold in the empty database and are kept by every request to every
    route, hence by every run of requests. *)
Theorem constraints_kept_by_every_run (slugify : string -> string)
    (int : string -> option Z) (normalize_email : string -> string)
    (guess_type : string -> option string) (reverse : string -> nat -> option string)
    (l : list (Route * HttpRequest)) (d : DB) :
  constraints d ->
  constraints (run_all slugify int normalize_email guess_type reverse l d).
Proof.
  revert d. induction l as [|[r request] l IH]; intros d Hd; [exact Hd|].
  cbn [run_all]. apply IH.
  eapply db_step_constraints; [apply run_db_step|exact Hd].
Qed.

(** From the empty database: Alice registers twice under one name, founds
    a team and a project, and likes the project twice. *)
Lemma constraints_kept_by_every_run_witness :
  let alice := Authenticated 1 in
  let signup :=
    Example.request "POST" AnonymousUser
      [("username", "alice"); ("email", "a@example.org"); ("password", "pw");
       ("password_confirm", "pw")] 0 in
  let l :=
    [ (R_view V_register, signup); (R_view V_register, signup);
      (R_view V_team_create, Example.request "POST" alice [("name", "Design")] 0);
      (R_view V_project_create, Example.request "POST" alice [("title", "logo")] 0);
      (R_view (V_project_like "logo"), Example.request "POST" alice [] 0);
      (R_view (V_project_like "logo"), Example.request "POST" alice [] 0) ] in
  constraints (run_all Example.slugify Example.int Example.normalize_email
                 (fun _ => None) (fun _ _ => None) l empty_db).
Proof.
  intros alice signup l.
  apply (constraints_kept_by_every_run Example.slugify Example.int
           Example.normalize_email (fun _ => None) (fun _ _ => None) l empty_db).
  exact empty_db_constraints.
Defined.

Lemma count_unique_column {A K : Type} `{EqDecision K} (u : A -> K) (v : K)
    (l : list A) :
  NoDup (u <$> l) -> count (fun x => u x = v) l <= 1.
Proof.
  unfold count. induction l as [|a l IH]; intros Hnd; [simpl; lia|].
  rewrite fmap_cons in Hnd. apply NoDup_cons in Hnd. destruct Hnd as [Ha Hnd].
  rewrite filter_cons. destruct (decide (u a = v)) as [E|N]; [|auto].
  assert (filter (fun x => u x = v) l = []) as ->.
  { apply exists_false, exists_false_forall. intros x Hx Ex.
    apply Ha. apply list_elem_of_fmap. exists x. split; [congruence|exact Hx]. }
  simpl. lia.
Qed.

Lemma objects_get_not_multiple {A K : Type} (u : A -> K) (P : A -> Prop)
    `{forall x, Decision (P x)} (model m : string) (l : list A) :
  NoDup (u <$> l) -> (forall x y, P x -> P y -> u x = u y) ->
  objects_get model P l <> Raise (MultipleObjectsReturned m).
Proof.
  intros Hnd HP. unfold objects_get.
  destruct (filter P l) as [|a [|b r]] eqn:E; try discriminate. intros _.
  assert (Hf : NoDup (u <$> filter P l)).
  { eapply sublist_NoDup; [exact Hnd|]. apply fmap_sublist, sublist_filter. }
  assert (a ∈ filter P l /\ b ∈ filter P l) as [Ha Hb].
  { rewrite E. split; [left|right; left]. }
  rewrite E, !fmap_cons in Hf. apply NoDup_cons in Hf. destruct Hf as [Hn _].
  apply Hn. apply elem_of_cons. left.
  apply elem_filter in Ha, Hb. apply HP; tauto.
Qed.

Lemma get_not_multiple {A K : Type} (u : A -> K) (P : A -> Prop)
    `{forall x, Decision (P x)} (model m : string) (l : list A) :
  NoDup (u <$> l) -> (forall x y, P x -> P y -> u x = u y) ->
  get_object_or_404 model P l <> Raise (MultipleObjectsReturned m).
Proof.
  intros Hnd HP E. unfold get_object_or_404 in E.
  destruct (objects_get model P l) as [x|e] eqn:Eo; [discriminate|].
  destruct e; try discriminate. injection E as ->.
  exact (objects_get_not_multiple u P _ _ l Hnd HP Eo).
Qed.

Ltac lookup_side :=
  let x := fresh "x" in let y := fresh "y" in
  intros x y; unfold by_slug; cbn; intros; destruct_and?; first [congruence | lia].

Ltac no_multiple :=
  match goal with
  | H : _ = Raise (MultipleObjectsReturned _) |- _ =>
      exfalso; revert H;
      match goal with
      | N : NoDup (?u <$> rows _) |- _ =>
          first [ apply (get_not_multiple u); [exact N|lookup_side]
                | apply (objects_get_not_multiple u); [exact N|lookup_side] ]
      end
  end.

Ltac raised_multiple :=
  match goal with
  | H : _ = Raise (MultipleObjectsReturned _) |- _ =>
      unfold UserProfile.create, TeamMembership.create, Team.create, ProjectLike.create,
        ProjectMediaAssociation.create, Project.create, Project.save,
        Project.save_update_fields, first_name_of, user_instance in H;
      repeat match type of H with
             | context [match ?x with _ => _ end] =>
                 lazymatch x with
                 | context [match _ with _ => _ end] => fail
                 | _ => destruct x
                 end
             end;
      discriminate H
  end.

Ltac multiple_leaf :=
  repeat match goal with e : Exc |- _ => destruct e end;
  unfold reports_multiple, is_multiple, uncaught;
  cbn [response messages existsb orb];
  first [reflexivity | no_multiple | raised_multiple].

Section Multiple.
Variable slugify : string -> string.
Variable int : string -> option Z.
Variable normalize_email : string -> string.

Lemma serve_not_multiple (v : View) (request : HttpRequest) (d : DB) :
  constraints d ->
  reports_multiple (serve slugify int normalize_email v request d) = false.
Proof.
  unfold constraints, tablewise, table_ok.
  intros ((Uk & _ & Un) & (Pk & _ & Pu) & (Tk & _ & Tn) & (Mk & _ & Mp) & (Ck & _ & _)
          & (Jk & _ & Js) & _ & (Lk & _ & Lp) & (Ak & _ & _) & (Sk & _ & Sp)).
  destruct v; cbn [serve].
  - unfold register. step_start. step_cases; multiple_leaf.
  - unfold team_create. step_start. step_cases; multiple_leaf.
  - unfold team_detail. step_start. step_cases; multiple_leaf.
  - unfold team_add_member. step_start. step_cases; multiple_leaf.
  - unfold project_create. step_start. step_cases; multiple_leaf.
  - unfold project_edit. step_start. step_cases; multiple_leaf.
  - unfold project_detail. step_start. step_cases; multiple_leaf.
  - unfold project_publish. step_start. step_cases; multiple_leaf.
  - unfold project_delete. step_start. step_cases; multiple_leaf.
  - unfold project_comment. step_start. step_cases; multiple_leaf.
  - unfold project_like. step_start. step_cases; multiple_leaf.
  - unfold media_delete. step_start. step_cases; multiple_leaf.
  - unfold add_media_to_project. step_start. step_cases; multiple_leaf.
  - unfold remove_media_from_project. step_start. step_cases; multiple_leaf.
Qed.
End Multiple.

(** X6. In a database that satisfies the constraints no view meets an
    ambiguous lookup: whatever the request, no view answers with
    [MultipleObjectsReturned] or queues a message about it, and looking a
    project up by its slug raises nothing but [Http404]; and a membership
    row decides for its (team, user) pair, no other row of the pair being
    there for [.first()] to pick: [can_edit] of a project of the team is the
    [can_edit] of that row, for a user who is not the creator. *)
Theorem constrained_lookups_unambiguous (slugify : string -> string)
    (int : string -> option Z) (normalize_email : string -> string)
    (v : View) (request : HttpRequest) (d : DB) :
  constraints d ->
  reports_multiple (serve slugify int normalize_email v request d) = false
  /\ (forall slug e,
        get_object_or_404 "Project" (by_slug slug) (rows (projects d)) = Raise e ->
        e = Http404)
  /\ (forall P m,
        m ∈ rows (memberships d) ->
        Project.team P = Some (TeamMembership.team m) ->
        Project.creator P <> TeamMembership.user m ->
        Project.can_edit (memberships d) P (Authenticated (TeamMembership.user m))
        = TeamMembership.can_edit m).
Proof.
  intros C. split; [apply serve_not_multiple; exact C|].
  unfold constraints, tablewise, table_ok in C.
  destruct C as (_ & _ & _ & (_ & _ & Hm) & _ & (_ & _ & Hs) & _).
  split.
  - intros slug e E. unfold get_object_or_404 in E.
    destruct (objects_get "Project" (by_slug slug) (rows (projects d))) as [x|e'] eqn:Eo;
      [discriminate|].
    destruct e'; try (injection E as <-); try reflexivity;
      exfalso; revert Eo;
      first [ apply (objects_get_not_multiple Project.slug);
                [exact Hs|unfold by_slug; congruence]
            | unfold objects_get; destruct (filter _ _) as [|? [|? ?]]; discriminate ].
  - intros P m Hin Ht Hc. unfold Project.can_edit, is_user.
    cbn [is_authenticated negb actor_pk]. rewrite Ht.
    rewrite bool_decide_eq_false_2 by congruence.
    destruct (first (TeamMembership.of_pair (TeamMembership.team m)
                       (Authenticated (TeamMembership.user m))) (rows (memberships d)))
      as [m'|] eqn:Hf.
    + destruct (first_Some_elem _ _ _ Hf) as [Hin' [Eu Et]]. cbn [actor_pk] in Eu.
      assert (m' = m) as ->.
      { apply (unique_column_row membership_pair (memberships d)); try assumption.
        unfold membership_pair. congruence. }
      destruct (TeamMembership.can_edit m); reflexivity.
    + exfalso. apply first_None in Hf.
      apply (proj1 (exists_false_forall _ _) Hf m Hin). split; reflexivity.
Qed.

Lemma example_world_constraints : constraints Example.world.
Proof.
  unfold constraints, tablewise, table_ok.
  repeat split; apply (bool_decide_unpack _); vm_compute; exact I.
Qed.

Lemma constrained_lookups_unambiguous_witness :
  let request :=
    Example.request "POST" (Authenticated Example.dan) [("category", "7")] 0 in
  response (serve Example.slugify Example.int Example.normalize_email
              (V_project_edit "logo") request Example.world)
  = ServerError (DoesNotExist "ProjectCategory")
  /\ reports_multiple (serve Example.slugify Example.int Example.normalize_email
                         (V_project_edit "logo") request Example.world)
     = false.
Proof.
  intros request. split; [reflexivity|].
  apply (constrained_lookups_unambiguous Example.slugify Example.int
           Example.normalize_email (V_project_edit "logo") request Example.world
           example_world_constraints).
Defined.

(** ** What requests can and cannot do *)

(** X7. A request of the anonymous user writes nothing, except on three
    routes: [register] (a new user), [project_detail] (the view counter of
    a public project) and [profile_view] (the view counter of a public
    portfolio). *)
Theorem anonymous_requests_write_nothing (slugify : string -> string)
    (int : string -> option Z) (normalize_email : string -> string)
    (guess_type : string -> option string) (reverse : string -> nat -> option string)
    (r : Route) (request : HttpRequest) (d : DB) :
  user request = AnonymousUser ->
  open_to_anonymous r = false ->
  run slugify int normalize_email guess_type reverse r request d = d.
Proof.
  intros Hanon Hr. destruct r as [v| | | | |]; try discriminate; cbn [run].
  - destruct v; try discriminate; cbn [serve];
      unfold team_create, team_detail, team_add_member, project_create, project_edit,
        project_publish, project_delete, project_comment, project_like, media_delete,
        add_media_to_project, remove_media_from_project, login_required;
      rewrite ?Hanon; try reflexivity.
    step_cases; reflexivity.
  - unfold profile_edit, login_required. rewrite Hanon. reflexivity.
  - unfold media_detail, login_required. rewrite Hanon. reflexivity.
  - unfold media_edit, login_required. rewrite Hanon. reflexivity.
  - unfold media_upload. rewrite Hanon. reflexivity.
Qed.

Lemma anonymous_requests_write_nothing_witness :
  run Example.slugify Example.int Example.normalize_email (fun _ => None)
    (fun _ _ => None) (R_view (V_project_like "logo"))
    (Example.request "POST" AnonymousUser [] 0) Example.world
  = Example.world.
Proof.
  apply (anonymous_requests_write_nothing Example.slugify Example.int
           Example.normalize_email (fun _ => None) (fun _ _ => None)
           (R_view (V_project_like "logo"))); reflexivity.
Defined.

Section Growth.
Variable slugify : string -> string.
Variable int : string -> option Z.
Variable normalize_email : string -> string.
Variable guess_type : string -> option string.
Variable reverse : string -> nat -> option string.

Ltac grow_leaf :=
  unfold insert; cbn [memberships set_memberships rows];
  first [ exists []; rewrite app_nil_r; reflexivity | eexists; reflexivity ].

(** No route deletes or alters a membership: the table only grows. *)
Lemma run_memberships_grow (r : Route) (request : HttpRequest) (d : DB) :
  exists extra,
    rows (memberships (run slugify int normalize_email guess_type reverse r request d))
    = rows (memberships d) ++ extra.
Proof.
  destruct r as [v| | | | |]; cbn [run].
  - destruct v; cbn [serve].
    + unfold register. step_start. step_cases; grow_leaf.
    + unfold team_create, TeamMembership.create. step_start. step_cases; grow_leaf.
    + unfold team_detail. step_start. step_cases; grow_leaf.
    + unfold team_add_member, TeamMembership.create. step_start. step_cases; grow_leaf.
    + unfold project_create. step_start. step_cases; grow_leaf.
    + unfold project_edit. step_start. step_cases; grow_leaf.
    + unfold project_detail. step_start. step_cases; grow_leaf.
    + unfold project_publish. step_start. step_cases; grow_leaf.
    + unfold project_delete. step_start. step_cases; grow_leaf.
    + unfold project_comment. step_start. step_cases; grow_leaf.
    + unfold project_like. step_start. step_cases; grow_leaf.
    + unfold media_delete. step_start. step_cases; grow_leaf.
    + unfold add_media_to_project. step_start. step_cases; grow_leaf.
    + unfold remove_media_from_project. step_start. step_cases; grow_leaf.
  - unfold profile_edit. step_start. step_cases; grow_leaf.
  - unfold profile_view. step_start. step_cases; grow_leaf.
  - unfold media_detail. step_start. step_cases; grow_leaf.
  - unfold media_edit. step_start. step_cases; grow_leaf.
  - unfold media_upload. step_start. step_cases; grow_leaf.
Qed.

Lemma run_all_memberships_grow (l : list (Route * HttpRequest)) (d : DB) :
  exists extra,
    rows (memberships (run_all slugify int normalize_email guess_type reverse l d))
    = rows (memberships d) ++ extra.
Proof.
  revert d. induction l as [|[r request] l IH]; intros d.
  - exists []. rewrite app_nil_r. reflexivity.
  - cbn [run_all].
    destruct (IH (run slugify int normalize_email guess_type reverse r request d))
      as [e2 ->].
    destruct (run_memberships_grow r request d) as [e1 ->].
    exists (e1 ++ e2). rewrite app_assoc. reflexivity.
Qed.
End Growth.

Lemma first_app_Some {A : Type} (P : A -> Prop) `{forall x, Decision (P x)}
    (l extra : list A) (x : A) :
  first P l = Some x -> first P (l ++ extra) = Some x.
Proof.
  unfold first. rewrite filter_app. destruct (filter P l); [discriminate|].
  intros E. exact E.
Qed.

Lemma exists_app_true {A : Type} (P : A -> Prop) `{forall x, Decision (P x)}
    (l extra : list A) :
  exists_ P l = true -> exists_ P (l ++ extra) = true.
Proof.
  rewrite !exists_true. intros (x & Hx & HP). exists x. split; [|exact HP].
  apply elem_of_app. left. exact Hx.
Qed.

(** X8. No route removes a member or changes a role: whoever is a member
    of a team stays one through every run of requests, and whoever may view
    or edit a project (with its creator, team and visibility as they are)
    may still do so afterwards. *)
Theorem access_is_never_revoked (slugify : string -> string)
    (int : string -> option Z) (normalize_email : string -> string)
    (guess_type : string -> option string) (reverse : string -> nat -> option string)
    (l : list (Route * HttpRequest)) (d : DB) (P : Project.t) (U : Actor) :
  let ms := memberships d in
  let ms' := memberships (run_all slugify int normalize_email guess_type reverse l d) in
  (forall t, Team.is_member ms t U = true -> Team.is_member ms' t U = true)
  /\ (Project.can_view ms P U = true -> Project.can_view ms' P U = true)
  /\ (Project.can_edit ms P U = true -> Project.can_edit ms' P U = true).
Proof.
  intros ms ms'.
  destruct (run_all_memberships_grow slugify int normalize_email guess_type reverse l d)
    as [extra Hrows]. fold ms ms' in Hrows.
  assert (Hmem : forall t, Team.is_member ms t U = true -> Team.is_member ms' t U = true).
  { intros t. unfold Team.is_member. rewrite Hrows. apply exists_app_true. }
  split; [exact Hmem|]. split.
  - unfold Project.can_view.
    destruct (Project.is_public P); [auto|].
    destruct (negb (is_authenticated U)); [auto|].
    destruct (is_user (Project.creator P) U); [auto|].
    destruct (Project.team P) as [t|]; [|auto].
    destruct (Team.is_member ms t U) eqn:E; [|discriminate].
    rewrite (Hmem t E). auto.
  - unfold Project.can_edit.
    destruct (negb (is_authenticated U)); [auto|].
    destruct (is_user (Project.creator P) U); [auto|].
    destruct (Project.team P) as [t|]; [|auto].
    destruct (first (TeamMembership.of_pair t U) (rows ms)) as [m|] eqn:E; [|discriminate].
    rewrite Hrows, (first_app_Some _ _ extra m E). auto.
Qed.

(** ** Project views, continued *)

Lemma view_count_update (P : Project.t) (v : Z) (tbl : Table Project.t) :
  P ∈ rows tbl ->
  Project.view_count <$>
    first (by_pk (Project.pk P))
      (rows (update_where (fun q => Project.pk q = Project.pk P)
               (Project.set_view_count v) tbl))
  = Some v.
Proof.
  intros Hin. rewrite first_update_where_pk by (intros q Hq; exact Hq).
  destruct (first (by_pk (Project.pk P)) (rows tbl)) as [q|] eqn:Ef; [reflexivity|].
  apply first_None in Ef.
  exfalso. apply (proj1 (exists_false_forall _ _) Ef P Hin). reflexivity.
Qed.

Lemma save_view_count_ok (slugify : string -> string) (P self : Project.t)
    (tbl : Table Project.t) :
  P ∈ rows tbl -> Project.pk self = Project.pk P ->
  Project.save_update_fields slugify
    (fun s q => Project.set_view_count (Project.view_count s) q) self tbl
  = Ok (Project.fill_slug slugify self,
        update_where (fun q => Project.pk q = Project.pk P)
          (Project.set_view_count (Project.view_count self)) tbl).
Proof.
  intros Hin Hpk. unfold Project.save_update_fields.
  rewrite (has_row_elem P) by (auto; rewrite (proj1 (fill_slug_keeps _ _)); auto).
  rewrite <- Hpk. unfold Project.fill_slug.
  destruct (negb (Py.truthy (Project.slug self))); reflexivity.
Qed.

(** X9. [project_detail] answers "not found" and writes nothing when the
    actor may not view the project; otherwise, the counter plus one being a
    value that every backend stores, it renders the page and adds exactly
    one to the project's [view_count], every time, also for the creator and
    for the anonymous user. *)
Theorem project_detail_counts_views (slugify : string -> string)
    (request : HttpRequest) (slug : string) (d : DB) (P : Project.t) :
  get_object_or_404 "Project" (by_slug slug) (rows (projects d)) = Ok P ->
  let out := project_detail slugify request slug d in
  (Project.can_view (memberships d) P (user request) = false ->
   out = Out NotFound [] d)
  /\ (Project.can_view (memberships d) P (user request) = true ->
      integer_safe (Project.view_count P + 1) ->
      out = Out (Render "projects/detail.html") []
              (set_projects
                 (update_where (fun q => Project.pk q = Project.pk P)
                    (Project.set_view_count (Project.view_count P + 1)) (projects d)) d)
      /\ Project.view_count <$> project_of (Project.pk P) (db_after out)
         = Some (Project.view_count P + 1)%Z).
Proof.
  intros Hget out. subst out. unfold project_detail. rewrite Hget.
  apply get_Ok_elem in Hget. destruct Hget as [HP _].
  split; [intros Hview|intros Hview _]; rewrite Hview; cbn [negb]; [reflexivity|].
  unfold Project.increment_view_count.
  rewrite (save_view_count_ok slugify P) by auto.
  split; [reflexivity|]. unfold project_of, set_projects. cbn [db_after projects].
  apply view_count_update. exact HP.
Qed.

(** A visitor opens the public project twice. *)
Lemma project_detail_counts_views_witness :
  let P := Project.set_is_public true Example.logo in
  let request := Example.request "GET" AnonymousUser [] 0 in
  let d1 := db_after (project_detail Example.slugify request "logo" (Example.world_with P)) in
  let d2 := db_after (project_detail Example.slugify request "logo" d1) in
  Project.view_count <$> project_of 1 d2 = Some 2%Z.
Proof.
  intros P request d1 d2.
  apply (proj2 (project_detail_counts_views Example.slugify request "logo" d1
                  (Project.set_view_count 1 P) eq_refl)).
  - reflexivity.
  - unfold integer_safe, INTEGER_SAFE_MIN, INTEGER_SAFE_MAX. cbn. lia.
Defined.

(** X10. [project_delete] by an actor with [can_edit] deletes on POST only:
    the project is gone (its slug resolves to "not found"), and with it
    its comments, likes and media associations, while the rows of other
    projects, the media assets themselves, the users, teams and memberships
    stay; any other method renders the confirmation page and deletes
    nothing. *)
Theorem project_delete_cascades (request : HttpRequest) (slug : string) (d : DB)
    (P : Project.t) :
  get_object_or_404 "Project" (by_slug slug) (rows (projects d)) = Ok P ->
  Project.can_edit (memberships d) P (user request) = true ->
  let out := project_delete request slug d in
  let d' := db_after out in
  (method request <> "POST" -> out = Out (Render "projects/confirm_delete.html") [] d)
  /\ (method request = "POST" ->
      response out = Redirect "projects:dashboard"
      /\ get_object_or_404 "Project" (by_slug slug) (rows (projects d')) = Raise Http404
      /\ rows (projects d')
         = filter (fun q => Project.pk q <> Project.pk P) (rows (projects d))
      /\ rows (comments d')
         = filter (fun c => ProjectComment.project c <> Project.pk P) (rows (comments d))
      /\ rows (likes d')
         = filter (fun l => ProjectLike.project l <> Project.pk P) (rows (likes d))
      /\ rows (associations d')
         = filter (fun a => ProjectMediaAssociation.project a <> Project.pk P)
             (rows (associations d))
      /\ media_assets d' = media_assets d /\ users d' = users d
      /\ teams d' = teams d /\ memberships d' = memberships d).
Proof.
  intros Hget Hcan out d'. subst d' out. unfold project_delete, login_required.
  rewrite (can_edit_authenticated _ _ _ Hcan), Hget, Hcan. cbn [negb].
  split; intros Hm.
  - rewrite bool_decide_eq_false_2 by exact Hm. reflexivity.
  - rewrite bool_decide_eq_true_2 by exact Hm. cbn [response db_after].
    split; [reflexivity|]. split; [|repeat split].
    assert (rows (projects (Project_delete P d))
            = filter (fun x => Project.pk x <> Project.pk P) (rows (projects d)))
      as Hrows by reflexivity.
    unfold get_object_or_404, objects_get. rewrite Hrows.
    apply get_object_or_404_Ok in Hget.
    assert (filter (by_slug slug)
              (filter (fun x => Project.pk x <> Project.pk P) (rows (projects d))) = [])
      as ->; [|reflexivity].
    apply exists_false, exists_false_forall. intros q Hq Hs.
    apply elem_filter in Hq. destruct Hq as [Hq Hne]. apply Hne. f_equal.
    exact (filter_singleton_unique _ _ _ _ Hget Hq Hs).
Qed.

Lemma project_delete_cascades_witness :
  let request := Example.request "POST" (Authenticated Example.dan) [] 0 in
  get_object_or_404 "Project" (by_slug "logo")
    (rows (projects (db_after (project_delete request "logo" Example.world))))
  = Raise Http404.
Proof.
  intros request.
  refine (proj1 (proj2 (proj2 (project_delete_cascades request "logo" Example.world
            Example.logo eq_refl eq_refl) _))).
  reflexivity.
Defined.

(** X11. Whatever the request, [project_create] either leaves the database
    as it is or appends one project: a draft that is private, not
    featured, without team and with both counters at zero, created by the
    actor, under the slug [slugify(title)], which no row with another key
    holds. *)
Theorem project_create_effects (slugify : string -> string)
    (int : string -> option Z) (request : HttpRequest) (d : DB) :
  let d' := db_after (project_create slugify int request d) in
  d' = d
  \/ exists U title category,
       user request = Authenticated U
       /\ POST request !! "title" = Some title
       /\ (forall q, q ∈ rows (projects d) ->
                     Project.pk q <> next_pk (projects d) ->
                     Project.slug q <> slugify title)
       /\ d' = set_projects
                 (insert
                    (fun k => Project.mk k title (slugify title)
                                (POST_get request "description" EmptyString) U None
                                category (POST_get request "tags" EmptyString)
                                "draft" false false 0 0 None)
                    (projects d)) d.
Proof.
  unfold project_create, login_required.
  destruct (is_authenticated (user request)); [|left; reflexivity].
  destruct (bool_decide (method request = "POST")); [|left; reflexivity].
  destruct (POST request !! "title") as [title|] eqn:Ht; [|left; reflexivity].
  destruct (negb (Py.truthy_opt (Some title))); [left; reflexivity|].
  match goal with
  | |- context [match ?c with Ok _ => _ | Raise _ => _ end] =>
      destruct c as [category|e]; [|left; reflexivity]
  end.
  destruct (user request) as [|U] eqn:HU; [left; reflexivity|]. cbn [user_instance].
  unfold Project.create, Project.fill_slug. cbn [Project.slug Py.truthy negb].
  unfold Project.set_slug. cbn [Project.pk Project.title Project.slug Project.description
    Project.creator Project.team Project.category Project.tags Project.status
    Project.is_public Project.is_featured Project.view_count Project.like_count
    Project.published_at default from_option]. unfold id.
  match goal with
  | |- context [Project.slug_taken ?self ?t] => destruct (Project.slug_taken self t) eqn:E
  end; [left; reflexivity|].
  right. exists U, title, category. repeat split.
  intros q Hq Hk Es. apply (proj1 (exists_false_forall _ _) E q Hq).
  split; [exact Es|exact Hk].
Qed.

(** X12. A POST with a title whose slug is free and without a category
    creates the project; its creator may edit and view it from the start
    and, the project being private and without team, nobody else may view
    or edit it. *)
Theorem project_create_private_to_creator (slugify : string -> string)
    (int : string -> option Z) (request : HttpRequest) (d : DB) (U : nat)
    (title : string) :
  user request = Authenticated U ->
  method request = "POST" ->
  POST request !! "title" = Some title -> title <> EmptyString ->
  POST request !! "category" = None ->
  (forall q, q ∈ rows (projects d) -> Project.slug q <> slugify title) ->
  let d' := db_after (project_create slugify int request d) in
  let new :=
    Project.mk (next_pk (projects d)) title (slugify title)
      (POST_get request "description" EmptyString) U None None
      (POST_get request "tags" EmptyString) "draft" false false 0 0 None in
  rows (projects d') = rows (projects d) ++ [new]
  /\ (forall ms V,
        Project.can_view ms new V = is_user U V
        /\ Project.can_edit ms new V = is_user U V).
Proof.
  intros HU Hpost Ht Hne Hcat Hfree d' new.
  assert (Hrun : project_create slugify int request d
    = Out (Redirect "projects:edit") [Msg success "Project created successfully."]
        (set_projects (insert (fun _ => new) (projects d)) d)).
  { unfold project_create, login_required.
    rewrite HU, Hpost, Ht, Hcat. cbn [is_authenticated Py.truthy_opt user_instance].
    rewrite (bool_decide_eq_true_2 ("POST" = "POST")) by reflexivity.
    rewrite truthy_nonempty by exact Hne. cbn [negb default from_option]. unfold id.
    unfold Project.create, Project.fill_slug. cbn [Project.slug Py.truthy negb].
    unfold Project.set_slug. cbn [Project.pk Project.title Project.slug
      Project.description Project.creator Project.team Project.category Project.tags
      Project.status Project.is_public Project.is_featured Project.view_count
      Project.like_count Project.published_at]. fold new.
    unfold Project.slug_taken.
    rewrite (proj2 (exists_false_forall _ (rows (projects d)))); [reflexivity|].
    intros q Hq [Es _]. exact (Hfree q Hq Es). }
  subst d'. rewrite Hrun. cbn [db_after].
  split; [reflexivity|].
  intros ms V. unfold Project.can_view, Project.can_edit, is_user.
  cbn [Project.is_public Project.creator Project.team].
  destruct V as [|k]; cbn [is_authenticated negb actor_pk].
  - split; reflexivity.
  - destruct (bool_decide _); split; reflexivity.
Qed.

Lemma project_create_private_to_creator_witness :
  let request :=
    Example.request "POST" (Authenticated Example.bob) [("title", "poster")] 0 in
  rows (projects (db_after (project_create Example.slugify Example.int request
                              Example.world)))
  = [Example.logo;
     Project.mk 2 "poster" "poster" EmptyString Example.bob None None EmptyString
       "draft" false false 0 0 None].
Proof.
  intros request.
  refine (proj1 (project_create_private_to_creator Example.slugify Example.int request
                   Example.world Example.bob "poster" eq_refl eq_refl eq_refl _ eq_refl _)).
  - discriminate.
  - intros q Hq. apply list_elem_of_singleton in Hq. subst q. discriminate.
Defined.

(** ** Counters *)

Lemma Forall_update_where {A : Type} (Q R : A -> Prop) `{forall x, Decision (R x)}
    (f : A -> A) (t : Table A) :
  (forall x, x ∈ rows t -> R x -> Q (f x)) ->
  Forall Q (rows t) -> Forall Q (rows (update_where R f t)).
Proof.
  intros Hf HQ. unfold update_where. cbn [rows].
  apply Forall_forall. intros y Hy. apply list_elem_of_fmap in Hy as (x & -> & Hx).
  destruct (decide (R x)) as [r|_].
  - exact (Hf x Hx r).
  - exact (proj1 (Forall_forall _ _) HQ x Hx).
Qed.

Lemma Forall_delete_where {A : Type} (Q R : A -> Prop) `{forall x, Decision (R x)}
    (t : Table A) :
  Forall Q (rows t) -> Forall Q (rows (delete_where R t)).
Proof.
  intros HQ. unfold delete_where. cbn [rows].
  apply Forall_forall. intros y Hy. apply elem_filter in Hy as [Hy _].
  exact (proj1 (Forall_forall _ _) HQ y Hy).
Qed.

Lemma fill_slug_counters (slugify : string -> string) (self : Project.t) :
  counters self -> counters (Project.fill_slug slugify self).
Proof.
  unfold Project.fill_slug. destruct (negb _); [|tauto]. intros H; exact H.
Qed.

Lemma Project_save_counters (slugify : string -> string) (self s : Project.t)
    (t t' : Table Project.t) :
  Project.save slugify self t = Ok (s, t') ->
  counters self -> Forall counters (rows t) -> Forall counters (rows t').
Proof.
  unfold Project.save. intros E Hs Ht.
  destruct (Project.slug_taken _ _); [discriminate|].
  destruct (Project.has_row _ _); inversion E; subst; clear E.
  - apply Forall_update_where; [|exact Ht].
    intros; apply fill_slug_counters, Hs.
  - cbn [rows]. apply Forall_app. split; [exact Ht|].
    constructor; [apply fill_slug_counters, Hs|constructor].
Qed.

Lemma Project_create_counters (slugify : string -> string) ti de ca ta cr st
    (s : Project.t) (t t' : Table Project.t) :
  Project.create slugify ti de ca ta cr st t = Ok (s, t') ->
  Forall counters (rows t) -> Forall counters (rows t').
Proof.
  unfold Project.create. intros E Ht.
  destruct (Project.slug_taken _ _); [discriminate|]. inversion E; subst; clear E.
  unfold insert. cbn [rows]. apply Forall_app. split; [exact Ht|].
  constructor; [|constructor]. apply fill_slug_counters. split; cbn; lia.
Qed.

Lemma Project_save_update_fields_counters (slugify : string -> string)
    (copy : Project.t -> Project.t -> Project.t) (self s : Project.t)
    (t t' : Table Project.t) :
  Project.save_update_fields slugify copy self t = Ok (s, t') ->
  (forall q, counters q -> counters (copy (Project.fill_slug slugify self) q)) ->
  Forall counters (rows t) -> Forall counters (rows t').
Proof.
  unfold Project.save_update_fields. intros E Hc Ht.
  destruct (Project.has_row _ _); inversion E; subst; clear E.
  apply Forall_update_where; [|exact Ht].
  intros x Hx _. apply Hc. exact (proj1 (Forall_forall _ _) Ht x Hx).
Qed.

Lemma fill_slug_view_count (slugify : string -> string) (self : Project.t) :
  Project.view_count (Project.fill_slug slugify self) = Project.view_count self.
Proof. unfold Project.fill_slug. destruct (negb _); reflexivity. Qed.

Lemma fill_slug_like_count (slugify : string -> string) (self : Project.t) :
  Project.like_count (Project.fill_slug slugify self) = Project.like_count self.
Proof. unfold Project.fill_slug. destruct (negb _); reflexivity. Qed.

Ltac found_project :=
  match goal with
  | H : get_object_or_404 _ _ (rows (projects ?d)) = Ok ?P,
    C : Forall counters (rows (projects ?d)) |- _ =>
      let Hc := fresh "Hc" in
      pose proof (proj1 (Forall_forall _ _) C P (proj1 (get_Ok_elem _ _ _ _ H)))
        as Hc;
      destruct Hc as [? ?]
  end.

Ltac counters_leaf :=
  unfold counters_ok in *;
  cbn [set_users set_profiles set_teams set_memberships set_projects set_comments
       set_likes set_media_assets set_associations projects] in *;
  first
    [ assumption
    | apply Forall_delete_where; assumption
    | eapply Project_create_counters; eassumption
    | found_project;
      first
        [ eapply Project_save_counters; [eassumption| |assumption];
          split; cbn; assumption
        | eapply Project_save_update_fields_counters; [eassumption| |assumption];
          intros q [? ?]; split; cbn;
          rewrite ?fill_slug_view_count, ?fill_slug_like_count; cbn; lia ] ].

Section Counters.
Variable slugify : string -> string.
Variable int : string -> option Z.
Variable normalize_email : string -> string.
Variable guess_type : string -> option string.
Variable reverse : string -> nat -> option string.

Lemma run_counters (r : Route) (request : HttpRequest) (d : DB) :
  Forall counters (rows (projects d)) ->
  Forall counters
    (rows (projects (run slugify int normalize_email guess_type reverse r request d))).
Proof.
  intros C.
  destruct r as [v| | | | |]; cbn [run].
  - destruct v; cbn [serve].
    + unfold register. step_start. step_cases; counters_leaf.
    + unfold team_create. step_start. step_cases; counters_leaf.
    + unfold team_detail. step_start. step_cases; counters_leaf.
    + unfold team_add_member. step_start. step_cases; counters_leaf.
    + unfold project_create. step_start. step_cases; counters_leaf.
    + unfold project_edit. step_start. step_cases; counters_leaf.
    + unfold project_detail. step_start. step_cases; counters_leaf.
    + unfold project_publish. step_start. step_cases; counters_leaf.
    + unfold project_delete. step_start. step_cases; counters_leaf.
    + unfold project_comment. step_start. step_cases; counters_leaf.
    + unfold project_like. step_start. step_cases; counters_leaf.
    + unfold media_delete. step_start. step_cases; counters_leaf.
    + unfold add_media_to_project. step_start. step_cases; counters_leaf.
    + unfold remove_media_from_project. step_start. step_cases; counters_leaf.
  - unfold profile_edit. step_start. step_cases; counters_leaf.
  - unfold profile_view. step_start. step_cases; counters_leaf.
  - unfold media_detail. step_start. step_cases; counters_leaf.
  - unfold media_edit. step_start. step_cases; counters_leaf.
  - unfold media_upload. step_start. step_cases; counters_leaf.
Qed.
End Counters.

(** X13. The view counter and the like counter of every project stay
    non-negative: no request to any route, in any order, takes one of them
    below zero. *)
Theorem counters_never_negative (slugify : string -> string)
    (int : string -> option Z) (normalize_email : string -> string)
    (guess_type : string -> option string) (reverse : string -> nat -> option string)
    (l : list (Route * HttpRequest)) (d : DB) :
  counters_ok d ->
  counters_ok (run_all slugify int normalize_email guess_type reverse l d).
Proof.
  revert d. induction l as [|[r request] l IH]; intros d C; [exact C|].
  cbn [run_all]. apply IH. apply run_counters. exact C.
Qed.
(** ** The like counter and the likes *)

Lemma count_app {A : Type} (Q : A -> Prop) `{forall x, Decision (Q x)} (l k : list A) :
  count Q (l ++ k) = count Q l + count Q k.
Proof. unfold count. rewrite filter_app, length_app. reflexivity. Qed.

Lemma count_none {A : Type} (Q : A -> Prop) `{forall x, Decision (Q x)} (l : list A) :
  (forall x, x ∈ l -> ~ Q x) -> count Q l = 0.
Proof.
  intros Hn. unfold count.
  rewrite (proj1 (exists_false _ _) (proj2 (exists_false_forall _ _) Hn)). reflexivity.
Qed.

(** Deleting by a key that identifies [l] takes exactly [l] out of a
    count. *)
Lemma count_delete_key {A : Type} (key : A -> nat) (Q : A -> Prop)
    `{forall x, Decision (Q x)} (l : A) (L : list A) :
  NoDup (key <$> L) -> l ∈ L ->
  count Q (filter (fun x => ~ key x = key l) L) + (if decide (Q l) then 1 else 0)
  = count Q L.
Proof.
  unfold count. induction L as [|a L IH]; intros Hnd Hl.
  - apply elem_of_nil in Hl. destruct Hl.
  - rewrite fmap_cons in Hnd. apply NoDup_cons in Hnd. destruct Hnd as [Ha Hnd].
    apply elem_of_cons in Hl. destruct Hl as [<-|Hl].
    + rewrite filter_cons. destruct (decide (~ key l = key l)) as [N|_]; [congruence|].
      assert (filter (fun x => ~ key x = key l) L = L) as ->.
      { clear IH Hnd. induction L as [|b L IH]; [reflexivity|].
        rewrite filter_cons. destruct (decide (~ key b = key l)) as [_|E].
        - f_equal. apply IH. intros Hin. apply Ha. rewrite fmap_cons.
          apply elem_of_cons. right. exact Hin.
        - exfalso. apply Ha. rewrite fmap_cons. apply elem_of_cons. left.
          destruct (decide (key b = key l)) as [e|n]; [congruence|contradiction]. }
      rewrite filter_cons. destruct (decide (Q l)); cbn [length]; lia.
    + assert (key a <> key l) as Hne.
      { intros E. apply Ha. rewrite E. apply list_elem_of_fmap. exists l. auto. }
      rewrite filter_cons. destruct (decide (~ key a = key l)) as [_|N]; [|contradiction].
      rewrite !filter_cons. specialize (IH Hnd Hl).
      destruct (decide (Q a)); cbn [length]; lia.
Qed.

Lemma sync_create (slugify : string -> string) ti de ca ta cr st (s : Project.t)
    (t' : Table Project.t) (d : DB) :
  Project.create slugify ti de ca ta cr st (projects d) = Ok (s, t') ->
  likes_in_sync d -> likes_in_sync (set_projects t' d).
Proof.
  unfold Project.create, likes_in_sync, likes_of. intros E [Hfk Hs].
  destruct (Project.slug_taken _ _); [discriminate|]. inversion E; subst; clear E.
  cbn [set_projects projects likes]. unfold insert. cbn [rows next_pk]. split.
  - intros l Hl. specialize (Hfk l Hl). lia.
  - intros p Hp. apply elem_of_app in Hp. destruct Hp as [Hp|Hp]; [exact (Hs p Hp)|].
    apply list_elem_of_singleton in Hp. subst p.
    destruct (fill_slug_keeps slugify
                (Project.mk (next_pk (projects d)) ti EmptyString de cr None ca ta st
                   false false 0 0 None)) as (-> & _ & _ & -> & _).
    cbn [Project.pk Project.like_count]. rewrite count_none; [reflexivity|].
    intros l Hl E. specialize (Hfk l Hl). lia.
Qed.

Lemma sync_save (slugify : string -> string) (P self s : Project.t)
    (t' : Table Project.t) (d : DB) :
  P ∈ rows (projects d) -> Project.pk self = Project.pk P ->
  Project.like_count self = Project.like_count P ->
  Project.save slugify self (projects d) = Ok (s, t') ->
  likes_in_sync d -> likes_in_sync (set_projects t' d).
Proof.
  unfold Project.save, likes_in_sync, likes_of. intros HP Hpk Hlc E [Hfk Hs].
  destruct (fill_slug_keeps slugify self) as (Kpk & _ & _ & Klc & _).
  destruct (Project.slug_taken _ _); [discriminate|].
  rewrite (has_row_elem P) in E by (try exact HP; congruence).
  inversion E; subst; clear E.
  cbn [set_projects projects likes]. unfold update_where. cbn [rows next_pk].
  split; [exact Hfk|]. intros p Hp.
  apply list_elem_of_fmap in Hp as (x & -> & Hx).
  destruct (decide _) as [e|_]; [|exact (Hs x Hx)].
  rewrite Klc, Kpk, Hlc, Hpk. exact (Hs P HP).
Qed.

Lemma sync_view_count (slugify : string -> string) (self s : Project.t)
    (t' : Table Project.t) (d : DB) :
  Project.save_update_fields slugify
    (fun s q => Project.set_view_count (Project.view_count s) q) self (projects d)
  = Ok (s, t') ->
  likes_in_sync d -> likes_in_sync (set_projects t' d).
Proof.
  unfold Project.save_update_fields, likes_in_sync, likes_of. intros E [Hfk Hs].
  destruct (Project.has_row _ _); inversion E; subst; clear E.
  cbn [set_projects projects likes]. unfold update_where. cbn [rows next_pk].
  split; [exact Hfk|]. intros p Hp.
  apply list_elem_of_fmap in Hp as (x & -> & Hx).
  destruct (decide _) as [e|_]; exact (Hs x Hx).
Qed.

Lemma sync_delete (P : Project.t) (d : DB) :
  likes_in_sync d -> likes_in_sync (Project_delete P d).
Proof.
  unfold Project_delete, likes_in_sync, likes_of. intros [Hfk Hs].
  cbn [set_projects set_likes set_comments set_associations projects likes].
  unfold delete_where. cbn [rows next_pk]. split.
  - intros l Hl. apply elem_filter in Hl as [Hl _]. exact (Hfk l Hl).
  - intros p Hp. apply elem_filter in Hp as [Hp Hne].
    rewrite (Hs p Hp). f_equal. unfold count. f_equal.
    rewrite list_filter_filter. apply list_filter_iff. intros l. split; [|tauto].
    intros E. split; [exact E|]. congruence.
Qed.

Lemma sync_liked (U : nat) (P : Project.t) (d : DB) :
  P ∈ rows (projects d) -> Project.pk P < next_pk (projects d) ->
  likes_in_sync d -> likes_in_sync (liked U P d).
Proof.
  unfold liked, likes_in_sync, likes_of. intros HP Hlt [Hfk Hs].
  cbn [set_projects set_likes projects likes]. unfold update_where, insert.
  cbn [rows next_pk]. split.
  - intros l Hl. apply elem_of_app in Hl. destruct Hl as [Hl|Hl]; [exact (Hfk l Hl)|].
    apply list_elem_of_singleton in Hl. subst l. exact Hlt.
  - intros p Hp. apply list_elem_of_fmap in Hp as (x & -> & Hx).
    rewrite count_app. unfold count at 2. rewrite filter_cons, filter_nil.
    cbn [ProjectLike.project].
    destruct (decide (Project.pk x = Project.pk P)) as [e|n].
    + unfold Project.set_like_count. cbn [Project.pk Project.like_count].
      rewrite e, (Hs P HP).
      destruct (decide (Project.pk P = Project.pk P)) as [_|N]; [|contradiction].
      cbn [length]. lia.
    + destruct (decide (Project.pk P = Project.pk x)) as [e|_]; [congruence|].
      cbn [length]. rewrite (Hs x Hx). lia.
Qed.

Lemma sync_unliked (l : ProjectLike.t) (P : Project.t) (d : DB) :
  P ∈ rows (projects d) -> l ∈ rows (likes d) ->
  ProjectLike.project l = Project.pk P ->
  NoDup (ProjectLike.pk <$> rows (likes d)) ->
  likes_in_sync d -> likes_in_sync (unliked l P d).
Proof.
  unfold unliked, likes_in_sync, likes_of. intros HP Hl Hlp Hnd [Hfk Hs].
  cbn [set_projects set_likes projects likes]. unfold update_where, delete_where.
  cbn [rows next_pk]. split.
  - intros x Hx. apply elem_filter in Hx as [Hx _]. exact (Hfk x Hx).
  - intros p Hp. apply list_elem_of_fmap in Hp as (x & -> & Hx).
    destruct (decide (Project.pk x = Project.pk P)) as [e|n].
    + unfold Project.set_like_count. cbn [Project.pk Project.like_count].
      rewrite e, (Hs P HP).
      pose proof (count_delete_key ProjectLike.pk
                    (fun y => ProjectLike.project y = Project.pk P) l _ Hnd Hl) as Hc.
      destruct (decide (ProjectLike.project l = Project.pk P)) as [_|N];
        [|contradiction].
      lia.
    + rewrite (Hs x Hx).
      pose proof (count_delete_key ProjectLike.pk
                    (fun y => ProjectLike.project y = Project.pk x) l _ Hnd Hl) as Hc.
      destruct (decide (ProjectLike.project l = Project.pk x)) as [E|_];
        [congruence|].
      lia.
Qed.

Ltac sync_found :=
  match goal with
  | H : get_object_or_404 _ _ _ = Ok _ |- _ => exact (proj1 (get_Ok_elem _ _ _ _ H))
  end.

Ltac sync_leaf :=
  first
    [ assumption
    | eapply sync_create; eassumption
    | apply sync_delete; assumption
    | eapply sync_view_count; eassumption
    | eapply sync_save; [| | |eassumption|assumption];
        [sync_found|reflexivity|reflexivity] ].

Section Sync.
Variable slugify : string -> string.
Variable int : string -> option Z.
Variable normalize_email : string -> string.
Variable guess_type : string -> option string.
Variable reverse : string -> nat -> option string.

Lemma project_like_sync (request : HttpRequest) (slug : string) (d : DB) :
  constraints d -> likes_in_sync d ->
  likes_in_sync (db_after (project_like slugify request slug d)).
Proof.
  intros C S.
  destruct (user request) as [|U] eqn:HU.
  { unfold project_like, login_required. rewrite HU. exact S. }
  destruct (get_object_or_404 "Project" (by_slug slug) (rows (projects d)))
    as [P|e] eqn:Hget.
  2:{ unfold project_like, login_required. rewrite HU, Hget.
      cbn [is_authenticated]. rewrite db_after_uncaught. exact S. }
  rewrite (project_like_run slugify request slug d P U HU Hget).
  destruct (get_Ok_elem _ _ _ _ Hget) as [HP _].
  destruct C as (_ & _ & _ & _ & _ & Cp & _ & Cl & _).
  destruct (first _ _) as [l|] eqn:Hfirst; cbn [db_after].
  - destruct (first_Some_elem _ _ _ Hfirst) as [Hl [Hlp _]].
    apply sync_unliked; try assumption. exact (proj1 Cl).
  - apply sync_liked; try assumption.
    exact (proj1 (Forall_forall _ _) (proj1 (proj2 Cp)) P HP).
Qed.

Lemma run_likes_in_sync (r : Route) (request : HttpRequest) (d : DB) :
  constraints d -> likes_in_sync d ->
  likes_in_sync (run slugify int normalize_email guess_type reverse r request d).
Proof.
  intros C S.
  destruct r as [v| | | | |]; cbn [run].
  - destruct v; cbn [serve]; try apply project_like_sync; try assumption.
    + unfold register. step_start. step_cases; sync_leaf.
    + unfold team_create. step_start. step_cases; sync_leaf.
    + unfold team_detail. step_start. step_cases; sync_leaf.
    + unfold team_add_member. step_start. step_cases; sync_leaf.
    + unfold project_create. step_start. step_cases; sync_leaf.
    + unfold project_edit. step_start. step_cases; sync_leaf.
    + unfold project_detail. step_start. step_cases; sync_leaf.
    + unfold project_publish. step_start. step_cases; sync_leaf.
    + unfold project_delete. step_start. unfold Project_delete. step_cases; sync_leaf.
    + unfold project_comment. step_start. step_cases; sync_leaf.
    + unfold media_delete. step_start. step_cases; sync_leaf.
    + unfold add_media_to_project. step_start. step_cases; sync_leaf.
    + unfold remove_media_from_project. step_start. step_cases; sync_leaf.
  - unfold profile_edit. step_start. step_cases; sync_leaf.
  - unfold profile_view. step_start. step_cases; sync_leaf.
  - unfold media_detail. step_start. step_cases; sync_leaf.
  - unfold media_edit. step_start. step_cases; sync_leaf.
  - unfold media_upload. step_start. step_cases; sync_leaf.
Qed.
End Sync.

(** X14. The like counter is the number of likes: in a database that
    satisfies the constraints and in which every [like_count] equals the
    number of [ProjectLike] rows of its project, the same holds after every
    run of requests, whatever creates, edits, publishes, views, likes,
    unlikes or deletes projects in between. *)
Theorem like_count_is_the_number_of_likes (slugify : string -> string)
    (int : string -> option Z) (normalize_email : string -> string)
    (guess_type : string -> option string) (reverse : string -> nat -> option string)
    (l : list (Route * HttpRequest)) (d : DB) :
  constraints d -> likes_in_sync d ->
  let d' := run_all slugify int normalize_email guess_type reverse l d in
  forall p, p ∈ rows (projects d') ->
            Project.like_count p = Z.of_nat (likes_of (Project.pk p) d').
Proof.
  intros C S d'.
  enough (constraints d' /\ likes_in_sync d') as [_ [_ H]] by exact H.
  subst d'. revert d C S. induction l as [|[r request] l IH]; intros d C S.
  - split; assumption.
  - cbn [run_all]. apply IH.
    + eapply db_step_constraints; [apply run_db_step|exact C].
    + apply run_likes_in_sync; assumption.
Qed.

(** From the empty database: Alice and Bob register, Alice creates a
    project, both like it and Alice withdraws her like: the counter is 1. *)
Lemma like_count_is_the_number_of_likes_witness :
  let signup name :=
    Example.request "POST" AnonymousUser
      [("username", name); ("email", name); ("password", "pw");
       ("password_confirm", "pw")] 0 in
  let like u := (R_view (V_project_like "logo"),
                 Example.request "POST" (Authenticated u) [] 0) in
  let l :=
    [ (R_view V_register, signup "alice"); (R_view V_register, signup "bob");
      (R_view V_project_create,
       Example.request "POST" (Authenticated 1) [("title", "logo")] 0);
      like 1; like 2; like 1 ] in
  let d' := run_all Example.slugify Example.int Example.normalize_email
              (fun _ => None) (fun _ _ => None) l empty_db in
  Project.like_count <$> rows (projects d') = [1%Z]
  /\ forall p, p ∈ rows (projects d') ->
               Project.like_count p = Z.of_nat (likes_of (Project.pk p) d').
Proof.
  intros signup like l d'. split; [reflexivity|].
  apply (like_count_is_the_number_of_likes Example.slugify Example.int
           Example.normalize_email (fun _ => None) (fun _ _ => None) l empty_db).
  - exact empty_db_constraints.
  - split; [intros x Hx|intros p Hp]; apply elem_of_nil in Hx || apply elem_of_nil in Hp;
      contradiction.
Defined.

Lemma counters_never_negative_witness :
  counters_ok
    (run_all Example.slugify Example.int Example.normalize_email
       (fun _ => None) (fun _ _ => None)
       [ (R_view (V_project_like "logo"),
          Example.request "POST" (Authenticated Example.bob) [] 0);
         (R_view (V_project_like "logo"),
          Example.request "POST" (Authenticated Example.bob) [] 0);
         (R_view (V_project_detail "logo"),
          Example.request "GET" (Authenticated Example.alice) [] 0) ]
       Example.world).
Proof.
  apply counters_never_negative.
  constructor; [split; discriminate|constructor].
Defined.

(** ** Editing *)

Lemma same_frame_refl (q : Project.t) : same_frame q q.
Proof. repeat split. Qed.

Lemma Forall2_same_frame_refl (l : list Project.t) : Forall2 same_frame l l.
Proof. induction l; constructor; auto using same_frame_refl. Qed.

Lemma save_same_frame (slugify : string -> string) (P self s : Project.t)
    (t t' : Table Project.t) :
  NoDup (Project.pk <$> rows t) -> P ∈ rows t -> same_frame P self ->
  Project.save slugify self t = Ok (s, t') ->
  Forall2 same_frame (rows t) (rows t').
Proof.
  intros Hnd HP Hf E. unfold Project.save in E.
  assert (same_frame P (Project.fill_slug slugify self)) as Hf'.
  { unfold Project.fill_slug. destruct (negb _); exact Hf. }
  destruct (Project.slug_taken _ _); [discriminate|].
  destruct (fill_slug_keeps slugify self) as (Kpk & _).
  rewrite (has_row_elem P) in E by (try exact HP; rewrite Kpk; exact (proj1 Hf)).
  inversion E; subst; clear E. unfold update_where. cbn [rows].
  apply Forall2_fmap_r, Forall_Forall2_diag, Forall_forall. intros x Hx.
  unfold compose; cbv beta.
  destruct (decide (Project.pk x = Project.pk (Project.fill_slug slugify self)))
    as [e|_]; [|apply same_frame_refl].
  assert (x = P) as ->; [|exact Hf'].
  apply (unique_column_row Project.pk t); try assumption.
  rewrite e, Kpk. exact (proj1 Hf).
Qed.

(** X15. Editing a project changes no table but the projects table and, in
    a table with distinct keys, leaves the key, creator, team, status,
    publication time and both counters of every project as they are; who
    may not edit the project changes nothing at all. *)
Theorem project_edit_frame (slugify : string -> string) (int : string -> option Z)
    (request : HttpRequest) (slug : string) (d : DB) :
  NoDup (Project.pk <$> rows (projects d)) ->
  let d' := db_after (project_edit slugify int request slug d) in
  d' = set_projects (projects d') d
  /\ Forall2 same_frame (rows (projects d)) (rows (projects d'))
  /\ ((forall P, P ∈ rows (projects d) -> Project.slug P = slug ->
                 Project.can_edit (memberships d) P (user request) = false) ->
      d' = d).
Proof.
  intros Hnd d'. subst d'. unfold project_edit, login_required.
  destruct (is_authenticated (user request));
    [|cbn [db_after]; destruct d; repeat split; auto using Forall2_same_frame_refl].
  destruct (get_object_or_404 "Project" (by_slug slug) (rows (projects d)))
    as [P|e] eqn:Hget;
    [|rewrite db_after_uncaught; destruct d; repeat split;
      auto using Forall2_same_frame_refl].
  destruct (get_Ok_elem _ _ _ _ Hget) as [HP Hs].
  destruct (Project.can_edit (memberships d) P (user request)) eqn:Hedit;
    cbn [negb]; [|cbn [db_after]; destruct d; repeat split;
      auto using Forall2_same_frame_refl].
  assert (forall X : Prop,
            ((forall P, P ∈ rows (projects d) -> Project.slug P = slug ->
                Project.can_edit (memberships d) P (user request) = false) -> X))
    as Hcan.
  { intros X Hno. rewrite (Hno P HP Hs) in Hedit. discriminate. }
  destruct (bool_decide (method request = "POST"));
    [|cbn [db_after]; destruct d; repeat split; auto using Forall2_same_frame_refl].
  cbv zeta.
  match goal with
  | |- context [match ?c with Ok _ => _ | Raise _ => _ end] =>
      destruct c as [self|e] eqn:Hself
  end;
    [|rewrite db_after_uncaught; destruct d; repeat split;
      auto using Forall2_same_frame_refl].
  assert (same_frame P self) as Hf.
  { destruct (Py.truthy_opt _).
    - unfold get_category in Hself. destruct (int _); [|discriminate].
      destruct (objects_get _ _ _); inversion Hself; subst.
      repeat split.
    - inversion Hself; subst. repeat split. }
  destruct (Project.save slugify self (projects d)) as [[s t']|e] eqn:Hsave;
    cbn [db_after];
    [|destruct d; repeat split; auto using Forall2_same_frame_refl].
  split; [reflexivity|]. split; [|apply Hcan].
  cbn [set_projects projects]. eapply save_same_frame; eassumption.
Qed.

Lemma project_edit_frame_witness :
  let request :=
    Example.request "POST" (Authenticated Example.dan)
      [("title", "Mark"); ("is_public", "on")] 0 in
  let d' := db_after (project_edit Example.slugify Example.int request "logo"
                        Example.world) in
  rows (projects d')
  = [Project.set_is_public true (Project.set_title "Mark" Example.logo)]
  /\ Forall2 same_frame (rows (projects Example.world)) (rows (projects d')).
Proof.
  intros request d'. split; [reflexivity|].
  refine (proj1 (proj2 (project_edit_frame Example.slugify Example.int request "logo"
                          Example.world _))).
  apply (bool_decide_unpack _). vm_compute. exact I.
Defined.

(** ** Media and associations, continued *)

(** X16. Whatever the request, [add_media_to_project] either leaves the
    database as it is or appends one association: of the one project with
    the slug, which the actor may edit, to a media asset that the actor
    owns, placed after the associations the project already has. *)
Theorem add_media_only_own_media (int : string -> option Z)
    (request : HttpRequest) (slug : string) (d : DB) :
  let d' := db_after (add_media_to_project int request slug d) in
  d' = d
  \/ exists U P M,
       user request = Authenticated U
       /\ P ∈ rows (projects d) /\ Project.slug P = slug
       /\ Project.can_edit (memberships d) P (user request) = true
       /\ M ∈ rows (media_assets d) /\ MediaAsset.owner M = U
       /\ (forall a, a ∈ rows (associations d) ->
             ~ (ProjectMediaAssociation.project a = Project.pk P
                /\ ProjectMediaAssociation.media a = MediaAsset.pk M))
       /\ d' = set_associations
                 (insert (fun k =>
                    ProjectMediaAssociation.mk k (Project.pk P) (MediaAsset.pk M)
                      (Z.of_nat (get_media_count (associations d) P))
                      (POST_get request "caption" EmptyString)
                      (POST_on request "is_cover"))
                    (associations d)) d.
Proof.
  intros d'. subst d'. unfold add_media_to_project, login_required.
  destruct (user request) as [|U] eqn:HU; cbn [is_authenticated]; [left; reflexivity|].
  destruct (get_object_or_404 "Project" (by_slug slug) (rows (projects d)))
    as [P|e] eqn:Hget; [|left; apply db_after_uncaught].
  destruct (get_Ok_elem _ _ _ _ Hget) as [HP Hs].
  destruct (Project.can_edit (memberships d) P (Authenticated U)) eqn:Hedit;
    cbn [negb]; [|left; reflexivity].
  destruct (bool_decide (method request = "POST")); [|left; reflexivity].
  cbv zeta.
  destruct (get_owned_media int (POST request !! "media_id") (Authenticated U) d)
    as [M|e] eqn:Hmedia; [|destruct e; left; reflexivity].
  unfold get_owned_media in Hmedia.
  destruct (POST request !! "media_id"); [|discriminate].
  destruct (int _); [|discriminate].
  apply objects_get_Ok, filter_singleton_elem in Hmedia. destruct Hmedia as [HM [_ Ho]].
  unfold ProjectMediaAssociation.create.
  destruct (exists_ _ _) eqn:Hdup; [left; reflexivity|].
  right. exists U, P, M. cbn [db_after]. cbn [actor_pk] in Ho.
  repeat match goal with |- _ /\ _ => split end;
    try assumption; try reflexivity; try congruence.
  intros a Ha Hpair. exact (proj1 (exists_false_forall _ _) Hdup a Ha Hpair).
Qed.

(** X17. Whatever the request, [media_delete] either leaves the database
    as it is or was sent by POST by the owner of the asset; then the asset
    and every association of it are gone, and every other asset and
    association stays. *)
Theorem media_delete_effects (request : HttpRequest) (pk : nat) (d : DB) :
  let d' := db_after (media_delete request pk d) in
  d' = d
  \/ exists M,
       M ∈ rows (media_assets d) /\ MediaAsset.pk M = pk
       /\ user request = Authenticated (MediaAsset.owner M)
       /\ method request = "POST"
       /\ d' = MediaAsset_delete M d
       /\ (forall m, m ∈ rows (media_assets d') <->
                     m ∈ rows (media_assets d) /\ MediaAsset.pk m <> pk)
       /\ (forall a, a ∈ rows (associations d') <->
                     a ∈ rows (associations d) /\ ProjectMediaAssociation.media a <> pk).
Proof.
  intros d'. subst d'. unfold media_delete, login_required.
  destruct (user request) as [|U] eqn:HU; cbn [is_authenticated]; [left; reflexivity|].
  destruct (get_object_or_404 "MediaAsset" _ (rows (media_assets d)))
    as [M|e] eqn:Hget; [|left; apply db_after_uncaught].
  destruct (get_Ok_elem _ _ _ _ Hget) as [HM Hpk].
  destruct (is_user (MediaAsset.owner M) (Authenticated U)) eqn:Hown;
    cbn [negb]; [|left; reflexivity].
  destruct (bool_decide (method request = "POST")) eqn:Hpost; [|left; reflexivity].
  right. exists M. cbn [db_after].
  apply bool_decide_eq_true_1 in Hown, Hpost. cbn [actor_pk] in Hown.
  repeat match goal with |- _ /\ _ => split end;
    try assumption; try reflexivity; try congruence.
  - intros m. unfold MediaAsset_delete, delete_where.
    cbn [media_assets set_media_assets rows]. rewrite elem_filter, Hpk. tauto.
  - intros a. unfold MediaAsset_delete, delete_where.
    cbn [associations set_media_assets set_associations rows].
    rewrite elem_filter, Hpk. tauto.
Qed.

(** X18. [remove_media_from_project] reads nothing of a request but its
    user: the HTTP method and the form play no part, so a GET of an editor
    removes the association as a POST does. *)
Theorem remove_media_ignores_method (request request' : HttpRequest)
    (pk : nat) (d : DB) :
  user request = user request' ->
  remove_media_from_project request pk d = remove_media_from_project request' pk d.
Proof.
  intros HU. unfold remove_media_from_project, login_required. rewrite HU.
  reflexivity.
Qed.

Lemma remove_media_ignores_method_witness :
  let d :=
    set_associations
      (mkTable [ProjectMediaAssociation.mk 1 1 1 0 EmptyString false] 2)
      Example.world in
  let get := Example.request "GET" (Authenticated Example.alice) [] 0 in
  let post := Example.request "POST" (Authenticated Example.alice) [] 0 in
  remove_media_from_project get 1 d = remove_media_from_project post 1 d
  /\ rows (associations (db_after (remove_media_from_project get 1 d))) = [].
Proof.
  intros d get post. split; [|reflexivity].
  apply (remove_media_ignores_method get post 1 d). reflexivity.
Defined.

(** ** Strings *)

Lemma chars_app (x y : string) :
  String.list_ascii_of_string (x +:+ y) = String.list_ascii_of_string x ++ String.list_ascii_of_string y.
Proof.
  induction x as [|c x IH]; [reflexivity|].
  change (String c x +:+ y) with (String c (x +:+ y)).
  cbn [String.list_ascii_of_string]. rewrite IH. reflexivity.
Qed.

Lemma chars_rev_app (s acc : string) :
  String.list_ascii_of_string (String.rev_app s acc)
  = reverse (String.list_ascii_of_string s) ++ String.list_ascii_of_string acc.
Proof.
  revert acc. induction s as [|c s IH]; intros acc; [reflexivity|].
  cbn [String.rev_app String.list_ascii_of_string]. rewrite IH, reverse_cons.
  cbn [String.list_ascii_of_string]. rewrite <- app_assoc. reflexivity.
Qed.

Lemma chars_rev (s : string) :
  String.list_ascii_of_string (String.rev s) = reverse (String.list_ascii_of_string s).
Proof. unfold String.rev. rewrite chars_rev_app. apply app_nil_r. Qed.

Lemma chars_inj (x y : string) :
  String.list_ascii_of_string x = String.list_ascii_of_string y -> x = y.
Proof.
  intros E. rewrite <- (String.string_of_list_ascii_of_string x),
    <- (String.string_of_list_ascii_of_string y), E. reflexivity.
Qed.

Lemma rev_rev (s : string) : String.rev (String.rev s) = s.
Proof. apply chars_inj. rewrite !chars_rev. apply reverse_involutive. Qed.

Lemma rev_append (x y : string) :
  String.rev (x +:+ y) = String.rev y +:+ String.rev x.
Proof.
  apply chars_inj. rewrite chars_rev, !chars_app, !chars_rev. apply reverse_app.
Qed.

Lemma lstrip_suffix (s : string) : exists ws, s = ws +:+ Py.lstrip s.
Proof.
  induction s as [|c s [ws IH]]; [exists EmptyString; reflexivity|].
  cbn [Py.lstrip]. destruct (Py.isspace c).
  - exists (String c ws).
    change (String c ws +:+ Py.lstrip s) with (String c (ws +:+ Py.lstrip s)).
    rewrite <- IH. reflexivity.
  - exists EmptyString. reflexivity.
Qed.

Lemma lstrip_head (s : string) (c : ascii) (r : string) :
  Py.lstrip s = String c r -> Py.isspace c = false.
Proof.
  induction s as [|a s IH]; [discriminate|]. cbn [Py.lstrip].
  destruct (Py.isspace a) eqn:E; [exact IH|]. intros [= <- _]. exact E.
Qed.

Lemma lstrip_fixed (s : string) :
  (forall c r, s = String c r -> Py.isspace c = false) -> Py.lstrip s = s.
Proof.
  destruct s as [|c r]; [reflexivity|]. intros Hc. cbn [Py.lstrip].
  rewrite (Hc c r eq_refl). reflexivity.
Qed.

(** [s.strip().strip() == s.strip()] *)
Lemma strip_idempotent (s : string) : Py.strip (Py.strip s) = Py.strip s.
Proof.
  unfold Py.strip, Py.rstrip.
  set (a := Py.lstrip s). set (b := Py.lstrip (String.rev a)).
  assert (Py.lstrip (String.rev b) = String.rev b) as ->.
  { apply lstrip_fixed. intros c r E.
    destruct (lstrip_suffix (String.rev a)) as [ws Hws]. fold b in Hws.
    assert (a = String c (r +:+ String.rev ws)) as Ha.
    { rewrite <- (rev_rev a), Hws, rev_append, E. reflexivity. }
    exact (lstrip_head s _ _ Ha). }
  rewrite rev_rev.
  assert (Py.lstrip b = b) as ->; [|reflexivity].
  apply lstrip_fixed. intros c r E. exact (lstrip_head _ _ _ E).
Qed.

Lemma lstrip_chars (c : ascii) (s : string) :
  c ∈ String.list_ascii_of_string (Py.lstrip s) -> c ∈ String.list_ascii_of_string s.
Proof.
  destruct (lstrip_suffix s) as [ws E]. intros Hc. rewrite E, chars_app.
  apply elem_of_app. right. exact Hc.
Qed.

Lemma strip_chars (c : ascii) (s : string) :
  c ∈ String.list_ascii_of_string (Py.strip s) -> c ∈ String.list_ascii_of_string s.
Proof.
  unfold Py.strip, Py.rstrip. rewrite chars_rev, elem_of_reverse. intros Hc.
  apply lstrip_chars in Hc. rewrite chars_rev, elem_of_reverse in Hc.
  apply lstrip_chars in Hc. exact Hc.
Qed.

Lemma split_on_pieces (sep : ascii) (s : string) :
  Forall (fun w => sep ∉ String.list_ascii_of_string w) (Str.split_on sep s).
Proof.
  induction s as [|c s IH]; cbn [Str.split_on].
  - constructor; [|constructor]. cbn. apply not_elem_of_nil.
  - destruct (bool_decide_reflect (c = sep)) as [->|N].
    + constructor; [|exact IH]. cbn. apply not_elem_of_nil.
    + destruct (Str.split_on sep s) as [|w ws].
      * constructor; [|constructor]. cbn. intros Hc.
        apply elem_of_cons in Hc. destruct Hc as [Hc|Hc]; [congruence|].
        apply elem_of_nil in Hc. exact Hc.
      * apply Forall_cons in IH. destruct IH as [Hw Hws].
        constructor; [|exact Hws]. cbn. intros Hc.
        apply elem_of_cons in Hc. destruct Hc as [Hc|Hc]; [congruence|tauto].
Qed.

Lemma split_on_piece (sep : ascii) (s : string) :
  sep ∉ String.list_ascii_of_string s -> Str.split_on sep s = [s].
Proof.
  induction s as [|c s IH]; [reflexivity|].
  cbn [Str.split_on String.list_ascii_of_string]. intros Hn.
  rewrite bool_decide_eq_false_2 by (intros ->; apply Hn; left).
  rewrite IH; [reflexivity|]. intros Hs. apply Hn. right. exact Hs.
Qed.

Lemma split_on_cons (sep : ascii) (s r : string) :
  sep ∉ String.list_ascii_of_string s ->
  Str.split_on sep (s +:+ String sep r) = s :: Str.split_on sep r.
Proof.
  induction s as [|c s IH]; intros Hn.
  - change (EmptyString +:+ String sep r) with (String sep r). cbn [Str.split_on].
    rewrite bool_decide_eq_true_2 by reflexivity. reflexivity.
  - cbn [String.list_ascii_of_string] in Hn.
    change (String c s +:+ String sep r) with (String c (s +:+ String sep r)).
    cbn [Str.split_on].
    rewrite bool_decide_eq_false_2 by (intros ->; apply Hn; left).
    rewrite IH; [reflexivity|]. intros Hs. apply Hn. right. exact Hs.
Qed.

Lemma split_on_join (sep : ascii) (ts : list string) :
  ts <> [] -> Forall (fun t => sep ∉ String.list_ascii_of_string t) ts ->
  Str.split_on sep (Py.join (String sep EmptyString) ts) = ts.
Proof.
  induction ts as [|t ts IH]; [congruence|]. intros _ Hts.
  apply Forall_cons in Hts. destruct Hts as [Ht Hts].
  destruct ts as [|t' ts]; [exact (split_on_piece sep t Ht)|].
  change (Py.join (String sep EmptyString) (t :: t' :: ts))
    with (t +:+ String sep (Py.join (String sep EmptyString) (t' :: ts))).
  rewrite split_on_cons by exact Ht. f_equal. apply IH; [discriminate|exact Hts].
Qed.

(** ** Tags *)

(** X19. Every tag that [get_tags_list] returns is clean: not empty,
    without white space at either end, and without a comma. *)
Theorem get_tags_list_clean (self : Project.t) :
  Forall clean_tag (get_tags_list self).
Proof.
  unfold get_tags_list. apply Forall_fmap, Forall_forall. intros w Hw.
  apply elem_filter in Hw. destruct Hw as [Hw Ht]. unfold compose, clean_tag.
  split; [|split].
  - intros E. rewrite E in Ht. discriminate.
  - apply strip_idempotent.
  - intros Hc. apply strip_chars in Hc.
    exact (proj1 (Forall_forall _ _) (split_on_pieces _ _) w Hw Hc).
Qed.

(** X20. Clean ASCII tags joined by commas are the tags that
    [get_tags_list] gives back, in the same order. *)
Theorem get_tags_list_of_joined (self : Project.t) (ts : list string) :
  Forall (fun t => Py.isascii t = true) ts ->
  Forall clean_tag ts ->
  get_tags_list (Project.set_tags (Py.join "," ts) self) = ts.
Proof.
  intros _ Hts. unfold get_tags_list, Project.set_tags. cbn [Project.tags].
  destruct ts as [|t ts]; [reflexivity|].
  rewrite (split_on_join ","%char (t :: ts)); [|discriminate|].
  2:{ eapply Forall_impl; [exact Hts|]. intros x (_ & _ & Hx). exact Hx. }
  generalize (t :: ts) Hts. clear. intros ts Hts.
  induction Hts as [|t ts (Hne & Hs & _) _ IH]; [reflexivity|].
  rewrite filter_cons, Hs. destruct t as [|c t]; [congruence|].
  cbn [Py.truthy]. destruct (decide (true = true)) as [_|N]; [|congruence].
  rewrite fmap_cons, Hs, IH. reflexivity.
Qed.

Lemma get_tags_list_of_joined_witness :
  get_tags_list (Project.set_tags "logo,brand identity,2024" Example.logo)
  = ["logo"; "brand identity"; "2024"].
Proof.
  apply (get_tags_list_of_joined Example.logo ["logo"; "brand identity"; "2024"]).
  - repeat constructor.
  - repeat constructor; try discriminate;
      apply (bool_decide_unpack _); vm_compute; exact I.
Defined.

(** ** File names *)

Lemma after_last_absent (sep : ascii) (s : string) :
  sep ∉ String.list_ascii_of_string s -> OsPath.after_last sep s = None.
Proof.
  induction s as [|c s IH]; [reflexivity|].
  cbn [OsPath.after_last String.list_ascii_of_string]. intros Hn.
  rewrite IH by (intros Hs; apply Hn; right; exact Hs).
  rewrite bool_decide_eq_false_2 by (intros ->; apply Hn; left). reflexivity.
Qed.

Lemma from_last_dot_absent (s : string) :
  "."%char ∉ String.list_ascii_of_string s -> OsPath.from_last_dot s = None.
Proof.
  induction s as [|c s IH]; [reflexivity|].
  cbn [OsPath.from_last_dot String.list_ascii_of_string]. intros Hn.
  rewrite IH by (intros Hs; apply Hn; right; exact Hs).
  rewrite bool_decide_eq_false_2 by (intros ->; apply Hn; left). reflexivity.
Qed.

Lemma from_last_dot_ext (stem ext : string) :
  "."%char ∉ String.list_ascii_of_string ext ->
  OsPath.from_last_dot (stem +:+ String "."%char ext) = Some (String "."%char ext).
Proof.
  intros Hn. induction stem as [|c stem IH].
  - change (EmptyString +:+ String "."%char ext) with (String "."%char ext).
    cbn [OsPath.from_last_dot]. rewrite from_last_dot_absent by exact Hn.
    rewrite bool_decide_eq_true_2 by reflexivity. reflexivity.
  - change (String c stem +:+ String "."%char ext)
      with (String c (stem +:+ String "."%char ext)).
    cbn [OsPath.from_last_dot]. rewrite IH. reflexivity.
Qed.

Lemma lower_char_dot (c : ascii) : Str.lower_char c = "."%char -> c = "."%char.
Proof.
  destruct c as [[] [] [] [] [] [] [] []]; vm_compute; intros E;
    first [reflexivity | discriminate E].
Qed.

Lemma lower_no_dot (s : string) :
  "."%char ∉ String.list_ascii_of_string s ->
  Str.lstrip_char "."%char (Str.lower s) = Str.lower s.
Proof.
  destruct s as [|c s]; [reflexivity|].
  cbn [Str.lower Str.lstrip_char String.list_ascii_of_string]. intros Hn.
  rewrite bool_decide_eq_false_2; [reflexivity|].
  intros E. apply lower_char_dot in E. apply Hn. rewrite E. left.
Qed.

(** X21. The extension that [media_upload] tests is the text after the
    last dot of the file name, in lower case: for a bare file name
    [stem.ext] that does not start with a dot and has an ASCII extension,
    it is [ext.lower()]. *)
Theorem file_extension_of_name (stem ext : string) (c : ascii) :
  Py.isascii ext = true ->
  c <> "."%char ->
  "/"%char ∉ String.list_ascii_of_string (String c stem) ->
  "/"%char ∉ String.list_ascii_of_string ext ->
  "."%char ∉ String.list_ascii_of_string ext ->
  file_extension_of (String c stem +:+ String "."%char ext) = Str.lower ext.
Proof.
  intros _ Hc Hstem Hext Hdot. unfold file_extension_of, OsPath.splitext_ext.
  rewrite after_last_absent.
  2:{ rewrite chars_app. cbn [String.list_ascii_of_string].
      intros Hin. apply elem_of_app in Hin. destruct Hin as [Hin|Hin]; [tauto|].
      apply elem_of_cons in Hin. destruct Hin as [Hin|Hin]; [discriminate|tauto]. }
  cbn [default from_option]. unfold id.
  change (String c stem +:+ String "."%char ext)
    with (String c (stem +:+ String "."%char ext)).
  cbn [Str.lstrip_char]. rewrite bool_decide_eq_false_2 by exact Hc.
  change (String c (stem +:+ String "."%char ext))
    with (String c stem +:+ String "."%char ext).
  rewrite from_last_dot_ext by exact Hdot.
  cbn [default from_option Str.lower]. unfold id.
  change (Str.lower_char "."%char) with "."%char. cbn [Str.lstrip_char].
  rewrite bool_decide_eq_true_2 by reflexivity. apply lower_no_dot, Hdot.
Qed.

Lemma file_extension_of_name_witness :
  file_extension_of "Holiday.2024.JPG" = "jpg"
  /\ file_type_of (file_extension_of "Holiday.2024.JPG") = "image".
Proof.
  split; [|reflexivity].
  apply (file_extension_of_name "oliday.2024" "JPG" "H"%char).
  - reflexivity.
  - discriminate.
  - apply (bool_decide_unpack _). vm_compute. exact I.
  - apply (bool_decide_unpack _). vm_compute. exact I.
  - apply (bool_decide_unpack _). vm_compute. exact I.
Defined.

(** ** Uploads *)

Lemma allowed_is_media_kind (ext : string) :
  ext ∈ ALLOWED_FILE_TYPES -> file_type_of ext ∈ media_kinds.
Proof.
  unfold ALLOWED_FILE_TYPES. intros H.
  repeat (apply elem_of_cons in H; destruct H as [->|H];
          [apply (bool_decide_unpack _); vm_compute; exact I|]).
  apply elem_of_nil in H. destruct H.
Qed.

(** X22. Whatever the request, [media_upload] either leaves the database
    as it is or inserts one media asset: the request is a POST of a user
    who becomes the owner, the file is at most [MAX_UPLOAD_SIZE] bytes, its
    extension is allowed, its MIME type is known, and the kind stored is
    image, video, audio or document, never "other". *)
Theorem media_upload_effects (guess_type : string -> option string)
    (reverse : string -> nat -> option string) (request : HttpRequest)
    (FILES : gmap string UploadedFile) (d : DB) :
  let d' := upload_db (media_upload guess_type reverse request FILES d) in
  d' = d
  \/ exists U file,
       user request = Authenticated U /\ method request = "POST"
       /\ FILES !! "file" = Some file
       /\ (file_size file <= MAX_UPLOAD_SIZE)%Z
       /\ file_extension_of (file_name file) ∈ ALLOWED_FILE_TYPES
       /\ guess_type (file_name file) <> None
       /\ file_type_of (file_extension_of (file_name file)) ∈ media_kinds
       /\ d' = set_media_assets
                 (insert (fun k =>
                    MediaAsset.mk k (POST_get request "title" (file_name file))
                      (POST_get request "description" EmptyString)
                      (file_type_of (file_extension_of (file_name file))) U
                      (bool_decide (POST request !! "is_public" = Some "true")))
                    (media_assets d)) d.
Proof.
  intros d'. subst d'. unfold media_upload.
  destruct (user request) as [|U] eqn:HU; cbn [is_authenticated negb];
    [left; reflexivity|].
  destruct (bool_decide_reflect (method request = "POST")) as [Hpost|_];
    cbn [negb]; [|left; reflexivity].
  destruct (FILES !! "file") as [file|] eqn:Hfile; [|left; reflexivity].
  cbv zeta.
  destruct (Z.ltb_spec MAX_UPLOAD_SIZE (file_size file)) as [_|Hsize];
    [left; reflexivity|].
  destruct (bool_decide_reflect
              (file_extension_of (file_name file) ∈ ALLOWED_FILE_TYPES))
    as [Hext|_]; cbn [negb]; [|left; reflexivity].
  cbn [user_instance]. unfold MediaAsset_create.
  destruct (guess_type (file_name file)) as [mime|] eqn:Hmime; [|left; reflexivity].
  destruct (MediaAsset_get_absolute_url reverse (next_pk (media_assets d)));
    right; exists U, file; cbn [upload_db];
    (repeat match goal with |- _ /\ _ => split end);
    try assumption; try reflexivity; try congruence;
    apply allowed_is_media_kind, Hext.
Qed.

(** X23. [MediaAsset.get_absolute_url] reverses ['media:asset_detail'],
    a name that [media/urls.py] does not define.  With a [reverse] that
    resolves no name outside that file, [media_upload] never answers with
    the success body: whenever it stores the asset, it answers with status
    500 and the asset stays stored. *)
Theorem media_upload_never_reports_success (guess_type : string -> option string)
    (reverse : string -> nat -> option string) (request : HttpRequest)
    (FILES : gmap string UploadedFile) (d : DB) :
  reverse_within_urls reverse ->
  let o := media_upload guess_type reverse request FILES d in
  (forall body, upload_response o <> JsonResponse 200 body)
  /\ (upload_db o <> d ->
      upload_response o
      = JsonResponse 500
          (JsonFailure "Upload failed: " (NoReverseMatch "media:asset_detail"))).
Proof.
  intros Hrev o. subst o.
  assert (forall k, reverse "media:asset_detail" k = None) as Hnone.
  { intros k. apply (Hrev "asset_detail" k).
    apply (bool_decide_unpack _). vm_compute. exact I. }
  unfold media_upload, MediaAsset_get_absolute_url, MediaAsset_create.
  repeat match goal with
         | |- context [match ?x with _ => _ end] =>
             lazymatch x with
             | context [match _ with _ => _ end] => fail
             | _ => destruct x eqn:?
             end
         end;
    cbn [upload_response upload_db];
    try match goal with
        | H : reverse _ _ = Some _ |- _ => rewrite Hnone in H; discriminate H
        end;
    (split; [intros body; discriminate|intros Hne; try reflexivity; try congruence]).
Qed.

Lemma media_upload_never_reports_success_witness :
  let request := Example.request "POST" (Authenticated Example.alice) [] 0 in
  let FILES : gmap string UploadedFile :=
    {[ "file" := mkUploadedFile "photo.png" 2048 ]} in
  let o := media_upload (fun _ => Some "image/png") (fun _ _ => None) request FILES
             Example.world in
  length (rows (media_assets (upload_db o))) = 3
  /\ upload_response o
     = JsonResponse 500
         (JsonFailure "Upload failed: " (NoReverseMatch "media:asset_detail")).
Proof.
  intros request FILES o. split; [reflexivity|].
  refine (proj2 (media_upload_never_reports_success (fun _ => Some "image/png")
                   (fun _ _ => None) request FILES Example.world _) _).
  - intros name k _. reflexivity.
  - vm_compute. discriminate.
Defined.

(** ** Profiles *)

(** X24. A visit to a portfolio is counted only if the portfolio is public
    and the visitor is not its owner; it then adds exactly one to the
    [total_views] of the owner's profile.  Every other request to
    [profile_view] leaves the database as it is. *)
Theorem profile_view_counts_foreign_visits (request : HttpRequest)
    (username : string) (d : DB) :
  let d' := db_after (profile_view request username d) in
  d' = d
  \/ exists viewed profile,
       viewed ∈ rows (users d) /\ User.username viewed = username
       /\ profile ∈ rows (profiles d) /\ UserProfile.user profile = User.pk viewed
       /\ UserProfile.is_public_portfolio profile = true
       /\ user request <> Authenticated (User.pk viewed)
       /\ d' = set_profiles
                 (update_where (fun p => UserProfile.pk p = UserProfile.pk profile)
                    (UserProfile_set_total_views (UserProfile.total_views profile + 1))
                    (profiles d)) d.
Proof.
  intros d'. subst d'. unfold profile_view.
  destruct (get_object_or_404 "User" _ (rows (users d))) as [viewed|e] eqn:Hu;
    [|left; apply db_after_uncaught].
  destruct (get_Ok_elem _ _ _ _ Hu) as [Hv Hname].
  destruct (profile_of_user (User.pk viewed) d) as [profile|e] eqn:Hp;
    [|left; apply db_after_uncaught].
  unfold profile_of_user in Hp. apply objects_get_Ok, filter_singleton_elem in Hp.
  destruct Hp as [Hp Hpu].
  destruct (UserProfile.is_public_portfolio profile) eqn:Hpub; cbn [negb andb].
  - destruct (is_user (User.pk viewed) (user request)) eqn:Hown; cbn [negb];
      [left; reflexivity|].
    right. exists viewed, profile. cbn [db_after].
    repeat match goal with |- _ /\ _ => split end; try assumption; try reflexivity.
    intros E. rewrite E in Hown. unfold is_user in Hown. cbn [actor_pk] in Hown.
    rewrite bool_decide_eq_true_2 in Hown by reflexivity. discriminate.
  - destruct (negb (is_user (User.pk viewed) (user request))); left; reflexivity.
Qed.

(** X25. [profile_edit] writes to the actor's own rows only: in a
    profiles table with distinct keys, every user row and every profile of
    somebody else stays as it is, no row changes its key, no user its
    username, no profile its user or its view total, and no other table
    changes. *)
Theorem profile_edit_touches_own_rows (request : HttpRequest) (d : DB) (U : nat) :
  NoDup (UserProfile.pk <$> rows (profiles d)) ->
  user request = Authenticated U ->
  let d' := db_after (profile_edit request d) in
  Forall2 (fun x x' => User.pk x' = User.pk x /\ User.username x' = User.username x
                       /\ (User.pk x <> U -> x' = x))
    (rows (users d)) (rows (users d'))
  /\ Forall2 (fun p p' => UserProfile.pk p' = UserProfile.pk p
                          /\ UserProfile.user p' = UserProfile.user p
                          /\ UserProfile.total_views p' = UserProfile.total_views p
                          /\ (UserProfile.user p <> U -> p' = p))
       (rows (profiles d)) (rows (profiles d'))
  /\ d' = set_users (users d') (set_profiles (profiles d') d).
Proof.
  intros Hnd HU d'. subst d'.
  assert (Forall2 (fun x x' => User.pk x' = User.pk x
                               /\ User.username x' = User.username x
                               /\ (User.pk x <> U -> x' = x))
            (rows (users d)) (rows (users d))
          /\ Forall2 (fun p p' => UserProfile.pk p' = UserProfile.pk p
                                  /\ UserProfile.user p' = UserProfile.user p
                                  /\ UserProfile.total_views p' = UserProfile.total_views p
                                  /\ (UserProfile.user p <> U -> p' = p))
               (rows (profiles d)) (rows (profiles d))
          /\ d = set_users (users d) (set_profiles (profiles d) d)) as Hsame.
  { split; [|split]; [| |destruct d; reflexivity];
      apply Forall_Forall2_diag, Forall_forall; intros; repeat split. }
  unfold profile_edit, login_required. rewrite HU. cbn [is_authenticated user_instance].
  destruct (profile_of_user U d) as [profile|e] eqn:Hp;
    [|rewrite db_after_uncaught; exact Hsame].
  unfold profile_of_user in Hp. apply objects_get_Ok, filter_singleton_elem in Hp.
  destruct Hp as [Hp Hpu].
  destruct (bool_decide (method request = "POST")); [|exact Hsame].
  cbv zeta. cbn [db_after users profiles set_users set_profiles].
  unfold update_where. cbn [rows]. split; [|split; [|reflexivity]].
  - apply Forall2_fmap_r, Forall_Forall2_diag, Forall_forall. intros x _.
    unfold compose. cbv beta. destruct (decide (User.pk x = U)) as [e|n].
    + repeat split. intros N. contradiction.
    + repeat split.
  - apply Forall2_fmap_r, Forall_Forall2_diag, Forall_forall. intros p Hin.
    unfold compose. cbv beta.
    destruct (decide _) as [e|n]; [|repeat split].
    assert (p = profile) as ->.
    { apply (unique_column_row UserProfile.pk (profiles d)); try assumption. }
    repeat split. intros N. contradiction.
Qed.

Lemma profile_edit_touches_own_rows_witness :
  let request :=
    Example.request "POST" (Authenticated Example.bob)
      [("role", "designer"); ("email", "alice@example.org")] 0 in
  let d' := db_after (profile_edit request Example.world) in
  User.email <$> rows (users d')
  = ["alice@example.org"; "alice@example.org"; "carol@example.org"; "dan@example.org"]
  /\ Forall2 (fun p p' => UserProfile.pk p' = UserProfile.pk p
                          /\ UserProfile.user p' = UserProfile.user p
                          /\ UserProfile.total_views p' = UserProfile.total_views p
                          /\ (UserProfile.user p <> Example.bob -> p' = p))
       (rows (profiles Example.world)) (rows (profiles d')).
Proof.
  intros request d'. split; [reflexivity|].
  refine (proj1 (proj2 (profile_edit_touches_own_rows request Example.world
                          Example.bob _ eq_refl))).
  apply (bool_decide_unpack _). vm_compute. exact I.
Defined.

(** ** Registration, continued *)

Lemma split_go_spaces (s : string) :
  Forall (fun c => Py.isspace c = true) (String.list_ascii_of_string s) ->
  Py.split_go None s = [].
Proof.
  induction s as [|c s IH]; [reflexivity|].
  cbn [String.list_ascii_of_string Py.split_go]. intros H.
  apply Forall_cons in H. destruct H as [-> H]. exact (IH H).
Qed.

(** X26. A full name that consists of white space only never registers:
    [full_name.split()[0]] raises inside the [try], so whatever the other
    fields are, no user is created and no success is announced. *)
Theorem register_blank_full_name (normalize_email : string -> string)
    (request : HttpRequest) (d : DB) (full_name : string) :
  POST request !! "full_name" = Some full_name ->
  full_name <> EmptyString ->
  Forall (fun c => Py.isspace c = true) (String.list_ascii_of_string full_name) ->
  let o := register normalize_email request d in
  db_after o = d /\ Forall (fun m => forall text, m <> Msg success text) (messages o).
Proof.
  intros Hfn Hne Hsp o. subst o. unfold register, POST_get. rewrite Hfn.
  cbn [default from_option]. unfold id.
  assert (first_name_of full_name = Raise IndexError) as Hfirst.
  { unfold first_name_of, Py.split. rewrite truthy_nonempty by exact Hne.
    rewrite split_go_spaces by exact Hsp. reflexivity. }
  unfold atomic. rewrite Hfirst.
  repeat match goal with
         | |- context [if ?b then _ else _] => destruct b
         end;
    cbn [db_after messages]; (split; [reflexivity|]);
    repeat constructor; intros text; discriminate.
Qed.

Lemma register_blank_full_name_witness :
  let request :=
    Example.request "POST" AnonymousUser
      [("username", "erin"); ("email", "erin@example.org"); ("password", "pw");
       ("password_confirm", "pw"); ("full_name", "  ")] 0 in
  let o := register Example.normalize_email request Example.world in
  messages o = [MsgExc error "Registration failed: " IndexError]
  /\ db_after o = Example.world.
Proof.
  intros request o. split; [reflexivity|].
  refine (proj1 (register_blank_full_name Example.normalize_email request
                   Example.world "  " eq_refl _ _)).
  - discriminate.
  - repeat constructor.
Defined.

(** ** What is stored *)

Lemma Forall_insert {A : Type} (Q : A -> Prop) (row : nat -> A) (t : Table A) :
  Q (row (next_pk t)) -> Forall Q (rows t) -> Forall Q (rows (insert row t)).
Proof.
  intros Hr Ht. unfold insert. cbn [rows]. apply Forall_app. split; [exact Ht|].
  constructor; [exact Hr|constructor].
Qed.

Ltac stored_leaf :=
  unfold comments_stripped, media_kinds_ok in *;
  cbn [set_users set_profiles set_teams set_memberships set_projects set_comments
       set_likes set_media_assets set_associations comments media_assets] in *;
  first
    [ assumption
    | apply Forall_delete_where; assumption
    | apply Forall_insert; [|assumption]; cbn [ProjectComment.content]; split;
        [ intros E;
          match goal with H : negb (Py.truthy _) = false |- _ =>
            rewrite E in H; discriminate H
          end
        | apply strip_idempotent ]
    | match goal with
      | H : MediaAsset_create _ _ _ _ _ _ _ = Ok _ |- _ =>
          unfold MediaAsset_create in H;
          match type of H with
          | context [match ?m with Some _ => _ | None => _ end] => destruct m
          end; inversion H; subst; clear H
      end;
      apply Forall_insert; [|assumption]; cbn [MediaAsset.file_type];
      apply allowed_is_media_kind;
      match goal with
      | H : negb (bool_decide (_ ∈ ALLOWED_FILE_TYPES)) = false |- _ =>
          apply negb_false_iff, bool_decide_eq_true_1 in H; exact H
      end
    | apply Forall_update_where; [|assumption]; intros x Hx Ex;
      match goal with
      | H : get_object_or_404 _ _ (rows (media_assets ?d)) = Ok ?M,
        C : Forall _ (rows (media_assets ?d)) |- _ =>
          exact (proj1 (Forall_forall _ _) C M (proj1 (get_Ok_elem _ _ _ _ H)))
      end ].

Section Stored.
Variable slugify : string -> string.
Variable int : string -> option Z.
Variable normalize_email : string -> string.
Variable guess_type : string -> option string.
Variable reverse : string -> nat -> option string.

Lemma run_stored (r : Route) (request : HttpRequest) (d : DB) :
  let d' := run slugify int normalize_email guess_type reverse r request d in
  (comments_stripped d -> comments_stripped d')
  /\ (media_kinds_ok d -> media_kinds_ok d').
Proof.
  cbv zeta. destruct r as [v| | | | |]; cbn [run].
  - destruct v; cbn [serve].
    + unfold register. step_start. step_cases; split; intros ?; stored_leaf.
    + unfold team_create. step_start. step_cases; split; intros ?; stored_leaf.
    + unfold team_detail. step_start. step_cases; split; intros ?; stored_leaf.
    + unfold team_add_member. step_start. step_cases; split; intros ?; stored_leaf.
    + unfold project_create. step_start. step_cases; split; intros ?; stored_leaf.
    + unfold project_edit. step_start. step_cases; split; intros ?; stored_leaf.
    + unfold project_detail. step_start. step_cases; split; intros ?; stored_leaf.
    + unfold project_publish. step_start. step_cases; split; intros ?; stored_leaf.
    + unfold project_delete. step_start. step_cases; split; intros ?; stored_leaf.
    + unfold project_comment. step_start. step_cases; split; intros ?; stored_leaf.
    + unfold project_like. step_start. step_cases; split; intros ?; stored_leaf.
    + unfold media_delete. step_start. step_cases; split; intros ?; stored_leaf.
    + unfold add_media_to_project. step_start. step_cases; split; intros ?; stored_leaf.
    + unfold remove_media_from_project. step_start.
      step_cases; split; intros ?; stored_leaf.
  - unfold profile_edit. step_start. step_cases; split; intros ?; stored_leaf.
  - unfold profile_view. step_start. step_cases; split; intros ?; stored_leaf.
  - unfold media_detail. step_start. step_cases; split; intros ?; stored_leaf.
  - unfold media_edit. step_start. step_cases; split; intros ?; stored_leaf.
  - unfold media_upload. step_start. step_cases; split; intros ?; stored_leaf.
Qed.

Lemma run_all_stored (l : list (Route * HttpRequest)) (d : DB) :
  let d' := run_all slugify int normalize_email guess_type reverse l d in
  (comments_stripped d -> comments_stripped d')
  /\ (media_kinds_ok d -> media_kinds_ok d').
Proof.
  cbv zeta. revert d. induction l as [|[r request] l IH]; intros d; [tauto|].
  cbn [run_all].
  destruct (run_stored r request d) as [C1 M1].
  destruct (IH (run slugify int normalize_email guess_type reverse r request d))
    as [C2 M2].
  split; auto.
Qed.
End Stored.

(** X27. No stored comment is empty or begins or ends with white space:
    what holds of the comments of a database holds after every run of
    requests, [project_comment] storing the stripped text only. *)
Theorem comments_are_stored_stripped (slugify : string -> string)
    (int : string -> option Z) (normalize_email : string -> string)
    (guess_type : string -> option string) (reverse : string -> nat -> option string)
    (l : list (Route * HttpRequest)) (d : DB) :
  comments_stripped d ->
  comments_stripped (run_all slugify int normalize_email guess_type reverse l d).
Proof.
  exact (proj1 (run_all_stored slugify int normalize_email guess_type reverse l d)).
Qed.

Lemma comments_are_stored_stripped_witness :
  let d' :=
    run_all Example.slugify Example.int Example.normalize_email
      (fun _ => None) (fun _ _ => None)
      [ (R_view (V_project_comment "logo"),
         Example.request "POST" (Authenticated Example.carol)
           [("content", "  well done ")] 0) ]
      Example.world in
  ProjectComment.content <$> rows (comments d') = ["well done"]
  /\ comments_stripped d'.
Proof.
  intros d'. split; [reflexivity|].
  apply (comments_are_stored_stripped Example.slugify Example.int
           Example.normalize_email (fun _ => None) (fun _ _ => None)).
  constructor.
Defined.

(** X28. The kind of every stored media asset is image, video, audio or
    document: an upload whose extension maps to "other" is refused before
    anything is stored, and no request changes the kind of an asset. *)
Theorem media_kind_is_never_other (slugify : string -> string)
    (int : string -> option Z) (normalize_email : string -> string)
    (guess_type : string -> option string) (reverse : string -> nat -> option string)
    (l : list (Route * HttpRequest)) (d : DB) :
  media_kinds_ok d ->
  media_kinds_ok (run_all slugify int normalize_email guess_type reverse l d).
Proof.
  exact (proj2 (run_all_stored slugify int normalize_email guess_type reverse l d)).
Qed.

Lemma media_kind_is_never_other_witness :
  let alice post := Example.request "POST" (Authenticated Example.alice) post 0 in
  let d' :=
    run_all Example.slugify Example.int Example.normalize_email
      (fun _ => Some "application/octet-stream") (fun _ _ => None)
      [ (R_media_upload {[ "file" := mkUploadedFile "talk.MP4" 4096 ]}, alice []);
        (R_media_upload {[ "file" := mkUploadedFile "notes.txt" 10 ]}, alice []);
        (R_media_edit 3, alice [("title", "Talk")]) ]
      Example.world in
  MediaAsset.file_type <$> rows (media_assets d') = ["image"; "image"; "video"]
  /\ media_kinds_ok d'.
Proof.
  intros alice d'. split; [reflexivity|].
  apply (media_kind_is_never_other Example.slugify Example.int
           Example.normalize_email (fun _ => Some "application/octet-stream")
           (fun _ _ => None)).
  repeat (constructor; [apply (bool_decide_unpack _); vm_compute; exact I|]).
  constructor.
Defined.

(** ** Ownership *)

Section InheritsFacts.
Context {A C : Type} (key : A -> nat) (col : A -> C).

Lemma inherits_refl (t : Table A) : inherits key col t t.
Proof. split; [lia|]. intros x Hx. left. exists x. auto. Qed.

Lemma inherits_trans (t t' t'' : Table A) :
  inherits key col t t' -> inherits key col t' t'' -> inherits key col t t''.
Proof.
  intros [Hn H] [Hn' H']. split; [lia|]. intros x'' Hx''.
  destruct (H' x'' Hx'') as [(x' & Hx' & Ek & Ec)|Hnew]; [|right; lia].
  destruct (H x' Hx') as [(x & Hx & Ek' & Ec')|Hnew]; [|right; lia].
  left. exists x. repeat split; [exact Hx|congruence|congruence].
Qed.

Lemma inherits_insert (t : Table A) (row : nat -> A) :
  key (row (next_pk t)) = next_pk t -> inherits key col t (insert row t).
Proof.
  intros Hk. unfold insert. split; cbn [rows next_pk]; [lia|]. intros x' Hx'.
  apply elem_of_app in Hx'. destruct Hx' as [Hx'|Hx'].
  - left. exists x'. auto.
  - apply list_elem_of_singleton in Hx'. subst x'. right. lia.
Qed.

Lemma inherits_delete (t : Table A) (R : A -> Prop) `{forall x, Decision (R x)} :
  inherits key col t (delete_where R t).
Proof.
  unfold delete_where. split; cbn [rows next_pk]; [lia|]. intros x' Hx'.
  apply elem_filter in Hx'. left. exists x'. tauto.
Qed.

Lemma inherits_update (t : Table A) (R : A -> Prop) `{forall x, Decision (R x)}
    (f : A -> A) :
  (forall x, x ∈ rows t -> R x ->
     exists y, y ∈ rows t /\ key y = key (f x) /\ col y = col (f x)) ->
  inherits key col t (update_where R f t).
Proof.
  intros Hf. unfold update_where. split; cbn [rows next_pk]; [lia|]. intros x' Hx'.
  apply list_elem_of_fmap in Hx' as (x & -> & Hx). left.
  destruct (decide (R x)) as [r|_]; [exact (Hf x Hx r)|]. exists x. auto.
Qed.

Lemma inherits_keeps (t t' : Table A) :
  NoDup (key <$> rows t) -> Forall (fun x => key x < next_pk t) (rows t) ->
  inherits key col t t' -> keeps_column key col t t'.
Proof.
  intros Hnd Hlt [_ H] x x' Hx Hx' Ek.
  destruct (H x' Hx') as [(y & Hy & Eky & Ecy)|Hnew].
  - assert (y = x) as <-; [|congruence].
    apply (unique_column_row key t); try assumption. congruence.
  - pose proof (proj1 (Forall_forall _ _) Hlt x Hx) as Hk. cbv beta in Hk. lia.
Qed.
End InheritsFacts.

Lemma fill_slug_owners (slugify : string -> string) (self : Project.t) :
  Project.pk (Project.fill_slug slugify self) = Project.pk self
  /\ project_owners (Project.fill_slug slugify self) = project_owners self.
Proof. unfold Project.fill_slug. destruct (negb _); split; reflexivity. Qed.

Lemma Project_create_inherits (slugify : string -> string) ti de ca ta cr st
    (s : Project.t) (t t' : Table Project.t) :
  Project.create slugify ti de ca ta cr st t = Ok (s, t') ->
  inherits Project.pk project_owners t t'.
Proof.
  unfold Project.create. intros E.
  destruct (Project.slug_taken _ _); [discriminate|]. inversion E; subst; clear E.
  apply inherits_insert. apply fill_slug_owners.
Qed.

Lemma Project_save_inherits (slugify : string -> string) (P self s : Project.t)
    (t t' : Table Project.t) :
  P ∈ rows t -> Project.pk self = Project.pk P ->
  project_owners self = project_owners P ->
  Project.save slugify self t = Ok (s, t') ->
  inherits Project.pk project_owners t t'.
Proof.
  intros HP Hpk Hown E. unfold Project.save in E.
  destruct (fill_slug_owners slugify self) as [Kpk Kown].
  destruct (Project.slug_taken _ _); [discriminate|].
  rewrite (has_row_elem P) in E by (try exact HP; congruence).
  inversion E; subst; clear E. apply inherits_update. intros x _ _.
  exists P. repeat split; [exact HP|congruence|congruence].
Qed.

Lemma Project_save_update_fields_inherits (slugify : string -> string)
    (copy : Project.t -> Project.t -> Project.t) (self s : Project.t)
    (t t' : Table Project.t) :
  (forall a q, Project.pk (copy a q) = Project.pk q
               /\ project_owners (copy a q) = project_owners q) ->
  Project.save_update_fields slugify copy self t = Ok (s, t') ->
  inherits Project.pk project_owners t t'.
Proof.
  intros Hc E. unfold Project.save_update_fields in E.
  destruct (Project.has_row _ _); inversion E; subst; clear E.
  apply inherits_update. intros x Hx _. exists x.
  destruct (Hc (Project.fill_slug slugify self) x) as [-> ->]. auto.
Qed.

Lemma MediaAsset_create_inherits ti de ft mt ow pub (k : nat)
    (t t' : Table MediaAsset.t) :
  MediaAsset_create ti de ft mt ow pub t = Ok (k, t') ->
  inherits MediaAsset.pk MediaAsset.owner t t'.
Proof.
  unfold MediaAsset_create. intros E. destruct mt; inversion E; subst; clear E.
  apply inherits_insert. reflexivity.
Qed.

Lemma Team_create_inherits na de ow pub (k : nat) (t t' : Table Team.t) :
  Team.create na de ow pub t = Ok (k, t') -> inherits Team.pk Team.owner t t'.
Proof.
  unfold Team.create. intros E. destruct (exists_ _ _); inversion E; subst; clear E.
  apply inherits_insert. reflexivity.
Qed.

Ltac own_split := repeat match goal with |- _ /\ _ => split end.

Ltac own_found :=
  match goal with
  | H : get_object_or_404 _ _ _ = Ok _ |- _ => exact (proj1 (get_Ok_elem _ _ _ _ H))
  end.

Ltac own_leaf :=
  cbn [set_users set_profiles set_teams set_memberships set_projects set_comments
       set_likes set_media_assets set_associations projects media_assets teams];
  first
    [ apply inherits_refl
    | apply inherits_delete
    | eapply Project_create_inherits; eassumption
    | eapply MediaAsset_create_inherits; eassumption
    | eapply Team_create_inherits; eassumption
    | eapply Project_save_update_fields_inherits; [|eassumption];
        intros; split; reflexivity
    | eapply Project_save_inherits; [| | |eassumption];
        [own_found|reflexivity|reflexivity]
    | apply inherits_update; intros x _ _;
      match goal with
      | H : get_object_or_404 _ _ _ = Ok ?M |- _ =>
          exists M; split; [exact (proj1 (get_Ok_elem _ _ _ _ H))|split; reflexivity]
      end ].

Section Ownership.
Variable slugify : string -> string.
Variable int : string -> option Z.
Variable normalize_email : string -> string.
Variable guess_type : string -> option string.
Variable reverse : string -> nat -> option string.

Lemma run_inherits (r : Route) (request : HttpRequest) (d : DB) :
  let d' := run slugify int normalize_email guess_type reverse r request d in
  inherits Project.pk project_owners (projects d) (projects d')
  /\ inherits MediaAsset.pk MediaAsset.owner (media_assets d) (media_assets d')
  /\ inherits Team.pk Team.owner (teams d) (teams d').
Proof.
  cbv zeta. destruct r as [v| | | | |]; cbn [run].
  - destruct v; cbn [serve].
    + unfold register. step_start. step_cases; own_split; own_leaf.
    + unfold team_create. step_start. step_cases; own_split; own_leaf.
    + unfold team_detail. step_start. step_cases; own_split; own_leaf.
    + unfold team_add_member. step_start. step_cases; own_split; own_leaf.
    + unfold project_create. step_start. step_cases; own_split; own_leaf.
    + unfold project_edit. step_start. step_cases; own_split; own_leaf.
    + unfold project_detail. step_start. step_cases; own_split; own_leaf.
    + unfold project_publish. step_start. step_cases; own_split; own_leaf.
    + unfold project_delete. step_start. step_cases; own_split; own_leaf.
    + unfold project_comment. step_start. step_cases; own_split; own_leaf.
    + unfold project_like. step_start. step_cases; own_split; own_leaf.
    + unfold media_delete. step_start. step_cases; own_split; own_leaf.
    + unfold add_media_to_project. step_start. step_cases; own_split; own_leaf.
    + unfold remove_media_from_project. step_start. step_cases; own_split; own_leaf.
  - unfold profile_edit. step_start. step_cases; own_split; own_leaf.
  - unfold profile_view. step_start. step_cases; own_split; own_leaf.
  - unfold media_detail. step_start. step_cases; own_split; own_leaf.
  - unfold media_edit. step_start. step_cases; own_split; own_leaf.
  - unfold media_upload. step_start. step_cases; own_split; own_leaf.
Qed.

Lemma run_all_inherits (l : list (Route * HttpRequest)) (d : DB) :
  let d' := run_all slugify int normalize_email guess_type reverse l d in
  inherits Project.pk project_owners (projects d) (projects d')
  /\ inherits MediaAsset.pk MediaAsset.owner (media_assets d) (media_assets d')
  /\ inherits Team.pk Team.owner (teams d) (teams d').
Proof.
  cbv zeta. revert d. induction l as [|[r request] l IH]; intros d.
  - cbn [run_all]. own_split; apply inherits_refl.
  - cbn [run_all].
    destruct (run_inherits r request d) as (P1 & M1 & T1).
    destruct (IH (run slugify int normalize_email guess_type reverse r request d))
      as (P2 & M2 & T2).
    own_split; eapply inherits_trans; eassumption.
Qed.
End Ownership.

(** X29. Ownership is never transferred: in a database that satisfies the
    constraints, whatever requests are served, a project found under its
    key has the creator and the team it had, a media asset its owner, and a
    team its owner. *)
Theorem ownership_never_changes (slugify : string -> string)
    (int : string -> option Z) (normalize_email : string -> string)
    (guess_type : string -> option string) (reverse : string -> nat -> option string)
    (l : list (Route * HttpRequest)) (d : DB) :
  constraints d ->
  ownership_kept d (run_all slugify int normalize_email guess_type reverse l d).
Proof.
  intros (_ & _ & Ct & _ & _ & Cp & _ & _ & Cm & _).
  destruct (run_all_inherits slugify int normalize_email guess_type reverse l d)
    as (P & M & T).
  split; [|split]; apply inherits_keeps; try assumption.
  - exact (proj1 Cp).
  - exact (proj1 (proj2 Cp)).
  - exact (proj1 Cm).
  - exact (proj1 (proj2 Cm)).
  - exact (proj1 Ct).
  - exact (proj1 (proj2 Ct)).
Qed.

Lemma ownership_never_changes_witness :
  let d' :=
    run_all Example.slugify Example.int Example.normalize_email
      (fun _ => None) (fun _ _ => None)
      [ (R_view (V_project_edit "logo"),
         Example.request "POST" (Authenticated Example.dan) [("title", "Mark")] 0);
        (R_media_edit 1,
         Example.request "POST" (Authenticated Example.alice) [("title", "Photo")] 0);
        (R_view (V_project_publish "logo"),
         Example.request "POST" (Authenticated Example.dan) [] 7) ]
      Example.world in
  Project.title <$> rows (projects d') = ["Mark"]
  /\ ownership_kept Example.world d'.
Proof.
  intros d'. split; [reflexivity|].
  apply (ownership_never_changes Example.slugify Example.int Example.normalize_email
           (fun _ => None) (fun _ _ => None)).
  exact example_world_constraints.
Defined.

(** ** Team owners *)

Lemma owners_after_add (T : Team.t) (u : nat) (r : string)
    (tbl : Table TeamMembership.t) (d : DB) :
  T ∈ rows (teams d) -> Team.pk T < next_pk (teams d) ->
  TeamMembership.create (Team.pk T) u r (memberships d) = Ok tbl ->
  owners_are_members d -> owners_are_members (set_memberships tbl d).
Proof.
  unfold TeamMembership.create, owners_are_members. intros HT Hlt E [Hfk Hown].
  destruct (exists_ _ _); inversion E; subst; clear E.
  cbn [set_memberships memberships teams]. unfold insert. cbn [rows]. split.
  - intros m Hm. apply elem_of_app in Hm. destruct Hm as [Hm|Hm]; [exact (Hfk m Hm)|].
    apply list_elem_of_singleton in Hm. subst m. exact Hlt.
  - intros t Ht. destruct (Hown t Ht) as (m & Hm & H). exists m. split; [|exact H].
    apply elem_of_app. left. exact Hm.
Qed.

Lemma owners_after_create (na de : string) (u : nat) (pub : bool) (k : nat)
    (tt : Table Team.t) (d : DB) :
  Team.create na de u pub (teams d) = Ok (k, tt) ->
  owners_are_members d ->
  exists tm,
    TeamMembership.create k u "owner" (memberships d) = Ok tm
    /\ owners_are_members (set_memberships tm (set_teams tt d)).
Proof.
  unfold Team.create, owners_are_members. intros E [Hfk Hown].
  destruct (exists_ _ (rows (teams d))); inversion E; subst; clear E.
  unfold TeamMembership.create.
  rewrite (proj2 (exists_false_forall _ (rows (memberships d)))).
  2:{ intros m Hm [_ Et]. specialize (Hfk m Hm). lia. }
  eexists. split; [reflexivity|].
  cbn [set_memberships set_teams memberships teams]. unfold insert.
  cbn [rows next_pk]. split.
  - intros m Hm. apply elem_of_app in Hm. destruct Hm as [Hm|Hm].
    + specialize (Hfk m Hm). lia.
    + apply list_elem_of_singleton in Hm. subst m. cbn. lia.
  - intros t Ht. apply elem_of_app in Ht. destruct Ht as [Ht|Ht].
    + destruct (Hown t Ht) as (m & Hm & H). exists m. split; [|exact H].
      apply elem_of_app. left. exact Hm.
    + apply list_elem_of_singleton in Ht. subst t. eexists. split.
      * apply elem_of_app. right. apply list_elem_of_singleton. reflexivity.
      * repeat split.
Qed.

Ltac owners_leaf :=
  cbn [set_users set_profiles set_teams set_memberships set_projects set_comments
       set_likes set_media_assets set_associations teams memberships] in *;
  first
    [ assumption
    | match goal with
      | H : Team.create _ _ _ _ (teams ?d) = Ok _, S : owners_are_members ?d |- _ =>
          destruct (owners_after_create _ _ _ _ _ _ _ H S) as (tm & E1 & E2);
          first [ congruence
                | match goal with
                  | H' : TeamMembership.create _ _ _ _ = Ok _ |- _ =>
                      rewrite E1 in H'; inversion H'; subst; exact E2
                  end ]
      end
    | match goal with
      | H : get_object_or_404 "Team" _ (rows (teams ?d)) = Ok ?T,
        C : constraints ?d |- _ =>
          eapply (owners_after_add T); [exact (proj1 (get_Ok_elem _ _ _ _ H))| |
                                       eassumption|assumption];
          destruct C as (_ & _ & Ct & _);
          exact (proj1 (Forall_forall _ _) (proj1 (proj2 Ct)) T
                   (proj1 (get_Ok_elem _ _ _ _ H)))
      end ].

Section Owners.
Variable slugify : string -> string.
Variable int : string -> option Z.
Variable normalize_email : string -> string.
Variable guess_type : string -> option string.
Variable reverse : string -> nat -> option string.

Lemma run_owners (r : Route) (request : HttpRequest) (d : DB) :
  constraints d -> owners_are_members d ->
  owners_are_members (run slugify int normalize_email guess_type reverse r request d).
Proof.
  intros C S.
  destruct r as [v| | | | |]; cbn [run].
  - destruct v; cbn [serve].
    + unfold register. step_start. step_cases; owners_leaf.
    + unfold team_create. step_start. step_cases; owners_leaf.
    + unfold team_detail. step_start. step_cases; owners_leaf.
    + unfold team_add_member. step_start. step_cases; owners_leaf.
    + unfold project_create. step_start. step_cases; owners_leaf.
    + unfold project_edit. step_start. step_cases; owners_leaf.
    + unfold project_detail. step_start. step_cases; owners_leaf.
    + unfold project_publish. step_start. step_cases; owners_leaf.
    + unfold project_delete. step_start. step_cases; owners_leaf.
    + unfold project_comment. step_start. step_cases; owners_leaf.
    + unfold project_like. step_start. step_cases; owners_leaf.
    + unfold media_delete. step_start. step_cases; owners_leaf.
    + unfold add_media_to_project. step_start. step_cases; owners_leaf.
    + unfold remove_media_from_project. step_start. step_cases; owners_leaf.
  - unfold profile_edit. step_start. step_cases; owners_leaf.
  - unfold profile_view. step_start. step_cases; owners_leaf.
  - unfold media_detail. step_start. step_cases; owners_leaf.
  - unfold media_edit. step_start. step_cases; owners_leaf.
  - unfold media_upload. step_start. step_cases; owners_leaf.
Qed.
End Owners.

(** X30. The owner of a team is always a member of it: in a database that
    satisfies the constraints and in which every team has the 'owner'
    membership of its owner, the same holds after every run of requests;
    [team_create] cannot leave a team without it even though the team and
    the membership are created without a transaction. *)
Theorem team_owner_is_always_member (slugify : string -> string)
    (int : string -> option Z) (normalize_email : string -> string)
    (guess_type : string -> option string) (reverse : string -> nat -> option string)
    (l : list (Route * HttpRequest)) (d : DB) :
  constraints d -> owners_are_members d ->
  let d' := run_all slugify int normalize_email guess_type reverse l d in
  forall t, t ∈ rows (teams d') ->
    Team.is_member (memberships d') (Team.pk t) (Authenticated (Team.owner t)) = true.
Proof.
  intros C S d'.
  enough (constraints d' /\ owners_are_members d') as [_ [_ H]].
  { intros t Ht. destruct (H t Ht) as (m & Hm & Et & Eu & _).
    apply is_member_true. exists m. rewrite Eu. auto. }
  subst d'. revert d C S. induction l as [|[r request] l IH]; intros d C S.
  - split; assumption.
  - cbn [run_all]. apply IH.
    + eapply db_step_constraints; [apply run_db_step|exact C].
    + apply run_owners; assumption.
Qed.

(** From the empty database: Alice registers and founds two teams. *)
Lemma team_owner_is_always_member_witness :
  let alice := Authenticated 1 in
  let l :=
    [ (R_view V_register,
       Example.request "POST" AnonymousUser
         [("username", "alice"); ("email", "a@example.org"); ("password", "pw");
          ("password_confirm", "pw")] 0);
      (R_view V_team_create, Example.request "POST" alice [("name", "Design")] 0);
      (R_view V_team_create, Example.request "POST" alice [("name", "Print")] 0) ] in
  let d' := run_all Example.slugify Example.int Example.normalize_email
              (fun _ => None) (fun _ _ => None) l empty_db in
  Team.name <$> rows (teams d') = ["Design"; "Print"]
  /\ forall t, t ∈ rows (teams d') ->
       Team.is_member (memberships d') (Team.pk t) (Authenticated (Team.owner t)) = true.
Proof.
  intros alice l d'. split; [reflexivity|].
  apply (team_owner_is_always_member Example.slugify Example.int
           Example.normalize_email (fun _ => None) (fun _ _ => None) l empty_db).
  - exact empty_db_constraints.
  - split; intros x Hx; apply elem_of_nil in Hx; destruct Hx.
Defined.
